(** * CS Programs ChromaDB query tool: a shallow embedding and its properties

    The development follows [cs_programs_default_embedding.py] (class
    [CSProgramsDB]); the notebook [cs_programs_notebook.py] repeats the same
    statements at module level.  Python [str] values are sequences of Unicode
    code points, Python floats are IEEE binary64 numbers, exceptions are
    values of an error monad, and the ChromaDB client is an in-memory store
    whose outcomes (faults, search answers) are inputs of the model. *)

From Stdlib Require Import ZArith NArith List Bool Lia String Ascii.
From Stdlib Require Import DecimalString DecimalN DecimalZ DecimalFacts
  DecimalPos.
From Stdlib Require Import PrimFloat FloatOps SpecFloat Uint63.
From stdpp Require Import base option list gmap sorting.

Set Warnings "-inexact-float,-register-all".

Local Open Scope N_scope.
Local Open Scope list_scope.

(** ** Python strings *)

Module PyStr.

(** A Python [str]: a sequence of code points. *)
Definition pystr : Type := list N.

(** UTF-8 decoding, used to write literals; the source files are UTF-8. *)
Fixpoint utf8_decode (bs : list N) : pystr :=
  match bs with
  | [] => []
  | b :: rest =>
      if b <? 0x80 then b :: utf8_decode rest
      else if b <? 0xE0 then
        match rest with
        | b1 :: rest1 =>
            ((b - 0xC0) * 64 + (b1 - 0x80)) :: utf8_decode rest1
        | _ => [b]
        end
      else if b <? 0xF0 then
        match rest with
        | b1 :: b2 :: rest2 =>
            ((b - 0xE0) * 4096 + (b1 - 0x80) * 64 + (b2 - 0x80))
              :: utf8_decode rest2
        | _ => [b]
        end
      else
        match rest with
        | b1 :: b2 :: b3 :: rest3 =>
            ((b - 0xF0) * 262144 + (b1 - 0x80) * 4096 + (b2 - 0x80) * 64
             + (b3 - 0x80)) :: utf8_decode rest3
        | _ => [b]
        end
  end.

Definition U (s : string) : pystr :=
  utf8_decode (List.map N_of_ascii (list_ascii_of_string s)).

(** Code points the program names. *)
Definition APOSTROPHE : N := 39.
Definition QUOTE : N := 34.
Definition SPACE : N := 32.
Definition NEWLINE : N := 10.

(** [s.replace(old, new)] for one-character [old] and [new]. *)
Definition replace_char (old new : N) (s : pystr) : pystr :=
  List.map (fun c => if c =? old then new else c) s.

(** [sep.join(parts)]. *)
Fixpoint join (sep : pystr) (parts : list pystr) : pystr :=
  match parts with
  | [] => []
  | [p] => p
  | p :: rest => p ++ sep ++ join sep rest
  end.


(** Membership in a table of inclusive code point ranges. *)
Definition in_ranges (tbl : list (N * N)) (c : N) : bool :=
  existsb (fun r => (fst r <=? c) && (c <=? snd r)) tbl.

(** [str.isspace] for one character: bidirectional type WS, B or S, or
    category Zs (Unicode 14.0, the tables of CPython 3.11). *)
Definition space_ranges : list (N * N) :=
  [(0x09, 0x0D); (0x1C, 0x20); (0x85, 0x85); (0xA0, 0xA0); (0x1680, 0x1680);
   (0x2000, 0x200A); (0x2028, 0x2029); (0x202F, 0x202F); (0x205F, 0x205F);
   (0x3000, 0x3000)].

Definition is_space (c : N) : bool := in_ranges space_ranges c.

(** [s.strip()]: whitespace removed at both ends. *)
Fixpoint lstrip (s : pystr) : pystr :=
  match s with
  | c :: rest => if is_space c then lstrip rest else s
  | [] => []
  end.

Definition rstrip (s : pystr) : pystr := rev (lstrip (rev s)).

Definition strip (s : pystr) : pystr := rstrip (lstrip s).

(** [str.isdecimal] characters (category Nd): every range is a run of
    digits 0..9, so the digit value is the offset modulo ten. *)
Definition decimal_ranges : list (N * N) :=
  [(0x30, 0x39); (0x660, 0x669); (0x6F0, 0x6F9); (0x7C0, 0x7C9); (0x966, 0x96F);
   (0x9E6, 0x9EF); (0xA66, 0xA6F); (0xAE6, 0xAEF); (0xB66, 0xB6F); (0xBE6, 0xBEF);
   (0xC66, 0xC6F); (0xCE6, 0xCEF); (0xD66, 0xD6F); (0xDE6, 0xDEF); (0xE50, 0xE59);
   (0xED0, 0xED9); (0xF20, 0xF29); (0x1040, 0x1049); (0x1090, 0x1099); (0x17E0, 0x17E9);
   (0x1810, 0x1819); (0x1946, 0x194F); (0x19D0, 0x19D9); (0x1A80, 0x1A89); (0x1A90, 0x1A99);
   (0x1B50, 0x1B59); (0x1BB0, 0x1BB9); (0x1C40, 0x1C49); (0x1C50, 0x1C59); (0xA620, 0xA629);
   (0xA8D0, 0xA8D9); (0xA900, 0xA909); (0xA9D0, 0xA9D9); (0xA9F0, 0xA9F9); (0xAA50, 0xAA59);
   (0xABF0, 0xABF9); (0xFF10, 0xFF19); (0x104A0, 0x104A9); (0x10D30, 0x10D39); (0x11066, 0x1106F);
   (0x110F0, 0x110F9); (0x11136, 0x1113F); (0x111D0, 0x111D9); (0x112F0, 0x112F9); (0x11450, 0x11459);
   (0x114D0, 0x114D9); (0x11650, 0x11659); (0x116C0, 0x116C9); (0x11730, 0x11739); (0x118E0, 0x118E9);
   (0x11950, 0x11959); (0x11C50, 0x11C59); (0x11D50, 0x11D59); (0x11DA0, 0x11DA9); (0x16A60, 0x16A69);
   (0x16AC0, 0x16AC9); (0x16B50, 0x16B59); (0x1D7CE, 0x1D7FF); (0x1E140, 0x1E149); (0x1E2F0, 0x1E2F9);
   (0x1E950, 0x1E959); (0x1FBF0, 0x1FBF9)].

(** Characters that are digits for [str.isdigit] without being decimal:
    superscripts, subscripts, circled and similar digits. *)
Definition digit_only_ranges : list (N * N) :=
  [(0xB2, 0xB3); (0xB9, 0xB9); (0x1369, 0x1371); (0x19DA, 0x19DA); (0x2070, 0x2070);
   (0x2074, 0x2079); (0x2080, 0x2089); (0x2460, 0x2468); (0x2474, 0x247C); (0x2488, 0x2490);
   (0x24EA, 0x24EA); (0x24F5, 0x24FD); (0x24FF, 0x24FF); (0x2776, 0x277E); (0x2780, 0x2788);
   (0x278A, 0x2792); (0x10A40, 0x10A43); (0x10E60, 0x10E68); (0x11052, 0x1105A); (0x1F100, 0x1F10A)].

Definition decimal_value (c : N) : option N :=
  match List.find (fun r => (fst r <=? c) && (c <=? snd r)) decimal_ranges with
  | Some r => Some ((c - fst r) mod 10)
  | None => None
  end.

Definition is_digit_char (c : N) : bool :=
  in_ranges decimal_ranges c || in_ranges digit_only_ranges c.

(** [s.isdigit()]: at least one character and all of them digits. *)
Definition isdigit (s : pystr) : bool :=
  match s with
  | [] => false
  | _ => forallb is_digit_char s
  end.

(** Code points that [repr] escapes ([str.isprintable] is false). *)
Definition nonprintable_ranges : list (N * N) :=
  [(0x0, 0x1F); (0x7F, 0xA0); (0xAD, 0xAD); (0x378, 0x379); (0x380, 0x383);
   (0x38B, 0x38B); (0x38D, 0x38D); (0x3A2, 0x3A2); (0x530, 0x530); (0x557, 0x558);
   (0x58B, 0x58C); (0x590, 0x590); (0x5C8, 0x5CF); (0x5EB, 0x5EE); (0x5F5, 0x605);
   (0x61C, 0x61C); (0x6DD, 0x6DD); (0x70E, 0x70F); (0x74B, 0x74C); (0x7B2, 0x7BF);
   (0x7FB, 0x7FC); (0x82E, 0x82F); (0x83F, 0x83F); (0x85C, 0x85D); (0x85F, 0x85F);
   (0x86B, 0x86F); (0x88F, 0x897); (0x8E2, 0x8E2); (0x984, 0x984); (0x98D, 0x98E);
   (0x991, 0x992); (0x9A9, 0x9A9); (0x9B1, 0x9B1); (0x9B3, 0x9B5); (0x9BA, 0x9BB);
   (0x9C5, 0x9C6); (0x9C9, 0x9CA); (0x9CF, 0x9D6); (0x9D8, 0x9DB); (0x9DE, 0x9DE);
   (0x9E4, 0x9E5); (0x9FF, 0xA00); (0xA04, 0xA04); (0xA0B, 0xA0E); (0xA11, 0xA12);
   (0xA29, 0xA29); (0xA31, 0xA31); (0xA34, 0xA34); (0xA37, 0xA37); (0xA3A, 0xA3B);
   (0xA3D, 0xA3D); (0xA43, 0xA46); (0xA49, 0xA4A); (0xA4E, 0xA50); (0xA52, 0xA58);
   (0xA5D, 0xA5D); (0xA5F, 0xA65); (0xA77, 0xA80); (0xA84, 0xA84); (0xA8E, 0xA8E);
   (0xA92, 0xA92); (0xAA9, 0xAA9); (0xAB1, 0xAB1); (0xAB4, 0xAB4); (0xABA, 0xABB);
   (0xAC6, 0xAC6); (0xACA, 0xACA); (0xACE, 0xACF); (0xAD1, 0xADF); (0xAE4, 0xAE5);
   (0xAF2, 0xAF8); (0xB00, 0xB00); (0xB04, 0xB04); (0xB0D, 0xB0E); (0xB11, 0xB12);
   (0xB29, 0xB29); (0xB31, 0xB31); (0xB34, 0xB34); (0xB3A, 0xB3B); (0xB45, 0xB46);
   (0xB49, 0xB4A); (0xB4E, 0xB54); (0xB58, 0xB5B); (0xB5E, 0xB5E); (0xB64, 0xB65);
   (0xB78, 0xB81); (0xB84, 0xB84); (0xB8B, 0xB8D); (0xB91, 0xB91); (0xB96, 0xB98);
   (0xB9B, 0xB9B); (0xB9D, 0xB9D); (0xBA0, 0xBA2); (0xBA5, 0xBA7); (0xBAB, 0xBAD);
   (0xBBA, 0xBBD); (0xBC3, 0xBC5); (0xBC9, 0xBC9); (0xBCE, 0xBCF); (0xBD1, 0xBD6);
   (0xBD8, 0xBE5); (0xBFB, 0xBFF); (0xC0D, 0xC0D); (0xC11, 0xC11); (0xC29, 0xC29);
   (0xC3A, 0xC3B); (0xC45, 0xC45); (0xC49, 0xC49); (0xC4E, 0xC54); (0xC57, 0xC57);
   (0xC5B, 0xC5C); (0xC5E, 0xC5F); (0xC64, 0xC65); (0xC70, 0xC76); (0xC8D, 0xC8D);
   (0xC91, 0xC91); (0xCA9, 0xCA9); (0xCB4, 0xCB4); (0xCBA, 0xCBB); (0xCC5, 0xCC5);
   (0xCC9, 0xCC9); (0xCCE, 0xCD4); (0xCD7, 0xCDC); (0xCDF, 0xCDF); (0xCE4, 0xCE5);
   (0xCF0, 0xCF0); (0xCF3, 0xCFF); (0xD0D, 0xD0D); (0xD11, 0xD11); (0xD45, 0xD45);
   (0xD49, 0xD49); (0xD50, 0xD53); (0xD64, 0xD65); (0xD80, 0xD80); (0xD84, 0xD84);
   (0xD97, 0xD99); (0xDB2, 0xDB2); (0xDBC, 0xDBC); (0xDBE, 0xDBF); (0xDC7, 0xDC9);
   (0xDCB, 0xDCE); (0xDD5, 0xDD5); (0xDD7, 0xDD7); (0xDE0, 0xDE5); (0xDF0, 0xDF1);
   (0xDF5, 0xE00); (0xE3B, 0xE3E); (0xE5C, 0xE80); (0xE83, 0xE83); (0xE85, 0xE85);
   (0xE8B, 0xE8B); (0xEA4, 0xEA4); (0xEA6, 0xEA6); (0xEBE, 0xEBF); (0xEC5, 0xEC5);
   (0xEC7, 0xEC7); (0xECE, 0xECF); (0xEDA, 0xEDB); (0xEE0, 0xEFF); (0xF48, 0xF48);
   (0xF6D, 0xF70); (0xF98, 0xF98); (0xFBD, 0xFBD); (0xFCD, 0xFCD); (0xFDB, 0xFFF);
   (0x10C6, 0x10C6); (0x10C8, 0x10CC); (0x10CE, 0x10CF); (0x1249, 0x1249); (0x124E, 0x124F);
   (0x1257, 0x1257); (0x1259, 0x1259); (0x125E, 0x125F); (0x1289, 0x1289); (0x128E, 0x128F);
   (0x12B1, 0x12B1); (0x12B6, 0x12B7); (0x12BF, 0x12BF); (0x12C1, 0x12C1); (0x12C6, 0x12C7);
   (0x12D7, 0x12D7); (0x1311, 0x1311); (0x1316, 0x1317); (0x135B, 0x135C); (0x137D, 0x137F);
   (0x139A, 0x139F); (0x13F6, 0x13F7); (0x13FE, 0x13FF); (0x1680, 0x1680); (0x169D, 0x169F);
   (0x16F9, 0x16FF); (0x1716, 0x171E); (0x1737, 0x173F); (0x1754, 0x175F); (0x176D, 0x176D);
   (0x1771, 0x1771); (0x1774, 0x177F); (0x17DE, 0x17DF); (0x17EA, 0x17EF); (0x17FA, 0x17FF);
   (0x180E, 0x180E); (0x181A, 0x181F); (0x1879, 0x187F); (0x18AB, 0x18AF); (0x18F6, 0x18FF);
   (0x191F, 0x191F); (0x192C, 0x192F); (0x193C, 0x193F); (0x1941, 0x1943); (0x196E, 0x196F);
   (0x1975, 0x197F); (0x19AC, 0x19AF); (0x19CA, 0x19CF); (0x19DB, 0x19DD); (0x1A1C, 0x1A1D);
   (0x1A5F, 0x1A5F); (0x1A7D, 0x1A7E); (0x1A8A, 0x1A8F); (0x1A9A, 0x1A9F); (0x1AAE, 0x1AAF);
   (0x1ACF, 0x1AFF); (0x1B4D, 0x1B4F); (0x1B7F, 0x1B7F); (0x1BF4, 0x1BFB); (0x1C38, 0x1C3A);
   (0x1C4A, 0x1C4C); (0x1C89, 0x1C8F); (0x1CBB, 0x1CBC); (0x1CC8, 0x1CCF); (0x1CFB, 0x1CFF);
   (0x1F16, 0x1F17); (0x1F1E, 0x1F1F); (0x1F46, 0x1F47); (0x1F4E, 0x1F4F); (0x1F58, 0x1F58);
   (0x1F5A, 0x1F5A); (0x1F5C, 0x1F5C); (0x1F5E, 0x1F5E); (0x1F7E, 0x1F7F); (0x1FB5, 0x1FB5);
   (0x1FC5, 0x1FC5); (0x1FD4, 0x1FD5); (0x1FDC, 0x1FDC); (0x1FF0, 0x1FF1); (0x1FF5, 0x1FF5);
   (0x1FFF, 0x200F); (0x2028, 0x202F); (0x205F, 0x206F); (0x2072, 0x2073); (0x208F, 0x208F);
   (0x209D, 0x209F); (0x20C1, 0x20CF); (0x20F1, 0x20FF); (0x218C, 0x218F); (0x2427, 0x243F);
   (0x244B, 0x245F); (0x2B74, 0x2B75); (0x2B96, 0x2B96); (0x2CF4, 0x2CF8); (0x2D26, 0x2D26);
   (0x2D28, 0x2D2C); (0x2D2E, 0x2D2F); (0x2D68, 0x2D6E); (0x2D71, 0x2D7E); (0x2D97, 0x2D9F);
   (0x2DA7, 0x2DA7); (0x2DAF, 0x2DAF); (0x2DB7, 0x2DB7); (0x2DBF, 0x2DBF); (0x2DC7, 0x2DC7);
   (0x2DCF, 0x2DCF); (0x2DD7, 0x2DD7); (0x2DDF, 0x2DDF); (0x2E5E, 0x2E7F); (0x2E9A, 0x2E9A);
   (0x2EF4, 0x2EFF); (0x2FD6, 0x2FEF); (0x2FFC, 0x3000); (0x3040, 0x3040); (0x3097, 0x3098);
   (0x3100, 0x3104); (0x3130, 0x3130); (0x318F, 0x318F); (0x31E4, 0x31EF); (0x321F, 0x321F);
   (0xA48D, 0xA48F); (0xA4C7, 0xA4CF); (0xA62C, 0xA63F); (0xA6F8, 0xA6FF); (0xA7CB, 0xA7CF);
   (0xA7D2, 0xA7D2); (0xA7D4, 0xA7D4); (0xA7DA, 0xA7F1); (0xA82D, 0xA82F); (0xA83A, 0xA83F);
   (0xA878, 0xA87F); (0xA8C6, 0xA8CD); (0xA8DA, 0xA8DF); (0xA954, 0xA95E); (0xA97D, 0xA97F);
   (0xA9CE, 0xA9CE); (0xA9DA, 0xA9DD); (0xA9FF, 0xA9FF); (0xAA37, 0xAA3F); (0xAA4E, 0xAA4F);
   (0xAA5A, 0xAA5B); (0xAAC3, 0xAADA); (0xAAF7, 0xAB00); (0xAB07, 0xAB08); (0xAB0F, 0xAB10);
   (0xAB17, 0xAB1F); (0xAB27, 0xAB27); (0xAB2F, 0xAB2F); (0xAB6C, 0xAB6F); (0xABEE, 0xABEF);
   (0xABFA, 0xABFF); (0xD7A4, 0xD7AF); (0xD7C7, 0xD7CA); (0xD7FC, 0xF8FF); (0xFA6E, 0xFA6F);
   (0xFADA, 0xFAFF); (0xFB07, 0xFB12); (0xFB18, 0xFB1C); (0xFB37, 0xFB37); (0xFB3D, 0xFB3D);
   (0xFB3F, 0xFB3F); (0xFB42, 0xFB42); (0xFB45, 0xFB45); (0xFBC3, 0xFBD2); (0xFD90, 0xFD91);
   (0xFDC8, 0xFDCE); (0xFDD0, 0xFDEF); (0xFE1A, 0xFE1F); (0xFE53, 0xFE53); (0xFE67, 0xFE67);
   (0xFE6C, 0xFE6F); (0xFE75, 0xFE75); (0xFEFD, 0xFF00); (0xFFBF, 0xFFC1); (0xFFC8, 0xFFC9);
   (0xFFD0, 0xFFD1); (0xFFD8, 0xFFD9); (0xFFDD, 0xFFDF); (0xFFE7, 0xFFE7); (0xFFEF, 0xFFFB);
   (0xFFFE, 0xFFFF); (0x1000C, 0x1000C); (0x10027, 0x10027); (0x1003B, 0x1003B); (0x1003E, 0x1003E);
   (0x1004E, 0x1004F); (0x1005E, 0x1007F); (0x100FB, 0x100FF); (0x10103, 0x10106); (0x10134, 0x10136);
   (0x1018F, 0x1018F); (0x1019D, 0x1019F); (0x101A1, 0x101CF); (0x101FE, 0x1027F); (0x1029D, 0x1029F);
   (0x102D1, 0x102DF); (0x102FC, 0x102FF); (0x10324, 0x1032C); (0x1034B, 0x1034F); (0x1037B, 0x1037F);
   (0x1039E, 0x1039E); (0x103C4, 0x103C7); (0x103D6, 0x103FF); (0x1049E, 0x1049F); (0x104AA, 0x104AF);
   (0x104D4, 0x104D7); (0x104FC, 0x104FF); (0x10528, 0x1052F); (0x10564, 0x1056E); (0x1057B, 0x1057B);
   (0x1058B, 0x1058B); (0x10593, 0x10593); (0x10596, 0x10596); (0x105A2, 0x105A2); (0x105B2, 0x105B2);
   (0x105BA, 0x105BA); (0x105BD, 0x105FF); (0x10737, 0x1073F); (0x10756, 0x1075F); (0x10768, 0x1077F);
   (0x10786, 0x10786); (0x107B1, 0x107B1); (0x107BB, 0x107FF); (0x10806, 0x10807); (0x10809, 0x10809);
   (0x10836, 0x10836); (0x10839, 0x1083B); (0x1083D, 0x1083E); (0x10856, 0x10856); (0x1089F, 0x108A6);
   (0x108B0, 0x108DF); (0x108F3, 0x108F3); (0x108F6, 0x108FA); (0x1091C, 0x1091E); (0x1093A, 0x1093E);
   (0x10940, 0x1097F); (0x109B8, 0x109BB); (0x109D0, 0x109D1); (0x10A04, 0x10A04); (0x10A07, 0x10A0B);
   (0x10A14, 0x10A14); (0x10A18, 0x10A18); (0x10A36, 0x10A37); (0x10A3B, 0x10A3E); (0x10A49, 0x10A4F);
   (0x10A59, 0x10A5F); (0x10AA0, 0x10ABF); (0x10AE7, 0x10AEA); (0x10AF7, 0x10AFF); (0x10B36, 0x10B38);
   (0x10B56, 0x10B57); (0x10B73, 0x10B77); (0x10B92, 0x10B98); (0x10B9D, 0x10BA8); (0x10BB0, 0x10BFF);
   (0x10C49, 0x10C7F); (0x10CB3, 0x10CBF); (0x10CF3, 0x10CF9); (0x10D28, 0x10D2F); (0x10D3A, 0x10E5F);
   (0x10E7F, 0x10E7F); (0x10EAA, 0x10EAA); (0x10EAE, 0x10EAF); (0x10EB2, 0x10EFF); (0x10F28, 0x10F2F);
   (0x10F5A, 0x10F6F); (0x10F8A, 0x10FAF); (0x10FCC, 0x10FDF); (0x10FF7, 0x10FFF); (0x1104E, 0x11051);
   (0x11076, 0x1107E); (0x110BD, 0x110BD); (0x110C3, 0x110CF); (0x110E9, 0x110EF); (0x110FA, 0x110FF);
   (0x11135, 0x11135); (0x11148, 0x1114F); (0x11177, 0x1117F); (0x111E0, 0x111E0); (0x111F5, 0x111FF);
   (0x11212, 0x11212); (0x1123F, 0x1127F); (0x11287, 0x11287); (0x11289, 0x11289); (0x1128E, 0x1128E);
   (0x1129E, 0x1129E); (0x112AA, 0x112AF); (0x112EB, 0x112EF); (0x112FA, 0x112FF); (0x11304, 0x11304);
   (0x1130D, 0x1130E); (0x11311, 0x11312); (0x11329, 0x11329); (0x11331, 0x11331); (0x11334, 0x11334);
   (0x1133A, 0x1133A); (0x11345, 0x11346); (0x11349, 0x1134A); (0x1134E, 0x1134F); (0x11351, 0x11356);
   (0x11358, 0x1135C); (0x11364, 0x11365); (0x1136D, 0x1136F); (0x11375, 0x113FF); (0x1145C, 0x1145C);
   (0x11462, 0x1147F); (0x114C8, 0x114CF); (0x114DA, 0x1157F); (0x115B6, 0x115B7); (0x115DE, 0x115FF);
   (0x11645, 0x1164F); (0x1165A, 0x1165F); (0x1166D, 0x1167F); (0x116BA, 0x116BF); (0x116CA, 0x116FF);
   (0x1171B, 0x1171C); (0x1172C, 0x1172F); (0x11747, 0x117FF); (0x1183C, 0x1189F); (0x118F3, 0x118FE);
   (0x11907, 0x11908); (0x1190A, 0x1190B); (0x11914, 0x11914); (0x11917, 0x11917); (0x11936, 0x11936);
   (0x11939, 0x1193A); (0x11947, 0x1194F); (0x1195A, 0x1199F); (0x119A8, 0x119A9); (0x119D8, 0x119D9);
   (0x119E5, 0x119FF); (0x11A48, 0x11A4F); (0x11AA3, 0x11AAF); (0x11AF9, 0x11BFF); (0x11C09, 0x11C09);
   (0x11C37, 0x11C37); (0x11C46, 0x11C4F); (0x11C6D, 0x11C6F); (0x11C90, 0x11C91); (0x11CA8, 0x11CA8);
   (0x11CB7, 0x11CFF); (0x11D07, 0x11D07); (0x11D0A, 0x11D0A); (0x11D37, 0x11D39); (0x11D3B, 0x11D3B);
   (0x11D3E, 0x11D3E); (0x11D48, 0x11D4F); (0x11D5A, 0x11D5F); (0x11D66, 0x11D66); (0x11D69, 0x11D69);
   (0x11D8F, 0x11D8F); (0x11D92, 0x11D92); (0x11D99, 0x11D9F); (0x11DAA, 0x11EDF); (0x11EF9, 0x11FAF);
   (0x11FB1, 0x11FBF); (0x11FF2, 0x11FFE); (0x1239A, 0x123FF); (0x1246F, 0x1246F); (0x12475, 0x1247F);
   (0x12544, 0x12F8F); (0x12FF3, 0x12FFF); (0x1342F, 0x143FF); (0x14647, 0x167FF); (0x16A39, 0x16A3F);
   (0x16A5F, 0x16A5F); (0x16A6A, 0x16A6D); (0x16ABF, 0x16ABF); (0x16ACA, 0x16ACF); (0x16AEE, 0x16AEF);
   (0x16AF6, 0x16AFF); (0x16B46, 0x16B4F); (0x16B5A, 0x16B5A); (0x16B62, 0x16B62); (0x16B78, 0x16B7C);
   (0x16B90, 0x16E3F); (0x16E9B, 0x16EFF); (0x16F4B, 0x16F4E); (0x16F88, 0x16F8E); (0x16FA0, 0x16FDF);
   (0x16FE5, 0x16FEF); (0x16FF2, 0x16FFF); (0x187F8, 0x187FF); (0x18CD6, 0x18CFF); (0x18D09, 0x1AFEF);
   (0x1AFF4, 0x1AFF4); (0x1AFFC, 0x1AFFC); (0x1AFFF, 0x1AFFF); (0x1B123, 0x1B14F); (0x1B153, 0x1B163);
   (0x1B168, 0x1B16F); (0x1B2FC, 0x1BBFF); (0x1BC6B, 0x1BC6F); (0x1BC7D, 0x1BC7F); (0x1BC89, 0x1BC8F);
   (0x1BC9A, 0x1BC9B); (0x1BCA0, 0x1CEFF); (0x1CF2E, 0x1CF2F); (0x1CF47, 0x1CF4F); (0x1CFC4, 0x1CFFF);
   (0x1D0F6, 0x1D0FF); (0x1D127, 0x1D128); (0x1D173, 0x1D17A); (0x1D1EB, 0x1D1FF); (0x1D246, 0x1D2DF);
   (0x1D2F4, 0x1D2FF); (0x1D357, 0x1D35F); (0x1D379, 0x1D3FF); (0x1D455, 0x1D455); (0x1D49D, 0x1D49D);
   (0x1D4A0, 0x1D4A1); (0x1D4A3, 0x1D4A4); (0x1D4A7, 0x1D4A8); (0x1D4AD, 0x1D4AD); (0x1D4BA, 0x1D4BA);
   (0x1D4BC, 0x1D4BC); (0x1D4C4, 0x1D4C4); (0x1D506, 0x1D506); (0x1D50B, 0x1D50C); (0x1D515, 0x1D515);
   (0x1D51D, 0x1D51D); (0x1D53A, 0x1D53A); (0x1D53F, 0x1D53F); (0x1D545, 0x1D545); (0x1D547, 0x1D549);
   (0x1D551, 0x1D551); (0x1D6A6, 0x1D6A7); (0x1D7CC, 0x1D7CD); (0x1DA8C, 0x1DA9A); (0x1DAA0, 0x1DAA0);
   (0x1DAB0, 0x1DEFF); (0x1DF1F, 0x1DFFF); (0x1E007, 0x1E007); (0x1E019, 0x1E01A); (0x1E022, 0x1E022);
   (0x1E025, 0x1E025); (0x1E02B, 0x1E0FF); (0x1E12D, 0x1E12F); (0x1E13E, 0x1E13F); (0x1E14A, 0x1E14D);
   (0x1E150, 0x1E28F); (0x1E2AF, 0x1E2BF); (0x1E2FA, 0x1E2FE); (0x1E300, 0x1E7DF); (0x1E7E7, 0x1E7E7);
   (0x1E7EC, 0x1E7EC); (0x1E7EF, 0x1E7EF); (0x1E7FF, 0x1E7FF); (0x1E8C5, 0x1E8C6); (0x1E8D7, 0x1E8FF);
   (0x1E94C, 0x1E94F); (0x1E95A, 0x1E95D); (0x1E960, 0x1EC70); (0x1ECB5, 0x1ED00); (0x1ED3E, 0x1EDFF);
   (0x1EE04, 0x1EE04); (0x1EE20, 0x1EE20); (0x1EE23, 0x1EE23); (0x1EE25, 0x1EE26); (0x1EE28, 0x1EE28);
   (0x1EE33, 0x1EE33); (0x1EE38, 0x1EE38); (0x1EE3A, 0x1EE3A); (0x1EE3C, 0x1EE41); (0x1EE43, 0x1EE46);
   (0x1EE48, 0x1EE48); (0x1EE4A, 0x1EE4A); (0x1EE4C, 0x1EE4C); (0x1EE50, 0x1EE50); (0x1EE53, 0x1EE53);
   (0x1EE55, 0x1EE56); (0x1EE58, 0x1EE58); (0x1EE5A, 0x1EE5A); (0x1EE5C, 0x1EE5C); (0x1EE5E, 0x1EE5E);
   (0x1EE60, 0x1EE60); (0x1EE63, 0x1EE63); (0x1EE65, 0x1EE66); (0x1EE6B, 0x1EE6B); (0x1EE73, 0x1EE73);
   (0x1EE78, 0x1EE78); (0x1EE7D, 0x1EE7D); (0x1EE7F, 0x1EE7F); (0x1EE8A, 0x1EE8A); (0x1EE9C, 0x1EEA0);
   (0x1EEA4, 0x1EEA4); (0x1EEAA, 0x1EEAA); (0x1EEBC, 0x1EEEF); (0x1EEF2, 0x1EFFF); (0x1F02C, 0x1F02F);
   (0x1F094, 0x1F09F); (0x1F0AF, 0x1F0B0); (0x1F0C0, 0x1F0C0); (0x1F0D0, 0x1F0D0); (0x1F0F6, 0x1F0FF);
   (0x1F1AE, 0x1F1E5); (0x1F203, 0x1F20F); (0x1F23C, 0x1F23F); (0x1F249, 0x1F24F); (0x1F252, 0x1F25F);
   (0x1F266, 0x1F2FF); (0x1F6D8, 0x1F6DC); (0x1F6ED, 0x1F6EF); (0x1F6FD, 0x1F6FF); (0x1F774, 0x1F77F);
   (0x1F7D9, 0x1F7DF); (0x1F7EC, 0x1F7EF); (0x1F7F1, 0x1F7FF); (0x1F80C, 0x1F80F); (0x1F848, 0x1F84F);
   (0x1F85A, 0x1F85F); (0x1F888, 0x1F88F); (0x1F8AE, 0x1F8AF); (0x1F8B2, 0x1F8FF); (0x1FA54, 0x1FA5F);
   (0x1FA6E, 0x1FA6F); (0x1FA75, 0x1FA77); (0x1FA7D, 0x1FA7F); (0x1FA87, 0x1FA8F); (0x1FAAD, 0x1FAAF);
   (0x1FABB, 0x1FABF); (0x1FAC6, 0x1FACF); (0x1FADA, 0x1FADF); (0x1FAE8, 0x1FAEF); (0x1FAF7, 0x1FAFF);
   (0x1FB93, 0x1FB93); (0x1FBCB, 0x1FBEF); (0x1FBFA, 0x1FFFF); (0x2A6E0, 0x2A6FF); (0x2B739, 0x2B73F);
   (0x2B81E, 0x2B81F); (0x2CEA2, 0x2CEAF); (0x2EBE1, 0x2F7FF); (0x2FA1E, 0x2FFFF); (0x3134B, 0xE00FF);
   (0xE01F0, 0x10FFFF)].

Definition isprintable (c : N) : bool := negb (in_ranges nonprintable_ranges c).

(** Decimal rendering of integers: [str(n)]. *)
Fixpoint uint_codes (d : Decimal.uint) : pystr :=
  match d with
  | Decimal.Nil => []
  | Decimal.D0 d => 48 :: uint_codes d
  | Decimal.D1 d => 49 :: uint_codes d
  | Decimal.D2 d => 50 :: uint_codes d
  | Decimal.D3 d => 51 :: uint_codes d
  | Decimal.D4 d => 52 :: uint_codes d
  | Decimal.D5 d => 53 :: uint_codes d
  | Decimal.D6 d => 54 :: uint_codes d
  | Decimal.D7 d => 55 :: uint_codes d
  | Decimal.D8 d => 56 :: uint_codes d
  | Decimal.D9 d => 57 :: uint_codes d
  end.

Definition str_of_N (n : N) : pystr := uint_codes (N.to_uint n).

Definition str_of_nat (n : nat) : pystr := str_of_N (N.of_nat n).

Definition str_of_Z (z : Z) : pystr :=
  match z with
  | Zneg p => 45 :: str_of_N (Npos p)
  | _ => str_of_N (Z.to_N z)
  end.

(** Lower-case hexadecimal with a fixed number of digits. *)
Definition hex_digit (d : N) : N := if d <? 10 then 48 + d else 87 + d.

Fixpoint hex_fixed (width : nat) (n : N) : pystr :=
  match width with
  | O => []
  | S w => hex_fixed w (n / 16) ++ [hex_digit (n mod 16)]
  end.

(** [repr(s)] of a string: quote choice and escapes of CPython. *)
Definition repr_char (quote c : N) : pystr :=
  if (c =? quote) || (c =? 92) then [92; c]
  else if c =? 9 then [92; 116]
  else if c =? 10 then [92; 110]
  else if c =? 13 then [92; 114]
  else if (c <? 32) || (c =? 127) then [92; 120] ++ hex_fixed 2 c
  else if c <? 127 then [c]
  else if isprintable c then [c]
  else if c <? 0x100 then [92; 120] ++ hex_fixed 2 c
  else if c <? 0x10000 then [92; 117] ++ hex_fixed 4 c
  else [92; 85] ++ hex_fixed 8 c.

Definition str_repr (s : pystr) : pystr :=
  let quote :=
    if existsb (N.eqb APOSTROPHE) s && negb (existsb (N.eqb QUOTE) s)
    then QUOTE else APOSTROPHE in
  [quote] ++ List.concat (List.map (repr_char quote) s) ++ [quote].

End PyStr.

Import PyStr.

(** ** Exceptions and results *)

Module PyErr.

(** The exception classes the program meets.  [OtherException] stands for
    any other subclass of [Exception] (the errors of the store and of the
    embedding backend); [KeyboardInterrupt] derives from [BaseException]
    only, so [except Exception] lets it through and a bare [except] does
    not. *)
Inductive exn_class :=
| ValueError | JSONDecodeError | TypeError | AttributeError | KeyError
| IndexError | OverflowError | FileNotFoundError | OtherException
| KeyboardInterrupt.

#[global] Instance exn_class_eq_dec : EqDecision exn_class.
Proof. solve_decision. Defined.

(** An exception object: its class and [str(e)]. *)
Record exn := Exn { exn_cls : exn_class; exn_msg : pystr }.

(** [isinstance(e, Exception)]. *)
Definition is_Exception (e : exn) : bool :=
  match exn_cls e with
  | KeyboardInterrupt => false
  | _ => true
  end.

(** [isinstance(e, c)]: [JSONDecodeError] derives from [ValueError]. *)
Definition isinstance (e : exn) (c : exn_class) : bool :=
  bool_decide (exn_cls e = c)
  || (bool_decide (exn_cls e = JSONDecodeError) && bool_decide (c = ValueError)).

(** The outcome of evaluating an expression. *)
Inductive result (A : Type) :=
| Ok (a : A)
| Raise (e : exn).

Arguments Ok {A} a.
Arguments Raise {A} e.

End PyErr.

Import PyErr.

(** ** Integers and floats *)

Module PyNum.

(** Whitespace that [int()] skips at both ends: the ASCII C-locale spaces
    and the non-ASCII Unicode spaces. *)
Definition is_int_space (c : N) : bool :=
  ((9 <=? c) && (c <=? 13)) || (c =? 32) || ((127 <=? c) && is_space c).

Fixpoint int_lstrip (s : pystr) : pystr :=
  match s with
  | c :: rest => if is_int_space c then int_lstrip rest else s
  | [] => []
  end.

(** Decimal digits, single underscores allowed between two digits. *)
Fixpoint int_digits (acc : N) (after_digit : bool) (s : pystr) : option N :=
  match s with
  | [] => if after_digit then Some acc else None
  | c :: rest =>
      if c =? 95 then
        if after_digit then int_digits acc false rest else None
      else
        match decimal_value c with
        | Some d => int_digits (acc * 10 + d) true rest
        | None => None
        end
  end.

Definition invalid_literal (s : pystr) : exn :=
  Exn ValueError (U "invalid literal for int() with base 10: " ++ str_repr s).

(** [int(s)] for a string [s], base ten. *)
Definition int_of_str (s : pystr) : result Z :=
  let t := rev (int_lstrip (rev (int_lstrip s))) in
  let '(neg, body) :=
    match t with
    | 45 :: r => (true, r)
    | 43 :: r => (false, r)
    | _ => (false, t)
    end in
  match int_digits 0 false body with
  | Some n => Ok (if neg then - Z.of_N n else Z.of_N n)%Z
  | None => Raise (invalid_literal s)
  end.

(** The exact value [m * 2^e] of a finite float and of its decimal
    scalings, as fractions with a positive denominator. *)
Definition frac : Type := (Z * Z)%type.

Definition frac_of (m : positive) (e : Z) : frac :=
  (if 0 <=? e then (Zpos m * 2 ^ e, 1) else (Zpos m, 2 ^ (- e)))%Z.

Definition scale10 (q : frac) (k : Z) : frac :=
  (if 0 <=? k then (fst q * 10 ^ k, snd q) else (fst q, snd q * 10 ^ (- k)))%Z.

Definition scale2 (q : frac) (k : Z) : frac :=
  (if 0 <=? k then (fst q * 2 ^ k, snd q) else (fst q, snd q * 2 ^ (- k)))%Z.

Definition frac_compare (a b : frac) : comparison :=
  (fst a * snd b ?= fst b * snd a)%Z.

Definition frac_floor (q : frac) : Z := (fst q / snd q)%Z.

(** Rounding to the nearest integer, ties to even. *)
Definition round_half_even (q : frac) : Z :=
  (let n := fst q / snd q in
   let r := fst q mod snd q in
   match 2 * r ?= snd q with
   | Lt => n
   | Gt => n + 1
   | Eq => if Z.even n then n else n + 1
   end)%Z.

Definition sign_str (s : bool) : pystr := if s then [45] else [].

Definition zero_pad (width : nat) (s : pystr) : pystr :=
  repeat 48 (width - length s) ++ s.

(** [format(f, '.<prec>f')] for [prec > 0]: the exact value rounded to
    [prec] decimals, ties to even; the sign of a negative value is kept
    even when it rounds to zero. *)
Definition format_fixed (prec : nat) (f : float) : pystr :=
  let digits (n : Z) :=
    str_of_N (Z.to_N (n / 10 ^ Z.of_nat prec)%Z) ++ [46]
    ++ zero_pad prec (str_of_N (Z.to_N (n mod 10 ^ Z.of_nat prec)%Z)) in
  match Prim2SF f with
  | S754_nan => U "nan"
  | S754_infinity s => sign_str s ++ U "inf"
  | S754_zero s => sign_str s ++ digits 0%Z
  | S754_finite s m e =>
      sign_str s
      ++ digits (round_half_even (scale10 (frac_of m e) (Z.of_nat prec)))
  end.

(** [bool(f)]: [f != 0.0]. *)
Definition float_truthy (f : float) : bool := negb (PrimFloat.eqb f 0%float).

(** [int(f)]: truncation toward zero. *)
Definition int_of_float (f : float) : result Z :=
  match Prim2SF f with
  | S754_nan => Raise (Exn ValueError (U "cannot convert float NaN to integer"))
  | S754_infinity _ =>
      Raise (Exn OverflowError (U "cannot convert float infinity to integer"))
  | S754_zero _ => Ok 0%Z
  | S754_finite s m e =>
      let n := frac_floor (frac_of m e) in Ok (if s then - n else n)%Z
  end.

(** The nearest binary64 number to a positive fraction, ties to even
    ([float(s)] on a decimal literal rounds correctly). *)
Definition float_of_frac (neg : bool) (q : frac) : float :=
  (if fst q =? 0 then (if neg then neg_zero else zero)
   else
     let e1 := Z.log2 (fst q) - Z.log2 (snd q) - 52 in
     let e2 := if frac_floor (scale2 q (- e1)) <? 2 ^ 52 then e1 - 1 else e1 in
     let e := Z.max e2 (-1074) in
     let m := round_half_even (scale2 q (- e)) in
     let f := FloatOps.Z.ldexp (of_uint63 (Uint63.of_Z m)) e in
     if neg then PrimFloat.opp f else f)%Z.

(** [repr(f)]: the shortest decimal digits that read back as [f], the
    closest ones when several do (1 to 17 significant digits). *)
Fixpoint first_scale (fuel : nat) (j : Z) (v : frac) : Z :=
  match fuel with
  | O => j
  | S fuel' =>
      if (1 <=? frac_floor (scale10 v j))%Z then j
      else first_scale fuel' (j + 1)%Z v
  end.

(** The position [p] of the decimal point: [10^(p-1) <= v < 10^p]. *)
Definition decimal_point (v : frac) : Z :=
  if (1 <=? frac_floor v)%Z
  then Z.of_nat (length (str_of_N (Z.to_N (frac_floor v))))
  else (1 - first_scale 400 1 v)%Z.

Definition within (lo hi : frac) (closed : bool) (c : frac) : bool :=
  match frac_compare lo c with Lt => true | Eq => closed | Gt => false end
  && match frac_compare c hi with Lt => true | Eq => closed | Gt => false end.

Fixpoint shortest_digits (fuel : nat) (n : Z) (v lo hi : frac) (closed : bool)
    (point : Z) : Z * Z :=
  let s := (n - point)%Z in
  let x := scale10 v s in
  let d0 := frac_floor x in
  let ok0 := within lo hi closed (scale10 (d0, 1%Z) (- s)) in
  let ok1 := within lo hi closed (scale10 ((d0 + 1)%Z, 1%Z) (- s)) in
  match fuel with
  | O => (round_half_even x, n)
  | S fuel' =>
      if ok0 && ok1 then (round_half_even x, n)
      else if ok0 then (d0, n)
      else if ok1 then ((d0 + 1)%Z, n)
      else shortest_digits fuel' (n + 1)%Z v lo hi closed point
  end.

Fixpoint drop_zeros (s : pystr) : pystr :=
  match s with
  | 48 :: rest => drop_zeros rest
  | _ => s
  end.

Definition float_repr (f : float) : pystr :=
  match Prim2SF f with
  | S754_nan => U "nan"
  | S754_infinity s => sign_str s ++ U "inf"
  | S754_zero s => sign_str s ++ U "0.0"
  | S754_finite s m e =>
      let v := frac_of m e in
      let boundary := (Zpos m =? 2 ^ 52)%Z && (-1074 <? e)%Z in
      let lo :=
        if boundary then frac_of (4 * m - 1) (e - 2)
        else frac_of (2 * m - 1) (e - 1) in
      let hi := frac_of (2 * m + 1) (e - 1) in
      let point := decimal_point v in
      let '(d, n) := shortest_digits 16 1 v lo hi (Z.even (Zpos m)) point in
      let all := str_of_N (Z.to_N d) in
      let p := (point + (Z.of_nat (length all) - n))%Z in
      let ds := rev (drop_zeros (rev all)) in
      sign_str s ++
      (if (p <? -3)%Z || (16 <? p)%Z then
         firstn 1 ds
         ++ match skipn 1 ds with [] => [] | more => 46 :: more end
         ++ [101] ++ (if (p - 1 <? 0)%Z then [45] else [43])
         ++ zero_pad 2 (str_of_N (Z.to_N (Z.abs (p - 1))))
       else if (p <=? 0)%Z then
         U "0." ++ repeat 48 (Z.to_nat (- p)) ++ ds
       else if (Z.of_nat (length ds) <=? p)%Z then
         ds ++ repeat 48 (Z.to_nat p - length ds) ++ U ".0"
       else firstn (Z.to_nat p) ds ++ [46] ++ skipn (Z.to_nat p) ds)
  end.

End PyNum.

Import PyNum.

(** ** Python values and the JSON decoder *)

Module PyVal.

(** The values [json.loads] builds.  A dict is its items in insertion
    order, keys distinct. *)
Inductive pyval :=
| VNone
| VBool (b : bool)
| VInt (z : Z)
| VFloat (f : float)
| VStr (s : pystr)
| VList (items : list pyval)
| VDict (items : list (pystr * pyval)).

(** [bool(v)]. *)
Definition truthy (v : pyval) : bool :=
  match v with
  | VNone => false
  | VBool b => b
  | VInt z => negb (z =? 0)%Z
  | VFloat f => float_truthy f
  | VStr s => negb (bool_decide (s = []))
  | VList items => match items with [] => false | _ => true end
  | VDict items => match items with [] => false | _ => true end
  end.

(** [d.get(k)] and [d[k] = v]. *)
Fixpoint dict_get (d : list (pystr * pyval)) (k : pystr) : option pyval :=
  match d with
  | [] => None
  | (k', v) :: rest => if bool_decide (k' = k) then Some v else dict_get rest k
  end.

Fixpoint dict_set (d : list (pystr * pyval)) (k : pystr) (v : pyval)
    : list (pystr * pyval) :=
  match d with
  | [] => [(k, v)]
  | (k', v') :: rest =>
      if bool_decide (k' = k) then (k', v) :: rest
      else (k', v') :: dict_set rest k v
  end.

(** [repr(v)], and [str(v)], which is what an f-string field shows. *)
Fixpoint py_repr (v : pyval) : pystr :=
  match v with
  | VNone => U "None"
  | VBool true => U "True"
  | VBool false => U "False"
  | VInt z => str_of_Z z
  | VFloat f => float_repr f
  | VStr s => str_repr s
  | VList items => [91] ++ join (U ", ") (List.map py_repr items) ++ [93]
  | VDict items =>
      [123]
      ++ join (U ", ")
           (List.map (fun '(k, x) => str_repr k ++ U ": " ++ py_repr x) items)
      ++ [125]
  end.

Definition py_str (v : pyval) : pystr :=
  match v with
  | VStr s => s
  | _ => py_repr v
  end.

End PyVal.

Import PyVal.

Module Json.

(** The outcome of scanning a prefix of the input: a value and the rest,
    a decoding error, or the recursion budget exhausted, which [loads]
    never meets (lemma [loads_budget] below). *)
Inductive scan (A : Type) :=
| Found (a : A) (rest : pystr)
| Invalid
| Fuel.

Arguments Found {A} a rest.
Arguments Invalid {A}.
Arguments Fuel {A}.

(** JSON whitespace: space, tab, line feed, carriage return. *)
Definition is_json_ws (c : N) : bool :=
  (c =? 32) || (c =? 9) || (c =? 10) || (c =? 13).

Fixpoint skip_ws (s : pystr) : pystr :=
  match s with
  | c :: rest => if is_json_ws c then skip_ws rest else s
  | [] => []
  end.

Definition hex_value (c : N) : option N :=
  if (48 <=? c) && (c <=? 57) then Some (c - 48)
  else if (97 <=? c) && (c <=? 102) then Some (c - 87)
  else if (65 <=? c) && (c <=? 70) then Some (c - 55)
  else None.

Definition hex4 (a b c d : N) : option N :=
  match hex_value a, hex_value b, hex_value c, hex_value d with
  | Some x, Some y, Some z, Some w => Some (((x * 16 + y) * 16 + z) * 16 + w)
  | _, _, _, _ => None
  end.

Definition simple_escape (c : N) : option N :=
  if c =? 34 then Some 34 else if c =? 92 then Some 92
  else if c =? 47 then Some 47 else if c =? 98 then Some 8
  else if c =? 102 then Some 12 else if c =? 110 then Some 10
  else if c =? 114 then Some 13 else if c =? 116 then Some 9
  else None.

(** The body of a string after its opening quote (strict mode: no raw
    control character); a high surrogate escape followed by a low one is
    one code point. *)
Fixpoint scan_string (s : pystr) (acc : pystr) : scan pystr :=
  match s with
  | [] => Invalid
  | c :: rest =>
      if c =? 34 then Found (rev acc) rest
      else if c =? 92 then
        match rest with
        | 117 :: h1 :: h2 :: h3 :: h4 :: rest1 =>
            match hex4 h1 h2 h3 h4 with
            | None => Invalid
            | Some hi =>
                let lone := scan_string rest1 (hi :: acc) in
                if (0xD800 <=? hi) && (hi <=? 0xDBFF) then
                  match rest1 with
                  | 92 :: 117 :: l1 :: l2 :: l3 :: l4 :: rest2 =>
                      match hex4 l1 l2 l3 l4 with
                      | Some lo =>
                          if (0xDC00 <=? lo) && (lo <=? 0xDFFF) then
                            scan_string rest2
                              ((0x10000 + (hi - 0xD800) * 1024 + (lo - 0xDC00))
                                 :: acc)
                          else lone
                      | None => lone
                      end
                  | _ => lone
                  end
                else lone
            end
        | e :: rest1 =>
            match simple_escape e with
            | Some ch => scan_string rest1 (ch :: acc)
            | None => Invalid
            end
        | [] => Invalid
        end
      else if c <? 32 then Invalid
      else scan_string rest (c :: acc)
  end.

Definition is_ascii_digit (c : N) : bool := (48 <=? c) && (c <=? 57).

(** Leading ASCII digits: their count, their value, and the rest. *)
Fixpoint take_digits (s : pystr) (count : nat) (acc : N) : nat * N * pystr :=
  match s with
  | c :: rest =>
      if is_ascii_digit c then take_digits rest (S count) (acc * 10 + (c - 48))
      else (count, acc, s)
  | [] => (count, acc, [])
  end.

(** A number: an optional minus sign, an integer part (a lone zero, or
    digits not starting with zero), an optional fraction (a dot and
    digits), an optional exponent (e or E, an optional sign, digits).  It is
    an [int] without fraction and exponent, a [float] otherwise. *)
Definition scan_sign (s : pystr) : bool * pystr :=
  match s with
  | 45 :: r => (true, r)
  | _ => (false, s)
  end.

Definition scan_int_part (s : pystr) : option (N * pystr) :=
  match s with
  | 48 :: r => Some (0, r)
  | c :: _ =>
      if is_ascii_digit c then
        let '(_, n, r) := take_digits s 0 0 in Some (n, r)
      else None
  | [] => None
  end.

(** The digits after the dot: how many, their value, the rest; nothing is
    read when no digit follows the dot. *)
Definition scan_fraction (s : pystr) : nat * N * pystr :=
  match s with
  | 46 :: r =>
      let '(k, v, r') := take_digits r 0 0 in
      match k with
      | O => (O, 0, s)
      | _ => (k, v, r')
      end
  | _ => (O, 0, s)
  end.

(** The exponent, if one is there, and the rest. *)
Definition scan_exponent (s : pystr) : option Z * pystr :=
  match s with
  | c :: r =>
      if (c =? 101) || (c =? 69) then
        let '(eneg, r') := match r with
                           | 45 :: t => (true, t)
                           | 43 :: t => (false, t)
                           | _ => (false, r)
                           end in
        let '(k, v, r'') := take_digits r' 0 0 in
        match k with
        | O => (None, s)
        | _ => (Some (if eneg then - Z.of_N v else Z.of_N v)%Z, r'')
        end
      else (None, s)
  | [] => (None, s)
  end.

Definition scan_number (s : pystr) : scan pyval :=
  let '(neg, s1) := scan_sign s in
  match scan_int_part s1 with
  | None => Invalid
  | Some (n, r) =>
      let '(fcount, fval, r1) := scan_fraction r in
      let '(ex, r2) := scan_exponent r1 in
      match fcount, ex with
      | O, None => Found (VInt (if neg then - Z.of_N n else Z.of_N n)%Z) r2
      | _, _ =>
          let mant := (Z.of_N n * 10 ^ Z.of_nat fcount + Z.of_N fval)%Z in
          let e10 := match ex with Some e => e | None => 0%Z end in
          Found (VFloat (float_of_frac neg
                           (scale10 (mant, 1%Z) (e10 - Z.of_nat fcount)))) r2
      end
  end.

(** [s.startswith(prefix)], giving the rest. *)
Fixpoint strip_prefix (prefix s : pystr) : option pystr :=
  match prefix, s with
  | [], _ => Some s
  | p :: prefix', c :: s' => if p =? c then strip_prefix prefix' s' else None
  | _ :: _, [] => None
  end.

(** The constants, among them the three that [json] adds to the
    standard, or else a number. *)
Definition scan_literal (s : pystr) : scan pyval :=
  match strip_prefix (U "null") s, strip_prefix (U "true") s,
        strip_prefix (U "false") s, strip_prefix (U "NaN") s,
        strip_prefix (U "Infinity") s, strip_prefix (U "-Infinity") s
  with
  | Some r, _, _, _, _, _ => Found VNone r
  | _, Some r, _, _, _, _ => Found (VBool true) r
  | _, _, Some r, _, _, _ => Found (VBool false) r
  | _, _, _, Some r, _, _ => Found (VFloat nan) r
  | _, _, _, _, Some r, _ => Found (VFloat infinity) r
  | _, _, _, _, _, Some r => Found (VFloat neg_infinity) r
  | _, _, _, _, _, _ => scan_number s
  end.

(** The elements of an array after the first bracket, and the members of
    an object after the first brace; [value] scans one value. *)
Fixpoint scan_elements (fuel : nat) (value : pystr -> scan pyval) (s : pystr)
    (acc : list pyval) : scan pyval :=
  match fuel with
  | O => Fuel
  | S fuel' =>
      match value s with
      | Found v r =>
          match skip_ws r with
          | 93 :: r' => Found (VList (rev (v :: acc))) r'
          | 44 :: r' => scan_elements fuel' value (skip_ws r') (v :: acc)
          | _ => Invalid
          end
      | Invalid => Invalid
      | Fuel => Fuel
      end
  end.

Fixpoint scan_members (fuel : nat) (value : pystr -> scan pyval) (s : pystr)
    (acc : list (pystr * pyval)) : scan pyval :=
  match fuel with
  | O => Fuel
  | S fuel' =>
      match s with
      | 34 :: s1 =>
          match scan_string s1 [] with
          | Found k r =>
              match skip_ws r with
              | 58 :: r1 =>
                  match value (skip_ws r1) with
                  | Found v r2 =>
                      match skip_ws r2 with
                      | 125 :: r' => Found (VDict (dict_set acc k v)) r'
                      | 44 :: r' =>
                          scan_members fuel' value (skip_ws r') (dict_set acc k v)
                      | _ => Invalid
                      end
                  | Invalid => Invalid
                  | Fuel => Fuel
                  end
              | _ => Invalid
              end
          | Invalid => Invalid
          | Fuel => Fuel
          end
      | _ => Invalid
      end
  end.

(** One value at the head of [s]; [fuel] bounds the nesting depth. *)
Fixpoint scan_value (fuel : nat) (s : pystr) : scan pyval :=
  match fuel with
  | O => Fuel
  | S fuel' =>
      match s with
      | 34 :: r =>
          match scan_string r [] with
          | Found k r' => Found (VStr k) r'
          | Invalid => Invalid
          | Fuel => Fuel
          end
      | 123 :: r =>
          match skip_ws r with
          | 125 :: r' => Found (VDict []) r'
          | r1 => scan_members (S (length r1)) (scan_value fuel') r1 []
          end
      | 91 :: r =>
          match skip_ws r with
          | 93 :: r' => Found (VList []) r'
          | r1 => scan_elements (S (length r1)) (scan_value fuel') r1 []
          end
      | _ => scan_literal s
      end
  end.

(** [json.loads(s)] for a [str]: [None] is [json.JSONDecodeError].  The
    document may be surrounded by whitespace; a leading byte order mark
    and trailing data are errors. *)
Definition loads (s : pystr) : option pyval :=
  match s with
  | 0xFEFF :: _ => None
  | _ =>
      let s1 := skip_ws s in
      match scan_value (S (length s1)) s1 with
      | Found v r => match skip_ws r with [] => Some v | _ => None end
      | _ => None
      end
  end.

End Json.

(** ** Evaluation with exceptions *)

Definition bind_result {A B : Type} (r : result A) (k : A -> result B)
    : result B :=
  match r with
  | Ok a => k a
  | Raise e => Raise e
  end.

Notation "'let?' x ':=' e 'in' k" := (bind_result e (fun x => k))
  (at level 10, x name, e at level 100, k at level 200, only parsing).

(** Operations of the object protocol that the program applies to values
    whose type is only known at run time. *)
Definition attribute_error (what : pystr) : exn :=
  Exn AttributeError (U "object has no attribute " ++ str_repr what).

(** [v.get(key, default)]: only a dict has the method. *)
Definition py_get (v : pyval) (key : pystr) (default : pyval) : result pyval :=
  match v with
  | VDict d => Ok (match dict_get d key with Some x => x | None => default end)
  | _ => Raise (attribute_error (U "get"))
  end.

(** [iter(v)], run to its end: the items of a list, the keys of a dict,
    the characters of a string. *)
Definition py_iter (v : pyval) : result (list pyval) :=
  match v with
  | VList items => Ok items
  | VDict d => Ok (List.map (fun kv => VStr (fst kv)) d)
  | VStr s => Ok (List.map (fun c => VStr [c]) s)
  | _ => Raise (Exn TypeError (U "object is not iterable"))
  end.

(** ** The record synthesizer *)

Module Synth.

(** A cell of the data frame after [fillna('')]: a string, or a scalar of
    a column that pandas read as numeric or boolean. *)
Inductive cell :=
| CStr (s : pystr)
| CInt (z : Z)
| CFloat (f : float)
| CBool (b : bool).

(** [str(c)], also what an f-string field shows. *)
Definition cell_str (c : cell) : pystr :=
  match c with
  | CStr s => s
  | CInt z => str_of_Z z
  | CFloat f => float_repr f
  | CBool true => U "True"
  | CBool false => U "False"
  end.

(** [bool(c)]. *)
Definition cell_truthy (c : cell) : bool :=
  match c with
  | CStr s => negb (bool_decide (s = []))
  | CInt z => negb (z =? 0)%Z
  | CFloat f => float_truthy f
  | CBool b => b
  end.

(** [c == s] for a string [s]. *)
Definition cell_eq_str (c : cell) (s : pystr) : bool :=
  match c with
  | CStr t => bool_decide (t = s)
  | _ => false
  end.

(** [int(c)]. *)
Definition cell_int (c : cell) : result Z :=
  match c with
  | CStr s => int_of_str s
  | CInt z => Ok z
  | CFloat f => int_of_float f
  | CBool b => Ok (if b then 1 else 0)%Z
  end.

(** [c.replace] of the apostrophe by the double quote: a method of [str]
    only. *)
Definition cell_replace_quotes (c : cell) : result pystr :=
  match c with
  | CStr s => Ok (replace_char APOSTROPHE QUOTE s)
  | _ => Raise (attribute_error (U "replace"))
  end.

Definition NO_CASES : pystr := U "暂无录取案例数据".
Definition FALLBACK_LABEL : pystr := U "录取数据: ".
Definition NA : pyval := VStr (U "N/A").

Definition KEY_TERM : pystr := U "录取时间".
Definition KEY_OUTCOME : pystr := U "录取结果".
Definition KEY_SCHOOL : pystr := U "学校（档次）".
Definition KEY_MAJOR : pystr := U "本科专业".
Definition KEY_GPA : pystr := U "GPA/Rank".
Definition KEY_RESEARCH : pystr := U "科研经历".
Definition KEY_INTERNSHIP : pystr := U "实习经历".
Definition KEY_OTHER : pystr := U "其他（语言/推荐信）".

(** The body of the loop of [process_admission_data]: the sentence of one
    case. *)
Definition case_text (case : pyval) : result pystr :=
  let? term := py_get case KEY_TERM NA in
  let? outcome := py_get case KEY_OUTCOME NA in
  let text := U "录取案例(" ++ py_str term ++ U "): " ++ py_str outcome ++ U "。" in
  let? school := py_get case KEY_SCHOOL NA in
  let? major := py_get case KEY_MAJOR NA in
  let text :=
    text ++ U "申请者背景: " ++ py_str school ++ U " " ++ py_str major
    ++ U "专业，" in
  let? gpa := py_get case KEY_GPA NA in
  let text := text ++ U "GPA/Rank " ++ py_str gpa ++ U "，" in
  let? research := py_get case KEY_RESEARCH NA in
  let text := text ++ U "科研经历 " ++ py_str research ++ U "，" in
  let? internship := py_get case KEY_INTERNSHIP NA in
  let text := text ++ U "实习经历 " ++ py_str internship ++ U "。" in
  let? other := py_get case KEY_OTHER VNone in
  if truthy other then
    let? other' := py_get case KEY_OTHER (VStr []) in
    Ok (text ++ U "其他信息: " ++ py_str other')
  else Ok text.

(** [for case in data_list: ... cases.append(case_text)]. *)
Fixpoint case_texts (data_list : list pyval) (cases : list pystr)
    : result (list pystr) :=
  match data_list with
  | [] => Ok cases
  | case :: rest =>
      let? text := case_text case in
      case_texts rest (cases ++ [text])
  end.

(** [json.loads(data_str)]. *)
Definition json_loads (data_str : pystr) : result pyval :=
  match Json.loads data_str with
  | Some v => Ok v
  | None => Raise (Exn JSONDecodeError (U "invalid JSON document"))
  end.

(** [process_admission_data(admission_data_str)]. *)
Definition process_admission_data (admission_data_str : cell) : result pystr :=
  if negb (cell_truthy admission_data_str)
     || cell_eq_str admission_data_str (U "null")
  then Ok NO_CASES
  else
    let attempt :=
      let? data_str := cell_replace_quotes admission_data_str in
      let? data_list := json_loads data_str in
      let? items := py_iter data_list in
      let? cases := case_texts items [] in
      Ok (join (U " ") cases) in
    match attempt with
    | Ok text => Ok text
    | Raise e =>
        if isinstance e JSONDecodeError || isinstance e TypeError
           || isinstance e AttributeError
        then Ok (FALLBACK_LABEL ++ cell_str admission_data_str)
        else Raise e
    end.

(** One row of the data frame: the columns the program reads. *)
Record row := Row {
  program_name : cell;
  university : cell;
  region : cell;
  tier : cell;
  duration : cell;
  language : cell;
  degree_type : cell;
  pros : cell;
  cons : cell;
  admission_preference : cell;
  application_notes : cell;
  scholarship : cell;
  admission_data : cell;
  admission_data_count : cell;
  internship_required : cell;
  thesis_required : cell;
  other_info : cell;
  other_notes : cell
}.

Definition NL : pystr := [NEWLINE].

(** [create_document_text(row)]: the labelled fields in a fixed order,
    stripped. *)
Definition create_document_text (r : row) : result pystr :=
  let? admission_text := process_admission_data (admission_data r) in
  let document :=
    NL ++ U "项目名称: " ++ cell_str (program_name r)
    ++ NL ++ U "所属大学: " ++ cell_str (university r)
    ++ NL ++ U "地区: " ++ cell_str (region r)
    ++ NL ++ U "项目等级: " ++ cell_str (tier r)
    ++ NL ++ U "学制: " ++ cell_str (duration r)
    ++ NL ++ U "授课语言: " ++ cell_str (language r)
    ++ NL ++ U "学位类型: " ++ cell_str (degree_type r)
    ++ NL ++ NL ++ U "项目优点: " ++ cell_str (pros r)
    ++ NL ++ NL ++ U "项目缺点: " ++ cell_str (cons r)
    ++ NL ++ NL ++ U "招生偏好: " ++ cell_str (admission_preference r)
    ++ NL ++ NL ++ U "申请注意事项: " ++ cell_str (application_notes r)
    ++ NL ++ NL ++ U "奖学金信息: " ++ cell_str (scholarship r)
    ++ NL ++ NL ++ U "过往录取案例: " ++ admission_text
    ++ NL ++ NL ++ U "其他信息: " ++ cell_str (other_info r) ++ U " "
    ++ cell_str (other_notes r)
    ++ NL ++ U "        " in
  Ok (strip document).

Definition YES : pystr := U "是".

(** [True if str(c).strip() == '是' else False]. *)
Definition flag_of (c : cell) : bool :=
  if bool_decide (strip (cell_str c) = YES) then true else false.

(** [int(c) if str(c).isdigit() else 0]. *)
Definition count_of (c : cell) : result Z :=
  if isdigit (cell_str c) then cell_int c else Ok 0%Z.

(** A metadata dict: its items in insertion order. *)
Definition metadata : Type := list (pystr * pyval).

(** The metadata dict literal of [load_and_process_data]. *)
Definition make_metadata (r : row) : result metadata :=
  let? count := count_of (admission_data_count r) in
  Ok [ (U "program_name", VStr (cell_str (program_name r)));
       (U "university", VStr (cell_str (university r)));
       (U "region", VStr (cell_str (region r)));
       (U "tier", VStr (cell_str (tier r)));
       (U "duration", VStr (cell_str (duration r)));
       (U "language", VStr (cell_str (language r)));
       (U "degree_type", VStr (cell_str (degree_type r)));
       (U "internship_required", VBool (flag_of (internship_required r)));
       (U "thesis_required", VBool (flag_of (thesis_required r)));
       (U "admission_data_count", VInt count) ].

(** [f"program_{index}"]. *)
Definition program_id (index : nat) : pystr := U "program_" ++ str_of_nat index.

(** The loop of [load_and_process_data] over [df.iterrows()], the index
    being the row position: the three lists grow together. *)
Fixpoint process_rows (rows : list row) (index : nat)
    (documents : list pystr) (metadatas : list metadata) (ids : list pystr)
    : result (list pystr * list metadata * list pystr) :=
  match rows with
  | [] => Ok (documents, metadatas, ids)
  | r :: rest =>
      let? doc_text := create_document_text r in
      let? meta := make_metadata r in
      process_rows rest (S index) (documents ++ [doc_text])
        (metadatas ++ [meta]) (ids ++ [program_id index])
  end.

End Synth.

Import Synth.

(** ** The ChromaDB client *)

Module Chroma.

(** A stored record; the embedding vector plays no part here. *)
Record entry := Entry {
  entry_id : pystr;
  entry_document : pystr;
  entry_metadata : metadata
}.

(** The calls issued to the client, oldest first. *)
Inductive call :=
| CallDelete (name : pystr)
| CallCreate (name : pystr)
| CallAdd (name : pystr) (ids : list pystr)
| CallCount (name : pystr)
| CallQuery (name : pystr) (query_text : pystr).

(** What the program acts on: the collections under the persistent path,
    the handle [self.collection] (the name of the open collection), the
    calls made so far and the lines printed so far. *)
Record state := State {
  collections : gmap pystr (list entry);
  self_collection : option pystr;
  calls : list call;
  stdout : list pystr
}.

(** Computations that read and write the state and may raise: what has
    been written before an exception stays written. *)
Definition M (A : Type) : Type := state -> result A * state.

Definition ret {A : Type} (a : A) : M A := fun st => (Ok a, st).

Definition raise {A : Type} (e : exn) : M A := fun st => (Raise e, st).

Definition bind {A B : Type} (m : M A) (k : A -> M B) : M B :=
  fun st =>
    match m st with
    | (Ok a, st') => k a st'
    | (Raise e, st') => (Raise e, st')
    end.

(** The outcome of a [try] body as a value, for the handler to inspect. *)
Definition attempt {A : Type} (m : M A) : M (result A) :=
  fun st => let '(r, st') := m st in (Ok r, st').

Definition print (line : pystr) : M unit :=
  fun st =>
    (Ok tt, State (collections st) (self_collection st) (calls st)
              (stdout st ++ [line])).

Definition issue (c : call) : M unit :=
  fun st =>
    (Ok tt, State (collections st) (self_collection st) (calls st ++ [c])
              (stdout st)).

Definition set_collections (m : gmap pystr (list entry)) : M unit :=
  fun st => (Ok tt, State m (self_collection st) (calls st) (stdout st)).

Definition set_self_collection (h : option pystr) : M unit :=
  fun st => (Ok tt, State (collections st) h (calls st) (stdout st)).

Definition get_state : M state := fun st => (Ok st, st).

End Chroma.

Import Chroma.

Notation "'let*' x ':=' e 'in' k" := (bind e (fun x => k))
  (at level 10, x name, e at level 100, k at level 200, only parsing).

Notation "'run' e 'in' k" := (bind e (fun _ => k))
  (at level 10, e at level 100, k at level 200, only parsing).

(** The client calls the program makes.  Each takes the outcome that lies
    outside the program as an argument: [fault] is the exception with
    which the store or the embedding backend fails this call, if it does;
    the answer of a search is given whole.  A failed call leaves the
    collections as they were. *)
Module Client.

Definition not_found (name : pystr) : exn :=
  Exn ValueError (U "Collection " ++ name ++ U " does not exist.").

Definition already_exists (name : pystr) : exn :=
  Exn OtherException (U "Collection " ++ name ++ U " already exists").

(** [client.delete_collection(name=name)]: an absent collection is an
    error. *)
Definition delete_collection (fault : option exn) (name : pystr) : M unit :=
  run issue (CallDelete name) in
  match fault with
  | Some e => raise e
  | None =>
      let* st := get_state in
      match collections st !! name with
      | Some _ => set_collections (delete name (collections st))
      | None => raise (not_found name)
      end
  end.

(** [client.create_collection(name=name, ...)]: a fresh, empty
    collection; an existing name is an error.  The handle is the name. *)
Definition create_collection (fault : option exn) (name : pystr) : M pystr :=
  run issue (CallCreate name) in
  match fault with
  | Some e => raise e
  | None =>
      let* st := get_state in
      match collections st !! name with
      | Some _ => raise (already_exists name)
      | None =>
          run set_collections (<[name := []]> (collections st)) in
          ret name
      end
  end.

(** The records of a batch, position by position. *)
Fixpoint records (ids : list pystr) (documents : list pystr)
    (metadatas : list metadata) : list entry :=
  match ids, documents, metadatas with
  | i :: ids', d :: documents', m :: metadatas' =>
      Entry i d m :: records ids' documents' metadatas'
  | _, _, _ => []
  end.

(** The record set is validated first: some ids, as many documents and
    metadatas as ids, no id twice. *)
Definition valid_batch (documents : list pystr) (metadatas : list metadata)
    (ids : list pystr) : bool :=
  negb (bool_decide (ids = []))
  && bool_decide (length documents = length ids)
  && bool_decide (length metadatas = length ids)
  && bool_decide (NoDup ids).

(** [collection.add(documents=..., metadatas=..., ids=...)]: the batch is
    validated, embedded, then written; a record whose id is already in
    the collection is ignored. *)
Definition collection_add (fault : option exn) (handle : pystr)
    (documents : list pystr) (metadatas : list metadata) (ids : list pystr)
    : M unit :=
  run issue (CallAdd handle ids) in
  let* st := get_state in
  match collections st !! handle with
  | None => raise (not_found handle)
  | Some old =>
      if negb (valid_batch documents metadatas ids)
      then raise (Exn ValueError (U "invalid record set"))
      else
        match fault with
        | Some e => raise e
        | None =>
            let fresh :=
              List.filter
                (fun r => negb (bool_decide
                                  (entry_id r ∈ List.map entry_id old)))
                (records ids documents metadatas) in
            set_collections (<[handle := old ++ fresh]> (collections st))
        end
  end.

(** [collection.count()]. *)
Definition collection_count (fault : option exn) (handle : pystr) : M nat :=
  run issue (CallCount handle) in
  match fault with
  | Some e => raise e
  | None =>
      let* st := get_state in
      match collections st !! handle with
      | Some old => ret (length old)
      | None => raise (not_found handle)
      end
  end.

(** [collection.query(query_texts=[text], n_results=n, where=w)]: the
    text is embedded and the index searched; [answer] is what comes
    back. *)
Definition collection_query (answer : result pyval) (handle : pystr)
    (query_text : pystr) (n_results : Z) (where_filter : option pyval)
    : M pyval :=
  run issue (CallQuery handle query_text) in
  match answer with
  | Ok results => ret results
  | Raise e => raise e
  end.

End Client.

(** ** The class [CSProgramsDB] *)

Module DB.

(** What the outside does during one [create_collection]: the fault of
    each call, if any, the batches being numbered from one. *)
Record build_faults := BuildFaults {
  delete_fault : option exn;
  create_fault : option exn;
  add_fault : nat -> option exn;
  count_fault : option exn
}.

Definition no_faults : build_faults :=
  BuildFaults None None (fun _ => None) None.

(** [range(start, stop, step)] for a positive step. *)
Definition py_range (start stop step : nat) : list nat :=
  List.map (fun k => start + k * step)%nat
    (seq 0 ((stop - start + step - 1) / step)).

(** [xs[i:i+n]]. *)
Definition slice {A : Type} (xs : list A) (i n : nat) : list A :=
  take n (drop i xs).

Section CSProgramsDB.

(** [self.collection_name]. *)
Variable collection_name : pystr.

(** [self.collection], for a method call on it. *)
Definition the_collection (method : pystr) : M pystr :=
  let* st := get_state in
  match self_collection st with
  | Some handle => ret handle
  | None => raise (attribute_error method)
  end.

Definition batch_size : nat := 10.

(** The lines [create_collection] prints. *)
Definition deleted_line : pystr := U "🗑️ 删除现有集合: " ++ collection_name.

Definition absent_line : pystr :=
  U "ℹ️ 集合 " ++ collection_name ++ U " 不存在，将创建新集合".

Definition created_line : pystr := U "✅ 创建集合: " ++ collection_name.

Definition plan_line (total_batches : nat) : pystr :=
  U "📦 分 " ++ str_of_nat total_batches ++ U " 批次添加数据，每批 "
  ++ str_of_nat batch_size ++ U " 个项目".

Definition success_line (batch_num total_batches : nat) : pystr :=
  U "✅ 批次 " ++ str_of_nat batch_num ++ U "/" ++ str_of_nat total_batches
  ++ U " 添加成功".

Definition failure_line (batch_num : nat) (e : exn) : pystr :=
  U "❌ 批次 " ++ str_of_nat batch_num ++ U " 添加失败: " ++ exn_msg e.

Definition done_line (count : nat) : pystr :=
  U "🎉 集合创建完成，包含 " ++ str_of_nat count ++ U " 个项目".

(** The [try] body of the batch loop, for the batch that starts at [i]. *)
Definition add_batch (documents : list pystr) (metadatas : list metadata)
    (ids : list pystr) (total_batches : nat) (faults : nat -> option exn)
    (i : nat) : M unit :=
  let batch_docs := slice documents i batch_size in
  let batch_ids := slice ids i batch_size in
  let batch_metadata := slice metadatas i batch_size in
  let batch_num := (i / batch_size + 1)%nat in
  let* handle := the_collection (U "add") in
  run Client.collection_add (faults batch_num) handle batch_docs
        batch_metadata batch_ids in
  print (success_line batch_num total_batches).

(** The batch loop of [create_collection]: [starts] are the values of [i]
    still to come; a caught failure ends the loop. *)
Fixpoint add_batches (documents : list pystr) (metadatas : list metadata)
    (ids : list pystr) (total_batches : nat) (faults : nat -> option exn)
    (starts : list nat) : M unit :=
  match starts with
  | [] => ret tt
  | i :: rest =>
      let batch_num := (i / batch_size + 1)%nat in
      let* outcome :=
        attempt (add_batch documents metadatas ids total_batches faults i) in
      match outcome with
      | Ok _ =>
          add_batches documents metadatas ids total_batches faults rest
      | Raise e =>
          if is_Exception e then print (failure_line batch_num e)
          else raise e
      end
  end.

(** [create_collection(documents, metadatas, ids, recreate)]; it returns
    [None]. *)
Definition create_collection (documents : list pystr)
    (metadatas : list metadata) (ids : list pystr) (recreate : bool)
    (faults : build_faults) : M unit :=
  run (if recreate then
         let* outcome :=
           attempt
             (run Client.delete_collection (delete_fault faults)
                    collection_name in
              print deleted_line) in
         match outcome with
         | Ok _ => ret tt
         | Raise _ => print absent_line
         end
       else ret tt) in
  let* handle := Client.create_collection (create_fault faults)
                   collection_name in
  run set_self_collection (Some handle) in
  run print created_line in
  let total_batches := ((length documents + batch_size - 1) / batch_size)%nat in
  run print (plan_line total_batches) in
  run add_batches documents metadatas ids total_batches (add_fault faults)
        (py_range 0 (length documents) batch_size) in
  let* handle := the_collection (U "count") in
  let* n := Client.collection_count (count_fault faults) handle in
  print (done_line n).

Definition NOT_INITIALIZED : exn :=
  Exn ValueError (U "集合未初始化，请先创建或连接到集合").

Definition query_failed_line (e : exn) : pystr := U "❌ 查询失败: " ++ exn_msg e.

(** [query_programs(query_text, n_results, where_filter)]. *)
Definition query_programs (query_text : pystr) (n_results : Z)
    (where_filter : option pyval) (answer : result pyval) : M pyval :=
  let* st := get_state in
  match self_collection st with
  | None => raise NOT_INITIALIZED
  | Some handle =>
      let* outcome :=
        attempt (Client.collection_query answer handle query_text n_results
                   where_filter) in
      match outcome with
      | Ok results => ret results
      | Raise e =>
          if is_Exception e then
            run print (query_failed_line e) in
            ret (VDict [])
          else raise e
      end
  end.

(** [load_and_process_data(csv_path)]: [csv] is what lies at the path, the
    rows that [pd.read_csv(csv_path).fillna('')] yields, or nothing. *)
Definition load_and_process_data (csv_path : pystr) (csv : option (list row))
    : M (list pystr * list metadata * list pystr) :=
  match csv with
  | None => raise (Exn FileNotFoundError (U "CSV文件不存在: " ++ csv_path))
  | Some df =>
      run print (U "📊 读取到 " ++ str_of_nat (length df) ++ U " 个CS项目") in
      run print (U "🔄 处理项目数据...") in
      match process_rows df 0 [] [] [] with
      | Raise e => raise e
      | Ok (documents, metadatas, ids) =>
          run print (U "✅ 成功处理 " ++ str_of_nat (length documents)
                       ++ U " 个项目") in
          ret (documents, metadatas, ids)
      end
  end.

End CSProgramsDB.

(** Subscription and arithmetic on values typed at run time. *)
Definition type_error (what : pystr) : exn := Exn TypeError what.

(** [v[key]] for a string key. *)
Definition py_item (v : pyval) (key : pystr) : result pyval :=
  match v with
  | VDict d =>
      match dict_get d key with
      | Some x => Ok x
      | None => Raise (Exn KeyError (str_repr key))
      end
  | VList _ | VStr _ => Raise (type_error (U "indices must be integers"))
  | _ => Raise (type_error (U "object is not subscriptable"))
  end.

(** [v[0]]. *)
Definition py_first (v : pyval) : result pyval :=
  match v with
  | VList (x :: _) => Ok x
  | VStr (c :: _) => Ok (VStr [c])
  | VList [] | VStr [] => Raise (Exn IndexError (U "index out of range"))
  | VDict _ => Raise (Exn KeyError (U "0"))
  | _ => Raise (type_error (U "object is not subscriptable"))
  end.

(** [int.__float__]: the nearest float, or [OverflowError]. *)
Definition float_of_int (z : Z) : result float :=
  let f := float_of_frac (z <? 0)%Z (Z.abs z, 1%Z) in
  if PrimFloat.is_infinity f
  then Raise (Exn OverflowError (U "int too large to convert to float"))
  else Ok f.

(** [f"{1-distance:.3f}"]. *)
Definition similarity_text (distance : pyval) : result pystr :=
  match distance with
  | VFloat d => Ok (format_fixed 3 (1 - d)%float)
  | VInt z => let? f := float_of_int (1 - z) in Ok (format_fixed 3 f)
  | VBool b =>
      let? f := float_of_int (1 - (if b then 1 else 0)) in
      Ok (format_fixed 3 f)
  | _ => Raise (type_error (U "unsupported operand type(s) for -"))
  end.

(** [v > 0]. *)
Definition py_positive (v : pyval) : result bool :=
  match v with
  | VInt z => Ok (0 <? z)%Z
  | VBool b => Ok b
  | VFloat f => Ok (PrimFloat.ltb 0%float f)
  | _ => Raise (type_error (U "'>' not supported"))
  end.

(** [zip(a, b, c)]. *)
Fixpoint zip3 {A B C : Type} (a : list A) (b : list B) (c : list C)
    : list (A * B * C) :=
  match a, b, c with
  | x :: a', y :: b', z :: c' => (x, y, z) :: zip3 a' b' c'
  | _, _, _ => []
  end.

Definition lift {A : Type} (r : result A) : M A :=
  match r with
  | Ok a => ret a
  | Raise e => raise e
  end.

(** The header line of a result. *)
Definition result_header (i : nat) (similarity : pystr) : pystr :=
  NL ++ U "📋 结果 " ++ str_of_nat (i + 1) ++ U " (相似度: " ++ similarity
  ++ U "):".

(** The body of the loop of [print_query_results] for one result. *)
Definition print_result (i : nat) (metadata distance : pyval) : M unit :=
  let* similarity := lift (similarity_text distance) in
  run print (result_header i similarity) in
  let field (label key : pystr) : M unit :=
    let* v := lift (py_get metadata key NA) in
    print (label ++ py_str v) in
  run field (U "  项目: ") (U "program_name") in
  run field (U "  大学: ") (U "university") in
  run field (U "  地区: ") (U "region") in
  run field (U "  等级: ") (U "tier") in
  run field (U "  学制: ") (U "duration") in
  run field (U "  语言: ") (U "language") in
  let* count := lift (py_get metadata (U "admission_data_count") (VInt 0)) in
  let* positive := lift (py_positive count) in
  if positive then
    let* shown := lift (py_item metadata (U "admission_data_count")) in
    print (U "  录取案例数: " ++ py_str shown)
  else ret tt.

Fixpoint print_results (i : nat) (items : list (pyval * pyval * pyval))
    : M unit :=
  match items with
  | [] => ret tt
  | (_, metadata, distance) :: rest =>
      run print_result i metadata distance in
      print_results (S i) rest
  end.

(** [results['documents'][0]] and the like. *)
Definition first_of (results : pyval) (key : pystr) : result pyval :=
  let? column := py_item results key in
  py_first column.

(** The test that opens [print_query_results]. *)
Definition nothing_found (results : pyval) : result bool :=
  if negb (truthy results) then Ok true
  else
    let? documents := py_get results (U "documents") VNone in
    if negb (truthy documents) then Ok true
    else
      let? first := first_of results (U "documents") in
      Ok (negb (truthy first)).

(** [print_query_results(results, query_description)]. *)
Definition print_query_results (results : pyval) (query_description : pystr)
    : M unit :=
  let* none := lift (nothing_found results) in
  if none then
    print (NL ++ U "🤷 " ++ query_description ++ U " - 未找到符合条件的结果")
  else
    run print (NL ++ U "🔍 " ++ query_description) in
    run print (List.concat (repeat (U "=") 50)) in
    let* documents := lift (first_of results (U "documents")) in
    let* metadatas := lift (first_of results (U "metadatas")) in
    let* distances := lift (first_of results (U "distances")) in
    let* documents := lift (py_iter documents) in
    let* metadatas := lift (py_iter metadatas) in
    let* distances := lift (py_iter distances) in
    print_results 0 (zip3 documents metadatas distances).

End DB.

Import DB.

(** ** Counting and sorting values *)

(** The comparisons, the dict of counts and [sorted] that
    [get_collection_stats] relies on, for the values a metadata dict
    holds. *)
Module Tally.

(** [a < b] for two strings: by code points. *)
Fixpoint str_lt (a b : pystr) : bool :=
  match a, b with
  | _, [] => false
  | [], _ :: _ => true
  | x :: a', y :: b' => (x <? y) || ((x =? y) && str_lt a' b')
  end.

(** The order of two numbers, [bool] counting as an [int]; nothing when
    one of them is a NaN.  An [int] and a [float] are compared exactly. *)
Definition int_float_compare (z : Z) (f : float) : option comparison :=
  match Prim2SF f with
  | S754_nan => None
  | S754_infinity s => Some (if s then Gt else Lt)
  | S754_zero _ => Some (z ?= 0)%Z
  | S754_finite s m e =>
      let q := frac_of m e in
      Some (z * snd q ?= (if s then - fst q else fst q))%Z
  end.

Definition float_float_compare (f g : float) : option comparison :=
  match PrimFloat.compare f g with
  | FEq => Some Eq
  | FLt => Some Lt
  | FGt => Some Gt
  | FNotComparable => None
  end.

Definition as_int (v : pyval) : option Z :=
  match v with
  | VInt z => Some z
  | VBool b => Some (if b then 1 else 0)%Z
  | _ => None
  end.

Definition num_compare (a b : pyval) : option (option comparison) :=
  match as_int a, as_int b, a, b with
  | Some x, Some y, _, _ => Some (Some (x ?= y)%Z)
  | Some x, None, _, VFloat g => Some (int_float_compare x g)
  | None, Some y, VFloat f, _ =>
      Some (option_map CompOpp (int_float_compare y f))
  | None, None, VFloat f, VFloat g => Some (float_float_compare f g)
  | _, _, _, _ => None
  end.

(** [a == b] for two keys. *)
Definition py_eq (a b : pyval) : bool :=
  match a, b with
  | VStr s, VStr t => bool_decide (s = t)
  | VNone, VNone => true
  | _, _ =>
      match num_compare a b with
      | Some (Some Eq) => true
      | _ => false
      end
  end.

(** [a < b] for two keys: strings with strings, numbers with numbers. *)
Definition py_lt (a b : pyval) : result bool :=
  match a, b with
  | VStr s, VStr t => Ok (str_lt s t)
  | _, _ =>
      match num_compare a b with
      | Some (Some Lt) => Ok true
      | Some _ => Ok false
      | None => Raise (Exn TypeError (U "'<' not supported between instances"))
      end
  end.

(** A dict whose values are counts: its items in insertion order. *)
Definition counts : Type := list (pyval * nat).

Definition hashable (v : pyval) : bool :=
  match v with
  | VList _ | VDict _ => false
  | _ => true
  end.

(** [d[k] = d.get(k, 0) + 1]. *)
Fixpoint bump (d : counts) (k : pyval) : counts :=
  match d with
  | [] => [(k, 1%nat)]
  | (k', n) :: rest =>
      if py_eq k' k then (k', S n) :: rest else (k', n) :: bump rest k
  end.

(** The loop that counts: [for v in values: d[v] = d.get(v, 0) + 1]. *)
Fixpoint count_values (values : list pyval) (d : counts) : result counts :=
  match values with
  | [] => Ok d
  | v :: rest =>
      if hashable v then count_values rest (bump d v)
      else Raise (Exn TypeError (U "unhashable type"))
  end.

(** [(k1, n1) < (k2, n2)]: the first components decide unless they are
    equal. *)
Definition item_lt (a b : pyval * nat) : result bool :=
  if py_eq (fst a) (fst b) then Ok (snd a <? snd b)%nat
  else py_lt (fst a) (fst b).

(** [sorted(d.items())], as a stable insertion sort: each item goes before
    the first item that is greater.  When no key is a NaN the items are
    totally ordered and every stable sort gives this list. *)
Fixpoint insert_item (x : pyval * nat) (sorted : counts) : result counts :=
  match sorted with
  | [] => Ok [x]
  | y :: rest =>
      let? before := item_lt x y in
      if before then Ok (x :: y :: rest)
      else
        let? rest' := insert_item x rest in
        Ok (y :: rest')
  end.

Fixpoint sorted_items (d : counts) (sorted : counts) : result counts :=
  match d with
  | [] => Ok sorted
  | x :: rest =>
      let? sorted' := insert_item x sorted in
      sorted_items rest sorted'
  end.

(** [[meta[key] for meta in metadatas]]. *)
Fixpoint column (key : pystr) (metadatas : list metadata)
    : result (list pyval) :=
  match metadatas with
  | [] => Ok []
  | meta :: rest =>
      let? v := py_item (VDict meta) key in
      let? vs := column key rest in
      Ok (v :: vs)
  end.

(** [sum(1 for meta in metadatas if meta[key])]. *)
Fixpoint count_truthy (key : pystr) (metadatas : list metadata)
    : result nat :=
  match metadatas with
  | [] => Ok 0%nat
  | meta :: rest =>
      let? v := py_item (VDict meta) key in
      let? n := count_truthy key rest in
      Ok (if truthy v then S n else n)
  end.

End Tally.

Import Tally.

(** ** The rest of the class and [main] *)

(** The client calls that only read.  They are not entered in the log of
    calls. *)
Module Reads.

(** [client.get_collection(name=name, ...)]: an absent collection is a
    [ValueError].  The handle is the name. *)
Definition get_collection (fault : option exn) (name : pystr) : M pystr :=
  match fault with
  | Some e => raise e
  | None =>
      let* st := get_state in
      match collections st !! name with
      | Some _ => ret name
      | None => raise (Client.not_found name)
      end
  end.

(** [client.list_collections()]: [listing] is what the store answers, the
    names of its collections in the order it gives them. *)
Definition list_collections (listing : result (list pystr))
    : M (list pystr) :=
  lift listing.

(** [collection.get()['metadatas']]: the metadata of every record. *)
Definition collection_get (fault : option exn) (handle : pystr)
    : M (list metadata) :=
  match fault with
  | Some e => raise e
  | None =>
      let* st := get_state in
      match collections st !! handle with
      | Some content => ret (List.map entry_metadata content)
      | None => raise (Client.not_found handle)
      end
  end.

End Reads.

Module Session.

(** What the outside does during one run of [main], besides the build:
    the failure of the client or of the embedding function at start, if
    any, and the class name of the embedding function; the faults of the
    calls of [get_existing_collection] and the listing of the store; the
    fault of [collection.get()]; and the answers to the four queries. *)
Record outside := Outside {
  init_fault : option exn;
  embedding_name : pystr;
  connect_fault : option exn;
  connect_count_fault : option exn;
  listing : result (list pystr);
  stats_fault : option exn;
  answers : result pyval * result pyval * result pyval * result pyval
}.

Section CSProgramsDB.

(** [self.db_path] and [self.collection_name]. *)
Variable db_path : pystr.
Variable collection_name : pystr.

(** [_initialize_db()]. *)
Definition initialize_db (fault : option exn) (name : pystr) : M unit :=
  let* outcome :=
    attempt
      (run lift (match fault with
                 | Some e => Raise e
                 | None => Ok tt
                 end) in
       run print (U "✅ 成功初始化ChromaDB客户端，数据库路径: " ++ db_path) in
       print (U "✅ 使用默认嵌入函数: " ++ name)) in
  match outcome with
  | Ok _ => ret tt
  | Raise e =>
      if is_Exception e then
        run print (U "❌ 数据库初始化失败: " ++ exn_msg e) in
        raise e
      else raise e
  end.

(** [__init__(db_path, collection_name)]. *)
Definition init (fault : option exn) (name : pystr) : M unit :=
  run set_self_collection None in
  initialize_db fault name.

Definition connected_line (count : nat) : pystr :=
  U "✅ 连接到现有集合 '" ++ collection_name ++ U "'，包含 "
  ++ str_of_nat count ++ U " 个项目".

Definition missing_line : pystr :=
  U "⚠️ 集合 '" ++ collection_name ++ U "' 不存在".

Definition available_line (names : list pystr) : pystr :=
  U "📋 可用集合:" ++ U " " ++ py_repr (VList (List.map VStr names)).

(** [get_existing_collection()]. *)
Definition get_existing_collection (fault count_fault : option exn)
    (listing : result (list pystr)) : M bool :=
  let* outcome :=
    attempt
      (let* handle := Reads.get_collection fault collection_name in
       run set_self_collection (Some handle) in
       let* handle := the_collection (U "count") in
       let* n := Client.collection_count count_fault handle in
       run print (connected_line n) in
       ret true) in
  match outcome with
  | Ok found => ret found
  | Raise e =>
      if isinstance e ValueError then
        run print missing_line in
        let* available_collections := Reads.list_collections listing in
        run (match available_collections with
             | [] => ret tt
             | _ => print (available_line available_collections)
             end) in
        ret false
      else raise e
  end.

Definition count_line (key : pyval) (count : nat) : pystr :=
  U "  " ++ py_str key ++ U ": " ++ str_of_nat count ++ U " 个项目".

(** [for key, count in items: print(...)]. *)
Fixpoint print_counts (items : counts) : M unit :=
  match items with
  | [] => ret tt
  | (key, count) :: rest =>
      run print (count_line key count) in
      print_counts rest
  end.

(** The part of [get_collection_stats] that is written twice: the values
    under [key] counted, then printed in sorted order under [title]. *)
Definition print_distribution (key title : pystr)
    (metadatas : list metadata) : M unit :=
  let* values := lift (column key metadatas) in
  let* value_counts := lift (count_values values []) in
  run print (NL ++ title) in
  let* items := lift (sorted_items value_counts []) in
  print_counts items.

(** [get_collection_stats()]. *)
Definition get_collection_stats (fault : option exn) : M unit :=
  let* st := get_state in
  match self_collection st with
  | None => print (U "❌ 集合未初始化")
  | Some handle =>
      let* metadatas := Reads.collection_get fault handle in
      let total_count := length metadatas in
      run print (NL ++ U "📊 集合统计信息") in
      run print (List.concat (repeat (U "=") 30)) in
      run print (U "总项目数: " ++ str_of_nat total_count) in
      run print_distribution (U "region") (U "📍 按地区分布:") metadatas in
      run print_distribution (U "tier") (U "🏆 按等级分布:") metadatas in
      let* thesis_required :=
        lift (count_truthy (U "thesis_required") metadatas) in
      print (NL ++ U "📝 需要论文的项目: " ++ str_of_nat thesis_required
             ++ U "/" ++ str_of_nat total_count)
  end.

(** A query and the display of what it returns, as [main] chains them. *)
Definition query_and_print (query_text : pystr) (n_results : Z)
    (where_filter : option pyval) (answer : result pyval)
    (query_description : pystr) : M unit :=
  let* results := query_programs query_text n_results where_filter answer in
  print_query_results results query_description.

End CSProgramsDB.

Definition DB_PATH : pystr := U "vectors".
Definition COLLECTION_NAME : pystr := U "cs_programs_default".
Definition CSV_PATH : pystr := U "global_cs_programs.csv".

Definition strings (items : list pystr) : pyval := VList (List.map VStr items).

(** The four queries of [main]. *)
Definition sample_queries
    (answers : result pyval * result pyval * result pyval * result pyval)
    : M unit :=
  let '(answer1, answer2, answer3, answer4) := answers in
  run query_and_print (U "学制短 快速毕业 时间紧凑") 5
        (Some (VDict [(U "duration",
                       VDict [(U "$in",
                               strings [U "9个月"; U "10个月"; U "11个月";
                                        U "12个月"; U "1年"; U "一年"])])]))
        answer1 (U "短学制项目 (1年以内)") in
  run query_and_print (U "顶级大学 计算机科学 人工智能") 5
        (Some (VDict [(U "tier",
                       VDict [(U "$in", strings [U "T0"; U "T1"])])]))
        answer2 (U "顶级项目 (T0/T1)") in
  run query_and_print (U "英国 录取友好 申请建议") 3
        (Some (VDict [(U "region", VStr (U "英国"))]))
        answer3 (U "英国CS项目") in
  query_and_print (U "不需要论文 coursework 授课型") 3
    (Some (VDict [(U "thesis_required", VBool false)]))
    answer4 (U "不需要论文的项目").

(** The [try] of [main]: the collection is built from the file. *)
Definition build_from_csv (csv : option (list row)) (faults : build_faults)
    : M unit :=
  let* data := load_and_process_data CSV_PATH csv in
  let '(documents, metadatas, ids) := data in
  create_collection COLLECTION_NAME documents metadatas ids true faults.

(** The body of [if not db.get_existing_collection()]: the build, and
    whether [main] goes on after it ([False] stands for its [return]). *)
Definition rebuild (csv : option (list row)) (faults : build_faults)
    : M bool :=
  run print (NL ++ U "🔄 未找到现有集合，开始创建新集合...") in
  let* outcome := attempt (build_from_csv csv faults) in
  match outcome with
  | Ok _ => ret true
  | Raise e =>
      if isinstance e FileNotFoundError then
        run print (U "❌ " ++ exn_msg e) in
        run print (U "请确保 'global_cs_programs.csv' 文件在当前目录下") in
        ret false
      else if is_Exception e then
        run print (U "❌ 数据处理失败: " ++ exn_msg e) in
        ret false
      else raise e
  end.

(** The statistics, the four queries and the closing hints. *)
Definition demonstrate (out : outside) : M unit :=
  run get_collection_stats (stats_fault out) in
  run print (NL ++ U "🔍 执行示例查询") in
  run print (List.concat (repeat (U "=") 40)) in
  run sample_queries (answers out) in
  run print (NL ++ U "✅ 查询演示完成!") in
  run print (NL ++ U "💡 使用提示:") in
  run print (U "- 可以修改 main() 函数中的查询来测试不同搜索") in
  run print (U "- 支持中文和英文查询") in
  run print (U "- 可以使用 where_filter 进行精确筛选") in
  print (U "- 默认嵌入模型无需API密钥，但效果可能不如专业模型").

(** [main()]. *)
Definition main (out : outside) (csv : option (list row))
    (faults : build_faults) : M unit :=
  run print (U "🚀 CS Programs ChromaDB Query Tool (默认嵌入模型)") in
  run print (List.concat (repeat (U "=") 60)) in
  run init DB_PATH (init_fault out) (embedding_name out) in
  let* existing :=
    get_existing_collection COLLECTION_NAME (connect_fault out)
      (connect_count_fault out) (listing out) in
  let* ready := if negb existing then rebuild csv faults else ret true in
  if ready then demonstrate out else ret tt.

End Session.

Import Tally Reads Session.

(** ** The vocabulary of the statements

    Predicates, closed forms and sample data that the properties below
    are stated with. *)

(** A scanner that consumes input and stays within its budget on inputs
    no longer than [bound]. *)
Definition sound_scanner (value : pystr -> Json.scan pyval) (bound : nat)
    : Prop :=
  forall s : pystr,
    (length s <= bound)%nat ->
    value s <> Json.Fuel
    /\ forall v r, value s = Json.Found v r -> (length r < length s)%nat.

(** *** Admission history *)




Definition field (case : list (pystr * pyval)) (key : pystr) : pyval :=
  match dict_get case key with
  | Some v => v
  | None => NA
  end.





(** *** Queries *)

(** A database with no collection open, and one with a collection open. *)
Definition closed_db : state := State ∅ None [] [].

Definition open_db (name : pystr) (content : list entry) : state :=
  State {[ name := content ]} (Some name) [] [].

Definition BACKEND_DOWN : exn := Exn OtherException (U "embedding backend unavailable").

(** *** Metadata flattening *)

Definition all_space (s : pystr) : Prop := forallb is_space s = true.

(** A row of the catalogue, and the same row with other cells. *)
Definition sample_row : row :=
  Row (CStr (U "MSc Computer Science")) (CStr (U "University of Oxford"))
    (CStr (U "英国")) (CStr (U "T0")) (CStr (U "12个月")) (CStr (U "EN"))
    (CStr (U "MSc")) (CStr (U "课程强度高")) (CStr (U "学费高"))
    (CStr (U "偏好科研背景")) (CStr (U "尽早申请")) (CStr (U "较难获得"))
    (CStr (U "[{'录取时间': '24Fall', '录取结果': 'AD'}]")) (CInt 1)
    (CStr (U "否")) (CStr (U "是")) (CStr []) (CStr []).

Definition with_internship (c : cell) (r : row) : row :=
  Row (program_name r) (university r) (region r) (tier r) (duration r)
    (language r) (degree_type r) (pros r) (cons r) (admission_preference r)
    (application_notes r) (scholarship r) (admission_data r)
    (admission_data_count r) c (thesis_required r) (other_info r)
    (other_notes r).

Definition with_count (c : cell) (r : row) : row :=
  Row (program_name r) (university r) (region r) (tier r) (duration r)
    (language r) (degree_type r) (pros r) (cons r) (admission_preference r)
    (application_notes r) (scholarship r) (admission_data r) c
    (internship_required r) (thesis_required r) (other_info r)
    (other_notes r).

(** The flag of a metadata dict. *)
Definition flag_in (md : result metadata) (key : pystr) : option pyval :=
  match md with
  | Ok d => dict_get d key
  | Raise _ => None
  end.

Definition sample_metadata : metadata :=
  [ (U "program_name", VStr (U "MSc Computer Science"));
    (U "university", VStr (U "University of Oxford"));
    (U "region", VStr (U "英国"));
    (U "tier", VStr (U "T0"));
    (U "duration", VStr (U "12个月"));
    (U "language", VStr (U "EN"));
    (U "degree_type", VStr (U "MSc"));
    (U "internship_required", VBool false);
    (U "thesis_required", VBool true);
    (U "admission_data_count", VInt 1) ].

(** *** Similarity *)

(** What a search returns for one query text: one list per column. *)
Definition query_result (documents : list pystr) (metadatas : list metadata)
    (distances : list float) : pyval :=
  VDict [ (U "documents", VList [VList (List.map VStr documents)]);
          (U "metadatas", VList [VList (List.map VDict metadatas)]);
          (U "distances", VList [VList (List.map VFloat distances)]) ].


(** *** Building a collection *)

Local Open Scope nat_scope.

(** The records of a batch that the collection does not hold yet. *)
Definition fresh_records (old new : list entry) : list entry :=
  List.filter
    (fun r => negb (bool_decide (entry_id r ∈ List.map entry_id old))) new.

Definition INVALID_BATCH : exn := Exn ValueError (U "invalid record set").

(** The records of a data set, the calls that add its batches, the lines
    of the batches accepted, and the values of [i] in the loop. *)
Definition all_records (documents : list pystr) (metadatas : list metadata)
    (ids : list pystr) : list entry :=
  Client.records ids documents metadatas.

Definition add_calls (ids : list pystr) (h : pystr) (j n : nat) : list call :=
  List.map (fun q => CallAdd h (slice ids (q * batch_size) batch_size))
    (seq j n).

Definition success_lines (total_batches j n : nat) : list pystr :=
  List.map (fun q => success_line (q + 1) total_batches) (seq j n).

Definition starts_from (j n : nat) : list nat :=
  List.map (fun q => q * batch_size) (seq j n).

(** The effect of one batch on the content of the collection, and the
    content the loop leaves: what the store holds depends on the data set
    and on the faults only. *)
Definition batch_outcome (documents : list pystr) (metadatas : list metadata)
    (ids : list pystr) (faults : nat -> option exn) (i : nat)
    (old : list entry) : option (list entry) :=
  if Client.valid_batch (slice documents i batch_size)
       (slice metadatas i batch_size) (slice ids i batch_size)
  then
    match faults (i / batch_size + 1) with
    | Some _ => None
    | None =>
        Some (old ++ fresh_records old
                       (Client.records (slice ids i batch_size)
                          (slice documents i batch_size)
                          (slice metadatas i batch_size)))
    end
  else None.

Fixpoint stored (documents : list pystr) (metadatas : list metadata)
    (ids : list pystr) (faults : nat -> option exn) (starts : list nat)
    (old : list entry) : list entry :=
  match starts with
  | [] => old
  | i :: rest =>
      match batch_outcome documents metadatas ids faults i old with
      | Some old' => stored documents metadatas ids faults rest old'
      | None => old
      end
  end.

(** The last statements of [create_collection]. *)
Definition finish (faults : build_faults) : M unit :=
  let* handle := the_collection (U "count") in
  let* n := Client.collection_count (count_fault faults) handle in
  print (done_line n).

(** The first statements of [create_collection] when [recreate] holds:
    the attempt to delete, which never raises. *)
Definition delete_attempt (name : pystr) (fault : option exn) : M unit :=
  let* outcome :=
    attempt (run Client.delete_collection fault name in
             print (deleted_line name)) in
  match outcome with
  | Ok _ => ret tt
  | Raise _ => print (absent_line name)
  end.

Definition total_of (documents : list pystr) : nat :=
  (length documents + batch_size - 1) / batch_size.

(** A data set of [n] rows, and the faults of a build whose batch [k]
    fails. *)
Definition sample_rows (n : nat) : list row := repeat sample_row n.

Definition NAME : pystr := U "cs_programs_default".

Definition QUOTA : exn := Exn OtherException (U "quota exceeded").

Definition fail_at (k : nat) (e : exn) : build_faults :=
  BuildFaults None None (fun j => if Nat.eqb j k then Some e else None) None.

Definition synthesized (rows : list row)
    : list pystr * list metadata * list pystr :=
  match process_rows rows 0 [] [] [] with
  | Ok data => data
  | Raise _ => ([], [], [])
  end.

Definition sample_documents (n : nat) : list pystr :=
  fst (fst (synthesized (sample_rows n))).

Definition sample_metadatas (n : nat) : list metadata :=
  snd (fst (synthesized (sample_rows n))).

Definition sample_ids (n : nat) : list pystr :=
  snd (synthesized (sample_rows n)).


Local Close Scope nat_scope.

(** *** Beyond the claims *)















Local Open Scope nat_scope.

(** The line that the delete step of a build prints. *)
Definition delete_line (name : pystr) (fault : option exn)
    (cs : gmap pystr (list entry)) : pystr :=
  match fault, cs !! name with
  | None, Some _ => deleted_line name
  | _, _ => absent_line name
  end.

Local Close Scope nat_scope.

(** The line that [print_query_results] prints when there is nothing to
    show. *)
Definition nothing_found_line (query_description : pystr) : pystr :=
  NL ++ U "🤷 " ++ query_description ++ U " - 未找到符合条件的结果".

(** What the store answers when nothing matches: three empty columns. *)
Definition NO_HITS : pyval := query_result [] [] [].

(** A computation that changes neither the collections nor the open
    collection, whatever it returns or raises. *)
Definition keeps_store {A : Type} (m : M A) : Prop :=
  forall st : state,
    collections (snd (m st)) = collections st
    /\ self_collection (snd (m st)) = self_collection st.

(** The lines [main] prints before it looks for the collection. *)
Definition start_lines (out : outside) : list pystr :=
  [ U "🚀 CS Programs ChromaDB Query Tool (默认嵌入模型)";
    List.concat (repeat (U "=") 60);
    U "✅ 成功初始化ChromaDB客户端，数据库路径: " ++ DB_PATH;
    U "✅ 使用默认嵌入函数: " ++ embedding_name out ].



Definition QUIET : outside :=
  Outside None (U "ONNXMiniLM_L6_V2") None None (Ok []) None
    (Ok NO_HITS, Ok NO_HITS, Ok NO_HITS, Ok NO_HITS).

(** The text under [key], when there is one. *)
Definition text_at (key : pystr) (m : metadata) : option pystr :=
  match dict_get m key with
  | Some (VStr s) => Some s
  | _ => None
  end.

(** A metadata dict as [load_and_process_data] writes them, as far as the
    statistics read it: a text for the region and for the tier, and some
    value for the thesis flag. *)
Definition catalogued (m : metadata) : Prop :=
  is_Some (text_at (U "region") m) /\ is_Some (text_at (U "tier") m)
  /\ is_Some (dict_get m (U "thesis_required")).

Definition texts_at (key : pystr) (metadatas : list metadata) : list pystr :=
  omap (text_at key) metadatas.

(** How many times [k] occurs in [keys]. *)
Definition occurrences (k : pystr) (keys : list pystr) : nat :=
  length (List.filter (fun x => bool_decide (x = k)) keys).

(** The order of two items of a tally: that of their keys. *)
Definition key_lt (a b : pystr * nat) : Prop := str_lt (fst a) (fst b) = true.

(** [items] is the tally of [keys]: the keys that occur, each once, in
    increasing order, each with the number of its occurrences. *)
Definition tallies (items : list (pystr * nat)) (keys : list pystr) : Prop :=
  StronglySorted key_lt items
  /\ (forall (k : pystr) (n : nat),
        (k, n) ∈ items <-> n = occurrences k keys /\ (0 < n)%nat)
  /\ list_sum (List.map snd items) = length keys.

(** Whether the thesis flag of the dict is truthy. *)
Definition thesis_flag (m : metadata) : bool :=
  match dict_get m (U "thesis_required") with
  | Some v => truthy v
  | None => false
  end.

(** The lines of the statistics. *)
Definition tally_line (item : pystr * nat) : pystr :=
  count_line (VStr (fst item)) (snd item).

Definition stats_lines (total : nat) (regions tiers : list (pystr * nat))
    (thesis : nat) : list pystr :=
  [ NL ++ U "📊 集合统计信息"; List.concat (repeat (U "=") 30);
    U "总项目数: " ++ str_of_nat total; NL ++ U "📍 按地区分布:" ]
  ++ List.map tally_line regions
  ++ [ NL ++ U "🏆 按等级分布:" ]
  ++ List.map tally_line tiers
  ++ [ NL ++ U "📝 需要论文的项目: " ++ str_of_nat thesis ++ U "/"
       ++ str_of_nat total ].

(** The dict of counts and the sorted items, on text keys. *)
Definition text_items (items : list (pystr * nat)) : counts :=
  List.map (fun item => (VStr (fst item), snd item)) items.

Fixpoint bump_text (d : list (pystr * nat)) (k : pystr)
    : list (pystr * nat) :=
  match d with
  | [] => [(k, 1%nat)]
  | (k', n) :: rest =>
      if bool_decide (k' = k) then (k', S n) :: rest
      else (k', n) :: bump_text rest k
  end.

Definition text_lt (a b : pystr * nat) : bool :=
  if bool_decide (fst a = fst b) then (snd a <? snd b)%nat
  else str_lt (fst a) (fst b).

Fixpoint insert_text (x : pystr * nat) (sorted : list (pystr * nat))
    : list (pystr * nat) :=
  match sorted with
  | [] => [x]
  | y :: rest =>
      if text_lt x y then x :: y :: rest else y :: insert_text x rest
  end.

(** The count that a dict gives a key: the sum over its entries. *)
Fixpoint count_in (d : list (pystr * nat)) (k : pystr) : nat :=
  match d with
  | [] => 0
  | (k', n) :: rest =>
      ((if bool_decide (k' = k) then n else 0) + count_in rest k)%nat
  end.

(** The tally that the counting loop and [sorted] give. *)
Definition tally (keys : list pystr) : list (pystr * nat) :=
  fold_left (fun acc x => insert_text x acc) (fold_left bump_text keys []) [].

(** Two records, one in another region. *)
Definition sample_content : list entry :=
  [ Entry (U "program_0") (U "MSc Computer Science") sample_metadata;
    Entry (U "program_1") (U "MS Computer Science")
      (dict_set sample_metadata (U "region") (VStr (U "美国"))) ].

(** ** Properties *)

Ltac run_m :=
  unfold bind, ret, raise, attempt, print, issue, set_collections,
    set_self_collection, get_state, lift; simpl.

(** *** The JSON decoder stays within its recursion budget *)
Import Json.

Lemma skip_ws_length (s : pystr) : (length (skip_ws s) <= length s)%nat.
Proof.
  induction s as [| c s IH]; simpl; [lia |].
  destruct (is_json_ws c); simpl; lia.
Qed.

Lemma scan_string_consumes (n : nat) :
  forall (s acc : pystr),
    (length s <= n)%nat ->
    scan_string s acc <> Fuel
    /\ forall k r, scan_string s acc = Found k r -> (length r < length s)%nat.
Proof.
  induction n as [| n IH]; intros s acc Hn.
  - destruct s; [| simpl in Hn; lia]. simpl. split; [discriminate |].
    intros k r H. discriminate H.
  - destruct s as [| c rest]; [split; [discriminate | intros k r H; discriminate H] |].
    simpl in Hn.
    assert (Hrec : forall t acc', (length t <= length rest)%nat ->
              scan_string t acc' <> Fuel
              /\ forall k r, scan_string t acc' = Found k r ->
                             (length r < length (c :: rest))%nat).
    { intros t acc' Ht. destruct (IH t acc' ltac:(lia)) as [H1 H2].
      split; [exact H1 |]. intros k r H. apply H2 in H. simpl. lia. }
    cbn [scan_string].
    destruct (c =? 34).
    { split; [discriminate |]. intros k r [= <- <-]. simpl. lia. }
    destruct (c =? 92).
    2:{ destruct (c <? 32);
          [split; [discriminate | intros k r H; discriminate H] |].
        apply Hrec. lia. }
    destruct rest as [| e rest1];
      [split; [discriminate | intros k r H; discriminate H] |].
    assert (Hsimple :
      match simple_escape e with
      | Some ch => scan_string rest1 (ch :: acc)
      | None => Invalid
      end <> Fuel
      /\ forall k r,
           match simple_escape e with
           | Some ch => scan_string rest1 (ch :: acc)
           | None => Invalid
           end = Found k r -> (length r < length (c :: e :: rest1))%nat).
    { destruct (simple_escape e);
        [| split; [discriminate | intros k r H; discriminate H]].
      destruct (Hrec rest1 (n0 :: acc) ltac:(simpl; lia)) as [H1 H2].
      split; [exact H1 |]. intros k r H. apply H2 in H. simpl in *. lia. }
    destruct (N.eq_dec e 117) as [-> | Hne].
    2:{ destruct e as [| p]; [exact Hsimple |].
        do 7 (destruct p as [p | p |]; try exact Hsimple).
        exfalso. apply Hne. reflexivity. }
    destruct rest1 as [| h1 [| h2 [| h3 [| h4 rest2]]]]; try exact Hsimple.
    destruct (hex4 h1 h2 h3 h4) as [hi |];
      [| split; [discriminate | intros k r H; discriminate H]].
    assert (Hlone : scan_string rest2 (hi :: acc) <> Fuel
              /\ forall k r, scan_string rest2 (hi :: acc) = Found k r ->
                   (length r < 6 + length rest2)%nat).
    { destruct (Hrec rest2 (hi :: acc) ltac:(simpl; lia)) as [H1 H2].
      split; [exact H1 |]. intros k r H. apply H2 in H. simpl in *. lia. }
    destruct ((0xD800 <=? hi) && (hi <=? 0xDBFF)); [| exact Hlone].
    destruct rest2 as [| b1 rest2]; [exact Hlone |].
    destruct (N.eq_dec b1 92) as [-> | Hb1].
    2:{ destruct b1 as [| p]; [exact Hlone |].
        do 7 (destruct p as [p | p |]; try exact Hlone).
        exfalso. apply Hb1. reflexivity. }
    destruct rest2 as [| b2 rest2]; [exact Hlone |].
    destruct (N.eq_dec b2 117) as [-> | Hb2].
    2:{ destruct b2 as [| p]; [exact Hlone |].
        do 7 (destruct p as [p | p |]; try exact Hlone).
        exfalso. apply Hb2. reflexivity. }
    destruct rest2 as [| l1 [| l2 [| l3 [| l4 rest3]]]]; try exact Hlone.
    destruct (hex4 l1 l2 l3 l4) as [lo |]; [| exact Hlone].
    destruct ((0xDC00 <=? lo) && (lo <=? 0xDFFF)); [| exact Hlone].
    match goal with |- context [scan_string rest3 ?a] =>
      destruct (Hrec rest3 a ltac:(simpl; lia)) as [H1 H2]
    end.
    split; [exact H1 |]. intros k r H. apply H2 in H. simpl in *. lia.
Qed.

Lemma take_digits_length (s : pystr) :
  forall (count : nat) (acc : N) (count' : nat) (v : N) (r : pystr),
    take_digits s count acc = (count', v, r) ->
    (length r + (count' - count) = length s)%nat /\ (count <= count')%nat.
Proof.
  induction s as [| c s IH]; intros count acc count' v r H; simpl in H.
  - injection H as <- <- <-. simpl. lia.
  - destruct (is_ascii_digit c).
    + apply IH in H. simpl. lia.
    + injection H as <- <- <-. simpl. lia.
Qed.

Lemma scan_int_part_consumes (s : pystr) (n : N) (r : pystr) :
  scan_int_part s = Some (n, r) -> (length r < length s)%nat.
Proof.
  unfold scan_int_part. destruct s as [| c s]; [discriminate |].
  assert (Hdigits :
    (if is_ascii_digit c
     then let '(_, n0, r0) := take_digits (c :: s) 0 0 in Some (n0, r0)
     else None) = Some (n, r) -> (length r < length (c :: s))%nat).
  { destruct (is_ascii_digit c) eqn:Hc; [| discriminate].
    destruct (take_digits (c :: s) 0 0) as [[k v] r0] eqn:Ht.
    intros [= <- <-]. pose proof Ht as Ht'. simpl in Ht'. rewrite Hc in Ht'.
    apply take_digits_length in Ht'. simpl. lia. }
  destruct (N.eq_dec c 48) as [-> | Hne].
  - intros [= <- <-]. simpl. lia.
  - destruct c as [| p]; [exact Hdigits |].
    do 6 (destruct p as [p | p |]; try exact Hdigits).
    exfalso. apply Hne. reflexivity.
Qed.

Lemma scan_fraction_length (s : pystr) (k : nat) (v : N) (r : pystr) :
  scan_fraction s = (k, v, r) -> (length r <= length s)%nat.
Proof.
  unfold scan_fraction. destruct s as [| c s]; [intros [= <- <- <-]; lia |].
  assert (Hsame : (O, 0, c :: s) = (k, v, r) ->
                  (length r <= length (c :: s))%nat)
    by (intros [= <- <- <-]; lia).
  destruct (N.eq_dec c 46) as [-> | Hne].
  - destruct (take_digits s 0 0) as [[k' v'] r'] eqn:Ht.
    apply take_digits_length in Ht.
    destruct k'; [exact Hsame |]. intros [= <- <- <-]. simpl. lia.
  - destruct c as [| p]; [exact Hsame |].
    do 6 (destruct p as [p | p |]; try exact Hsame).
    exfalso. apply Hne. reflexivity.
Qed.

Lemma scan_exponent_length (s : pystr) (ex : option Z) (r : pystr) :
  scan_exponent s = (ex, r) -> (length r <= length s)%nat.
Proof.
  unfold scan_exponent. destruct s as [| c s]; [intros [= <- <-]; lia |].
  destruct ((c =? 101) || (c =? 69)); [| intros [= <- <-]; lia].
  destruct (match s with
            | 45 :: t => (true, t)
            | 43 :: t => (false, t)
            | _ => (false, s)
            end) as [eneg r'] eqn:Hsign.
  assert (Hr' : (length r' <= length s)%nat).
  { destruct s as [| d s']; [injection Hsign as <- <-; lia |].
    destruct (N.eq_dec d 45) as [-> | H45];
      [injection Hsign as <- <-; simpl; lia |].
    destruct (N.eq_dec d 43) as [-> | H43];
      [injection Hsign as <- <-; simpl; lia |].
    assert (Hs : (false, d :: s') = (eneg, r') -> (length r' <= length (d :: s'))%nat)
      by (intros [= <- <-]; lia).
    destruct d as [| p]; [exact (Hs Hsign) |].
    do 6 (try destruct p as [p | p |]; try exact (Hs Hsign); try congruence). }
  destruct (take_digits r' 0 0) as [[k v] r''] eqn:Ht.
  apply take_digits_length in Ht.
  destruct k; intros [= <- <-]; simpl; lia.
Qed.

Lemma scan_number_consumes (s : pystr) :
  scan_number s <> Fuel
  /\ forall v r, scan_number s = Found v r -> (length r < length s)%nat.
Proof.
  unfold scan_number.
  destruct (scan_sign s) as [neg s1] eqn:Hsign.
  assert (Hs1 : (length s1 <= length s)%nat).
  { unfold scan_sign in Hsign. destruct s as [| c s'];
      [injection Hsign as <- <-; lia |].
    destruct (N.eq_dec c 45) as [-> | Hne];
      [injection Hsign as <- <-; simpl; lia |].
    assert (Hs : (false, c :: s') = (neg, s1) ->
                 (length s1 <= length (c :: s'))%nat)
      by (intros [= <- <-]; lia).
    destruct c as [| p]; [exact (Hs Hsign) |].
    do 6 (try destruct p as [p | p |]; try exact (Hs Hsign); try congruence). }
  destruct (scan_int_part s1) as [[n r] |] eqn:Hint;
    [| split; [discriminate | intros v r H; discriminate H]].
  apply scan_int_part_consumes in Hint.
  destruct (scan_fraction r) as [[fcount fval] r1] eqn:Hfrac.
  apply scan_fraction_length in Hfrac.
  destruct (scan_exponent r1) as [ex r2] eqn:Hexp.
  apply scan_exponent_length in Hexp.
  destruct fcount, ex; (split; [discriminate |]);
    intros v r' [= <- <-]; lia.
Qed.

Lemma strip_prefix_length (prefix : pystr) :
  forall (s r : pystr),
    strip_prefix prefix s = Some r ->
    (length r + length prefix = length s)%nat.
Proof.
  induction prefix as [| p prefix IH]; intros s r H; simpl in H.
  - injection H as <-. simpl. lia.
  - destruct s as [| c s]; [discriminate H |].
    destruct (p =? c); [| discriminate H]. apply IH in H. simpl. lia.
Qed.

Lemma scan_elements_consumes (value : pystr -> scan pyval) (bound : nat) :
  sound_scanner value bound ->
  forall (fuel : nat) (s : pystr) (acc : list pyval),
    (length s <= bound)%nat -> (length s < fuel)%nat ->
    scan_elements fuel value s acc <> Fuel
    /\ forall v r, scan_elements fuel value s acc = Found v r ->
                   (length r < length s)%nat.
Proof.
  intros Hvalue. induction fuel as [| fuel IH]; intros s acc Hb Hf; [lia |].
  cbn [scan_elements]. destruct (Hvalue s Hb) as [Hnf Hcons].
  destruct (value s) as [v r | |] eqn:Hv;
    [| split; [discriminate | intros v r H; discriminate H]
     | exfalso; apply Hnf; reflexivity].
  specialize (Hcons v r eq_refl). pose proof (skip_ws_length r) as Hws.
  destruct (skip_ws r) as [| c r'] eqn:Hr;
    [split; [discriminate | intros v' r0 H; discriminate H] |].
  simpl in Hws.
  assert (Hother : (@Invalid pyval) <> Fuel
            /\ forall v' r0, @Invalid pyval = Found v' r0 ->
                             (length r0 < length s)%nat)
    by (split; [discriminate | intros v' r0 H; discriminate H]).
  destruct (N.eq_dec c 93) as [-> | H93].
  { split; [discriminate |]. intros v' r0 [= <- <-]. lia. }
  destruct (N.eq_dec c 44) as [-> | H44].
  { pose proof (skip_ws_length r') as Hws'.
    destruct (IH (skip_ws r') (v :: acc) ltac:(lia) ltac:(lia)) as [H1 H2].
    split; [exact H1 |]. intros v' r0 H. apply H2 in H. lia. }
  destruct c as [| p]; [exact Hother |].
  do 7 (try destruct p as [p | p |]; try exact Hother; try congruence).
Qed.

Lemma scan_members_consumes (value : pystr -> scan pyval) (bound : nat) :
  sound_scanner value bound ->
  forall (fuel : nat) (s : pystr) (acc : list (pystr * pyval)),
    (length s <= bound)%nat -> (length s < fuel)%nat ->
    scan_members fuel value s acc <> Fuel
    /\ forall v r, scan_members fuel value s acc = Found v r ->
                   (length r < length s)%nat.
Proof.
  intros Hvalue. induction fuel as [| fuel IH]; intros s acc Hb Hf; [lia |].
  cbn [scan_members].
  assert (Hother : (@Invalid pyval) <> Fuel
            /\ forall v' r0, @Invalid pyval = Found v' r0 ->
                             (length r0 < length s)%nat)
    by (split; [discriminate | intros v' r0 H; discriminate H]).
  destruct s as [| q s1]; [exact Hother |].
  destruct (N.eq_dec q 34) as [-> | H34].
  2:{ destruct q as [| p]; [exact Hother |].
      do 6 (try destruct p as [p | p |]; try exact Hother; try congruence). }
  destruct (scan_string_consumes (length s1) s1 [] ltac:(lia)) as [Hsf Hsc].
  destruct (scan_string s1 []) as [k r | |] eqn:Hk;
    [| exact Hother | exfalso; apply Hsf; reflexivity].
  specialize (Hsc k r eq_refl). pose proof (skip_ws_length r) as Hws.
  destruct (skip_ws r) as [| c r1] eqn:Hr; [exact Hother |].
  simpl in Hws, Hb, Hf.
  destruct (N.eq_dec c 58) as [-> | H58].
  2:{ destruct c as [| p]; [exact Hother |].
      do 6 (try destruct p as [p | p |]; try exact Hother; try congruence). }
  pose proof (skip_ws_length r1) as Hws1.
  destruct (Hvalue (skip_ws r1) ltac:(lia)) as [Hnf Hcons].
  destruct (value (skip_ws r1)) as [v r2 | |] eqn:Hv;
    [| exact Hother | exfalso; apply Hnf; reflexivity].
  specialize (Hcons v r2 eq_refl). pose proof (skip_ws_length r2) as Hws2.
  destruct (skip_ws r2) as [| d r'] eqn:Hr2; [exact Hother |].
  simpl in Hws2.
  destruct (N.eq_dec d 125) as [-> | H125].
  { split; [discriminate |]. intros v' r0 [= <- <-]. simpl. lia. }
  destruct (N.eq_dec d 44) as [-> | H44].
  { pose proof (skip_ws_length r') as Hws'.
    destruct (IH (skip_ws r') (dict_set acc k v) ltac:(lia) ltac:(lia))
      as [H1 H2].
    split; [exact H1 |]. intros v' r0 H. apply H2 in H. simpl. lia. }
  destruct d as [| p]; [exact Hother |].
  do 7 (try destruct p as [p | p |]; try exact Hother; try congruence).
Qed.

Lemma scan_literal_consumes (s : pystr) :
  scan_literal s <> Fuel
  /\ forall v r, scan_literal s = Found v r -> (length r < length s)%nat.
Proof.
  unfold scan_literal.
  destruct (strip_prefix (U "null") s) as [r1 |] eqn:H1.
  { apply strip_prefix_length in H1. change (length (U "null")) with 4%nat in H1.
    split; [discriminate |]. intros v r [= <- <-]. lia. }
  destruct (strip_prefix (U "true") s) as [r2 |] eqn:H2.
  { apply strip_prefix_length in H2. change (length (U "true")) with 4%nat in H2.
    split; [discriminate |]. intros v r [= <- <-]. lia. }
  destruct (strip_prefix (U "false") s) as [r3 |] eqn:H3.
  { apply strip_prefix_length in H3. change (length (U "false")) with 5%nat in H3.
    split; [discriminate |]. intros v r [= <- <-]. lia. }
  destruct (strip_prefix (U "NaN") s) as [r4 |] eqn:H4.
  { apply strip_prefix_length in H4. change (length (U "NaN")) with 3%nat in H4.
    split; [discriminate |]. intros v r [= <- <-]. lia. }
  destruct (strip_prefix (U "Infinity") s) as [r5 |] eqn:H5.
  { apply strip_prefix_length in H5.
    change (length (U "Infinity")) with 8%nat in H5.
    split; [discriminate |]. intros v r [= <- <-]. lia. }
  destruct (strip_prefix (U "-Infinity") s) as [r6 |] eqn:H6.
  { apply strip_prefix_length in H6.
    change (length (U "-Infinity")) with 9%nat in H6.
    split; [discriminate |]. intros v r [= <- <-]. lia. }
  apply scan_number_consumes.
Qed.

Lemma scan_value_consumes (fuel : nat) :
  forall s : pystr,
    (length s < fuel)%nat ->
    scan_value fuel s <> Fuel
    /\ forall v r, scan_value fuel s = Found v r -> (length r < length s)%nat.
Proof.
  induction fuel as [| fuel IH]; intros s Hs; [lia |].
  cbn [scan_value].
  pose proof (scan_literal_consumes s) as Hlit.
  destruct s as [| c r]; [exact Hlit |].
  simpl in Hs.
  assert (Hinner : sound_scanner (scan_value fuel) (length r)).
  { intros t Ht. apply IH. lia. }
  pose proof (skip_ws_length r) as Hws.
  destruct (N.eq_dec c 34) as [-> | H34].
  { destruct (scan_string_consumes (length r) r [] ltac:(lia)) as [Hsf Hsc].
    destruct (scan_string r []) as [k r' | |] eqn:Hk.
    - specialize (Hsc k r' eq_refl). split; [discriminate |].
      intros v r0 [= <- <-]. simpl. lia.
    - split; [discriminate | intros v r0 H; discriminate H].
    - exfalso. apply Hsf. reflexivity. }
  destruct (N.eq_dec c 123) as [-> | H123].
  { destruct (skip_ws r) as [| d r1] eqn:Hr.
    - destruct (scan_members_consumes (scan_value fuel) (length r) Hinner
                  (S (length (@nil N))) [] [] ltac:(simpl; lia) ltac:(simpl; lia))
        as [H1 H2].
      split; [exact H1 |]. intros v r0 H. apply H2 in H. simpl in H. lia.
    - assert (Hgen :
        scan_members (S (length (d :: r1))) (scan_value fuel) (d :: r1) []
        <> Fuel
        /\ forall v r0,
             scan_members (S (length (d :: r1))) (scan_value fuel) (d :: r1) []
             = Found v r0 -> (length r0 < length (123%N :: r))%nat).
      { destruct (scan_members_consumes (scan_value fuel) (length r) Hinner
                    (S (length (d :: r1))) (d :: r1) [] Hws ltac:(lia))
          as [H1 H2].
        split; [exact H1 |]. intros v r0 H. apply H2 in H. simpl in *. lia. }
      destruct (N.eq_dec d 125) as [-> | H125].
      + split; [discriminate |]. intros v r0 [= <- <-]. simpl in *. lia.
      + destruct d as [| p]; [exact Hgen |].
        do 7 (try destruct p as [p | p |]; try exact Hgen; try congruence). }
  destruct (N.eq_dec c 91) as [-> | H91].
  { destruct (skip_ws r) as [| d r1] eqn:Hr.
    - destruct (scan_elements_consumes (scan_value fuel) (length r) Hinner
                  (S (length (@nil N))) [] [] ltac:(simpl; lia) ltac:(simpl; lia))
        as [H1 H2].
      split; [exact H1 |]. intros v r0 H. apply H2 in H. simpl in H. lia.
    - assert (Hgen :
        scan_elements (S (length (d :: r1))) (scan_value fuel) (d :: r1) []
        <> Fuel
        /\ forall v r0,
             scan_elements (S (length (d :: r1))) (scan_value fuel) (d :: r1) []
             = Found v r0 -> (length r0 < length (91%N :: r))%nat).
      { destruct (scan_elements_consumes (scan_value fuel) (length r) Hinner
                    (S (length (d :: r1))) (d :: r1) [] Hws ltac:(lia))
          as [H1 H2].
        split; [exact H1 |]. intros v r0 H. apply H2 in H. simpl in *. lia. }
      destruct (N.eq_dec d 93) as [-> | H93].
      + split; [discriminate |]. intros v r0 [= <- <-]. simpl in *. lia.
      + destruct d as [| p]; [exact Hgen |].
        do 7 (try destruct p as [p | p |]; try exact Hgen; try congruence). }
  destruct c as [| p]; [exact Hlit |].
  do 7 (try destruct p as [p | p |]; try exact Hlit; try congruence).
Qed.

(** [loads] never stops for lack of budget: where it finds no value, the
    text is not a JSON document. *)
Lemma loads_budget (s : pystr) :
  scan_value (S (length (skip_ws s))) (skip_ws s) <> Fuel.
Proof. apply scan_value_consumes. lia. Qed.



Lemma case_text_other (v : pyval) :
  (forall d, v <> VDict d) -> case_text v = Raise (attribute_error (U "get")).
Proof.
  intros Hv. destruct v; try reflexivity. exfalso. eapply Hv. reflexivity.
Qed.









(** *** Queries (C9, C3) *)
(** C9. Not-initialized query rejection: when no collection is open,
    [query_programs] raises the not-initialized [ValueError] at once; the
    state it leaves is the state it found, so no call reached the client,
    nothing was printed and no handle changed. *)
Theorem query_not_initialized (text : pystr) (n : Z) (w : option pyval)
    (answer : result pyval) (st : state) :
  self_collection st = None ->
  query_programs text n w answer st = (Raise NOT_INITIALIZED, st).
Proof.
  intros Hnone. unfold query_programs. run_m. rewrite Hnone. reflexivity.
Qed.

Lemma query_not_initialized_witness :
  self_collection closed_db = None
  /\ query_programs (U "英国 录取友好 申请建议") 3 None
       (Ok (VDict [])) closed_db
     = (Raise NOT_INITIALIZED, closed_db).
Proof.
  split; [reflexivity | apply query_not_initialized; reflexivity].
Defined.

(** C3 as stated fails: with a collection open and the backend raising,
    [query_programs] returns the empty dict instead of raising. *)
Lemma query_failure_not_propagated :
  fst (query_programs (U "顶级大学") 5 None (Raise BACKEND_DOWN)
         (open_db (U "cs_programs_default") []))
  = Ok (VDict [])
  /\ ~ (forall (text : pystr) (n : Z) (w : option pyval) (e : exn) (st : state),
          is_Some (self_collection st) ->
          fst (query_programs text n w (Raise e) st) = Raise e).
Proof.
  split; [reflexivity |].
  intros Hclaim.
  specialize (Hclaim (U "顶级大学") 5%Z None BACKEND_DOWN
                (open_db (U "cs_programs_default") [])).
  discriminate Hclaim. eexists; reflexivity.
Qed.

(** C3, amended. With a collection open, a failure of the embedding
    backend or of the search that is an [Exception] is caught:
    [query_programs] prints the failure line and returns the empty dict
    [{}]; only an exception outside [Exception] propagates.  A successful
    search is returned as it is, so it differs from the value returned on
    failure whenever the answer of the store is not itself [{}]. *)
Theorem query_failure_returns_empty (text : pystr) (n : Z) (w : option pyval)
    (e : exn) (st : state) (handle : pystr) :
  self_collection st = Some handle ->
  (is_Exception e = true ->
     query_programs text n w (Raise e) st
     = (Ok (VDict []),
        State (collections st) (Some handle)
          (calls st ++ [CallQuery handle text])
          (stdout st ++ [query_failed_line e])))
  /\ (is_Exception e = false ->
        fst (query_programs text n w (Raise e) st) = Raise e)
  /\ (forall results : pyval,
        fst (query_programs text n w (Ok results) st) = Ok results
        /\ (results <> VDict [] ->
            is_Exception e = true ->
            fst (query_programs text n w (Ok results) st)
            <> fst (query_programs text n w (Raise e) st))).
Proof.
  intros Hopen. destruct st as [cs sc cl out]. simpl in Hopen. subst sc.
  unfold query_programs, Client.collection_query. run_m.
  repeat split.
  - intros ->. reflexivity.
  - intros ->. reflexivity.
  - intros Hne ->. simpl. congruence.
Qed.

Lemma query_failure_returns_empty_witness :
  self_collection (open_db (U "cs_programs_default") []) = Some (U "cs_programs_default")
  /\ query_programs (U "顶级大学") 5 None (Raise BACKEND_DOWN)
       (open_db (U "cs_programs_default") [])
     = (Ok (VDict []),
        State {[ U "cs_programs_default" := [] ]} (Some (U "cs_programs_default"))
          [CallQuery (U "cs_programs_default") (U "顶级大学")]
          [query_failed_line BACKEND_DOWN]).
Proof.
  split; [reflexivity |].
  apply (query_failure_returns_empty (U "顶级大学") 5 None BACKEND_DOWN
           (open_db (U "cs_programs_default") []) (U "cs_programs_default"));
    reflexivity.
Defined.

(** *** Metadata flattening (C6, C7) *)

Lemma lstrip_app_spaces (l s : pystr) :
  all_space l -> lstrip (l ++ s) = lstrip s.
Proof.
  unfold all_space. induction l as [| c l IH]; simpl; [reflexivity |].
  intros H. apply andb_true_iff in H as [Hc Hl]. rewrite Hc. auto.
Qed.

Lemma lstrip_decompose (s : pystr) :
  exists l, all_space l /\ s = l ++ lstrip s.
Proof.
  induction s as [| c s IH]; simpl.
  - exists []. split; reflexivity.
  - destruct (is_space c) eqn:Hc.
    + destruct IH as (l & Hl & Hs). exists (c :: l). split.
      * unfold all_space in *. simpl. rewrite Hc. exact Hl.
      * simpl. f_equal. exact Hs.
    + exists []. split; reflexivity.
Qed.

Lemma all_space_rev (l : pystr) : all_space l -> all_space (rev l).
Proof.
  unfold all_space. rewrite !forallb_forall. intros H c Hc.
  apply H. apply in_rev. exact Hc.
Qed.

Lemma rstrip_decompose (s : pystr) :
  exists r, all_space r /\ s = rstrip s ++ r.
Proof.
  unfold rstrip. destruct (lstrip_decompose (rev s)) as (l & Hl & Hs).
  exists (rev l). split; [apply all_space_rev; exact Hl |].
  rewrite <- rev_app_distr, <- Hs, rev_involutive. reflexivity.
Qed.

(** [strip] finds the sentinel exactly when the text is the sentinel
    between two runs of whitespace. *)
Lemma strip_yes (s : pystr) :
  strip s = YES
  <-> exists l r, all_space l /\ all_space r /\ s = l ++ YES ++ r.
Proof.
  split.
  - intros H. destruct (lstrip_decompose s) as (l & Hl & Hs).
    destruct (rstrip_decompose (lstrip s)) as (r & Hr & Ht).
    exists l, r. split; [exact Hl |]. split; [exact Hr |].
    unfold strip in H. rewrite H in Ht. rewrite Hs at 1. rewrite Ht.
    reflexivity.
  - intros (l & r & Hl & Hr & ->). unfold strip.
    rewrite lstrip_app_spaces by exact Hl.
    change (lstrip (YES ++ r)) with (YES ++ r).
    unfold rstrip. rewrite rev_app_distr.
    rewrite lstrip_app_spaces by (apply all_space_rev; exact Hr).
    reflexivity.
Qed.

Lemma flag_of_true (c : cell) : flag_of c = true <-> strip (cell_str c) = YES.
Proof.
  unfold flag_of. destruct (bool_decide_reflect (strip (cell_str c) = YES));
    split; intros; congruence.
Qed.

(** C6 as stated fails: a cell holding the sentinel after a space is not
    the sentinel, and its flag is true. *)
Lemma boolean_flag_counterexample :
  CStr (U " 是") <> CStr YES
  /\ flag_in (make_metadata (with_internship (CStr (U " 是")) sample_row))
       (U "internship_required") = Some (VBool true)
  /\ ~ (forall (r : row) (md : metadata),
          make_metadata r = Ok md ->
          (dict_get md (U "internship_required") = Some (VBool true)
           <-> internship_required r = CStr YES)).
Proof.
  assert (Hne : CStr (U " 是") <> CStr YES) by (vm_compute; discriminate).
  split; [exact Hne |]. split; [vm_compute; reflexivity |].
  intros Hclaim.
  destruct (make_metadata (with_internship (CStr (U " 是")) sample_row))
    as [md |] eqn:Hmd; [| vm_compute in Hmd; discriminate Hmd].
  apply Hne. apply (Hclaim _ md Hmd).
  vm_compute in Hmd. injection Hmd as <-. vm_compute. reflexivity.
Qed.

(** C6, amended. For each of the two flags the metadata value is the
    boolean [flag_of] of the cell, which is true exactly when the text of
    the cell with leading and trailing whitespace removed is the sentinel
    ['是']: for a string cell, exactly when the cell is the sentinel between
    two runs of whitespace.  The sentinel itself gives true and the empty
    string gives false. *)
Theorem boolean_flag_coercion (r : row) (md : metadata) :
  make_metadata r = Ok md ->
  dict_get md (U "internship_required")
  = Some (VBool (flag_of (internship_required r)))
  /\ dict_get md (U "thesis_required")
     = Some (VBool (flag_of (thesis_required r)))
  /\ (forall c : cell, flag_of c = true <-> strip (cell_str c) = YES)
  /\ (forall s : pystr,
        flag_of (CStr s) = true
        <-> exists l r, all_space l /\ all_space r /\ s = l ++ YES ++ r)
  /\ flag_of (CStr YES) = true
  /\ flag_of (CStr []) = false.
Proof.
  intros Hmd. unfold make_metadata in Hmd.
  destruct (count_of (admission_data_count r)) as [n |]; [| discriminate Hmd].
  simpl in Hmd. injection Hmd as <-.
  split; [| split; [| split; [| split; [| split]]]].
  - generalize (flag_of (internship_required r)). intros b.
    vm_compute. reflexivity.
  - generalize (flag_of (thesis_required r)). intros b.
    vm_compute. reflexivity.
  - exact flag_of_true.
  - intros s. rewrite flag_of_true. apply strip_yes.
  - vm_compute. reflexivity.
  - vm_compute. reflexivity.
Qed.

(** The sample row: its thesis flag is set and its internship flag is
    not. *)
Lemma boolean_flag_coercion_witness :
  make_metadata sample_row = Ok sample_metadata
  /\ dict_get sample_metadata (U "internship_required") = Some (VBool false)
  /\ dict_get sample_metadata (U "thesis_required") = Some (VBool true).
Proof.
  assert (H : make_metadata sample_row = Ok sample_metadata)
    by (vm_compute; reflexivity).
  split; [exact H |].
  destruct (boolean_flag_coercion sample_row sample_metadata H)
    as (Hinternship & Hthesis & _).
  split; [exact Hinternship | exact Hthesis].
Defined.

(** C7. The count coercion raises on a cell that [str.isdigit] accepts
    and [int] rejects: with the superscript two (U+00B2) in the count
    column [isdigit] holds, [int] raises [ValueError], the metadata of the
    row are not built, and [load_and_process_data] raises the same
    exception. *)
Theorem count_coercion_superscript_digit :
  isdigit (U "²") = true
  /\ count_of (CStr (U "²")) = Raise (invalid_literal (U "²"))
  /\ make_metadata (with_count (CStr (U "²")) sample_row)
     = Raise (invalid_literal (U "²"))
  /\ fst (load_and_process_data (U "global_cs_programs.csv")
            (Some [sample_row; with_count (CStr (U "²")) sample_row])
            (State ∅ None [] []))
     = Raise (invalid_literal (U "²")).
Proof. vm_compute. repeat split. Qed.

(** *** Similarity (C8) *)



Lemma query_result_columns (documents : list pystr)
    (metadatas : list metadata) (distances : list float) :
  let results := query_result documents metadatas distances in
  py_get results (U "documents") VNone
  = Ok (VList [VList (List.map VStr documents)])
  /\ first_of results (U "documents") = Ok (VList (List.map VStr documents))
  /\ first_of results (U "metadatas") = Ok (VList (List.map VDict metadatas))
  /\ first_of results (U "distances") = Ok (VList (List.map VFloat distances)).
Proof.
  unfold query_result.
  generalize (VList (List.map VStr documents)) as a.
  generalize (VList (List.map VDict metadatas)) as b.
  generalize (VList (List.map VFloat distances)) as c.
  intros c b a. vm_compute. repeat split.
Qed.



(** *** Building a collection (C1, C4, C5, C10) *)

Local Open Scope nat_scope.

Lemma collection_add_run (fault : option exn) (h : pystr)
    (docs : list pystr) (metas : list metadata) (ids : list pystr)
    (cs : gmap pystr (list entry)) (sc : option pystr) (cl : list call)
    (out : list pystr) :
  Client.collection_add fault h docs metas ids (State cs sc cl out)
  = match cs !! h with
    | None => (Raise (Client.not_found h),
               State cs sc (cl ++ [CallAdd h ids]) out)
    | Some old =>
        if Client.valid_batch docs metas ids then
          match fault with
          | Some e => (Raise e, State cs sc (cl ++ [CallAdd h ids]) out)
          | None =>
              (Ok tt,
               State (<[h := old ++ fresh_records old
                                      (Client.records ids docs metas)]> cs)
                 sc (cl ++ [CallAdd h ids]) out)
          end
        else (Raise INVALID_BATCH, State cs sc (cl ++ [CallAdd h ids]) out)
    end.
Proof.
  unfold Client.collection_add. run_m.
  destruct (cs !! h); [| reflexivity].
  destruct (Client.valid_batch docs metas ids); [| reflexivity].
  destruct fault; reflexivity.
Qed.

Lemma records_take (n : nat) :
  forall (ids docs : list pystr) (metas : list metadata),
    Client.records (take n ids) (take n docs) (take n metas)
    = take n (Client.records ids docs metas).
Proof.
  induction n as [| n IH]; intros [| i ids] [| d docs] [| m metas];
    simpl; try reflexivity.
  f_equal. apply IH.
Qed.

Lemma records_nil_documents (ids : list pystr) (metas : list metadata) :
  Client.records ids [] metas = [].
Proof. destruct ids; reflexivity. Qed.

Lemma records_nil_metadatas (ids docs : list pystr) :
  Client.records ids docs [] = [].
Proof. destruct ids; [reflexivity |]. destruct docs; reflexivity. Qed.

Lemma records_drop (n : nat) :
  forall (ids docs : list pystr) (metas : list metadata),
    Client.records (drop n ids) (drop n docs) (drop n metas)
    = drop n (Client.records ids docs metas).
Proof.
  induction n as [| n IH]; intros ids docs metas; [reflexivity |].
  destruct ids as [| i ids]; [reflexivity |].
  destruct docs as [| d docs]; [apply records_nil_documents |].
  destruct metas as [| m metas]; [apply records_nil_metadatas |].
  simpl. apply IH.
Qed.

Lemma records_ids :
  forall (ids docs : list pystr) (metas : list metadata),
    length docs = length ids -> length metas = length ids ->
    List.map entry_id (Client.records ids docs metas) = ids.
Proof.
  induction ids as [| i ids IH]; intros [| d docs] [| m metas] Hd Hm;
    simpl in *; try discriminate; [reflexivity |].
  f_equal. apply IH; lia.
Qed.

Lemma records_slice (i n : nat) (ids docs : list pystr) (metas : list metadata) :
  Client.records (slice ids i n) (slice docs i n) (slice metas i n)
  = slice (Client.records ids docs metas) i n.
Proof. unfold slice. rewrite records_take, records_drop. reflexivity. Qed.

Lemma filter_all {A : Type} (f : A -> bool) (l : list A) :
  (forall x, In x l -> f x = true) -> List.filter f l = l.
Proof.
  induction l as [| x l IH]; simpl; intros H; [reflexivity |].
  rewrite (H x) by (left; reflexivity). f_equal. apply IH.
  intros y Hy. apply H. right. exact Hy.
Qed.

Lemma batch_size_pos : 0 < batch_size.
Proof. unfold batch_size. lia. Qed.

Lemma batch_number (j : nat) : j * batch_size / batch_size + 1 = j + 1.
Proof. rewrite Nat.div_mul; [reflexivity | unfold batch_size; lia]. Qed.

(** A data set as [load_and_process_data] hands it over: three lists of
    one length, the ids distinct. *)
Section Dataset.

Variables (documents : list pystr) (metadatas : list metadata)
  (ids : list pystr).
Hypothesis same_documents : length documents = length ids.
Hypothesis same_metadatas : length metadatas = length ids.
Hypothesis distinct_ids : NoDup ids.

Lemma all_records_length : length (all_records documents metadatas ids) = length ids.
Proof.
  unfold all_records. rewrite <- (length_map entry_id).
  rewrite records_ids by assumption. reflexivity.
Qed.

Lemma batch_valid (j : nat) :
  j * batch_size < length ids ->
  Client.valid_batch (slice documents (j * batch_size) batch_size)
    (slice metadatas (j * batch_size) batch_size)
    (slice ids (j * batch_size) batch_size) = true.
Proof.
  intros Hj. unfold Client.valid_batch, slice.
  rewrite !andb_true_iff. repeat split.
  - apply negb_true_iff, bool_decide_eq_false_2. intros Hnil.
    apply (f_equal (@length _)) in Hnil.
    rewrite length_take, length_drop in Hnil. cbn [length] in Hnil.
    pose proof batch_size_pos. lia.
  - apply bool_decide_eq_true_2. rewrite !length_take, !length_drop. lia.
  - apply bool_decide_eq_true_2. rewrite !length_take, !length_drop. lia.
  - apply bool_decide_eq_true_2.
    apply (sublist_NoDup _ ids distinct_ids).
    etransitivity; [apply sublist_take | apply sublist_drop].
Qed.

Lemma batch_fresh (a n : nat) :
  fresh_records (take a (all_records documents metadatas ids)) (slice (all_records documents metadatas ids) a n)
  = slice (all_records documents metadatas ids) a n.
Proof.
  unfold fresh_records. apply filter_all. intros r Hr.
  apply negb_true_iff, bool_decide_eq_false_2. intros Hin.
  assert (Hsplit : NoDup (take a ids ++ drop a ids))
    by (rewrite take_drop; exact distinct_ids).
  apply NoDup_app in Hsplit as (_ & Hdisj & _).
  apply (Hdisj (entry_id r)).
  - unfold all_records in Hin. rewrite <- List.firstn_map in Hin.
    rewrite records_ids in Hin by assumption. exact Hin.
  - assert (Hr' : In (entry_id r) (List.map entry_id (slice (all_records documents metadatas ids) a n)))
      by (apply in_map; exact Hr).
    unfold slice, all_records in Hr'.
    rewrite <- List.firstn_map, <- List.skipn_map in Hr'.
    rewrite records_ids in Hr' by assumption.
    apply list_elem_of_In in Hr'.
    eapply elem_of_sublist; [exact Hr' | apply sublist_take].
Qed.

Variable total_batches : nat.
Variable faults : nat -> option exn.

(** One batch that the store accepts. *)
Lemma add_batch_accepted (j : nat) (h : pystr)
    (cs : gmap pystr (list entry)) (cl : list call) (out : list pystr) :
  j * batch_size < length ids ->
  faults (j + 1) = None ->
  cs !! h = Some (take (j * batch_size) (all_records documents metadatas ids)) ->
  add_batch documents metadatas ids total_batches faults (j * batch_size)
    (State cs (Some h) cl out)
  = (Ok tt,
     State (<[h := take (S j * batch_size) (all_records documents metadatas ids)]> cs) (Some h)
       (cl ++ [CallAdd h (slice ids (j * batch_size) batch_size)])
       (out ++ [success_line (j + 1) total_batches])).
Proof.
  intros Hj Hfault Hold. unfold add_batch, the_collection.
  unfold bind at 1. unfold bind at 1. unfold get_state at 1.
  cbn [self_collection]. unfold ret at 1.
  unfold bind at 1. rewrite collection_add_run, Hold.
  rewrite batch_valid by exact Hj. rewrite batch_number, Hfault.
  rewrite records_slice. fold (all_records documents metadatas ids). rewrite batch_fresh.
  unfold slice at 1. rewrite take_take_drop.
  replace (j * batch_size + batch_size) with (S j * batch_size) by lia.
  reflexivity.
Qed.

(** One batch that fails in the store or in the embedding backend. *)
Lemma add_batch_rejected (j : nat) (h : pystr) (e : exn)
    (cs : gmap pystr (list entry)) (cl : list call) (out : list pystr) :
  j * batch_size < length ids ->
  faults (j + 1) = Some e ->
  cs !! h = Some (take (j * batch_size) (all_records documents metadatas ids)) ->
  add_batch documents metadatas ids total_batches faults (j * batch_size)
    (State cs (Some h) cl out)
  = (Raise e,
     State cs (Some h)
       (cl ++ [CallAdd h (slice ids (j * batch_size) batch_size)]) out).
Proof.
  intros Hj Hfault Hold. unfold add_batch, the_collection.
  unfold bind at 1. unfold bind at 1. unfold get_state at 1.
  cbn [self_collection]. unfold ret at 1.
  unfold bind at 1. rewrite collection_add_run, Hold.
  rewrite batch_valid by exact Hj. rewrite batch_number, Hfault.
  reflexivity.
Qed.

(** A run of accepted batches: the loop goes on with what is left. *)
Lemma add_batches_accepted (n : nat) :
  forall (j : nat) (rest : list nat) (h : pystr)
         (cs : gmap pystr (list entry)) (cl : list call) (out : list pystr),
    (forall q, j <= q < j + n ->
               q * batch_size < length ids /\ faults (q + 1) = None) ->
    cs !! h = Some (take (j * batch_size) (all_records documents metadatas ids)) ->
    add_batches documents metadatas ids total_batches faults
      (starts_from j n ++ rest) (State cs (Some h) cl out)
    = add_batches documents metadatas ids total_batches faults rest
        (State (<[h := take ((j + n) * batch_size) (all_records documents metadatas ids)]> cs) (Some h)
           (cl ++ add_calls ids h j n) (out ++ success_lines total_batches j n)).
Proof.
  induction n as [| n IH]; intros j rest h cs cl out Hok Hold.
  - unfold starts_from, add_calls, success_lines. simpl.
    rewrite !app_nil_r, Nat.add_0_r.
    rewrite (insert_id cs h _ Hold). reflexivity.
  - destruct (Hok j ltac:(lia)) as [Hj Hfault].
    unfold starts_from, add_calls, success_lines. simpl seq. simpl List.map.
    simpl app. cbn [add_batches].
    unfold bind at 1, attempt at 1.
    rewrite (add_batch_accepted j h cs cl out Hj Hfault Hold).
    fold (starts_from (S j) n).
    rewrite IH.
    + rewrite insert_insert_eq.
      replace (S j + n) with (j + S n) by lia.
      rewrite <- !app_assoc. reflexivity.
    + intros q Hq. apply Hok. lia.
    + apply lookup_insert_eq.
Qed.

(** The batch that fails ends the loop. *)
Lemma add_batches_rejected (j : nat) (rest : list nat) (h : pystr) (e : exn)
    (cs : gmap pystr (list entry)) (cl : list call) (out : list pystr) :
  j * batch_size < length ids ->
  faults (j + 1) = Some e ->
  cs !! h = Some (take (j * batch_size) (all_records documents metadatas ids)) ->
  add_batches documents metadatas ids total_batches faults
    (j * batch_size :: rest) (State cs (Some h) cl out)
  = (if is_Exception e then Ok tt else Raise e,
     State cs (Some h)
       (cl ++ [CallAdd h (slice ids (j * batch_size) batch_size)])
       (out ++ if is_Exception e then [failure_line (j + 1) e] else [])).
Proof.
  intros Hj Hfault Hold. cbn [add_batches].
  unfold bind at 1, attempt at 1.
  rewrite (add_batch_rejected j h e cs cl out Hj Hfault Hold).
  rewrite batch_number.
  destruct (is_Exception e); run_m; rewrite ?app_nil_r; reflexivity.
Qed.

End Dataset.

Lemma add_batch_eq (documents : list pystr) (metadatas : list metadata)
    (ids : list pystr) (total : nat) (faults : nat -> option exn) (i : nat)
    (h : pystr) (old : list entry) (cs : gmap pystr (list entry))
    (cl : list call) (out : list pystr) :
  cs !! h = Some old ->
  add_batch documents metadatas ids total faults i (State cs (Some h) cl out)
  = let call := CallAdd h (slice ids i batch_size) in
    if Client.valid_batch (slice documents i batch_size)
         (slice metadatas i batch_size) (slice ids i batch_size)
    then
      match faults (i / batch_size + 1) with
      | Some e => (Raise e, State cs (Some h) (cl ++ [call]) out)
      | None =>
          (Ok tt,
           State (<[h := old ++ fresh_records old
                                  (Client.records (slice ids i batch_size)
                                     (slice documents i batch_size)
                                     (slice metadatas i batch_size))]> cs)
             (Some h) (cl ++ [call])
             (out ++ [success_line (i / batch_size + 1) total]))
      end
    else (Raise INVALID_BATCH, State cs (Some h) (cl ++ [call]) out).
Proof.
  intros Hold. unfold add_batch, the_collection.
  unfold bind at 1. unfold bind at 1. unfold get_state at 1.
  cbn [self_collection]. unfold ret at 1.
  unfold bind at 1. rewrite collection_add_run, Hold.
  destruct (Client.valid_batch _ _ _); [| reflexivity].
  destruct (faults _); reflexivity.
Qed.

Lemma add_batch_run (documents : list pystr) (metadatas : list metadata)
    (ids : list pystr) (total : nat) (faults : nat -> option exn) (i : nat)
    (h : pystr) (old : list entry) (cs : gmap pystr (list entry))
    (cl : list call) (out : list pystr) :
  cs !! h = Some old ->
  exists call,
    match batch_outcome documents metadatas ids faults i old with
    | Some old' =>
        add_batch documents metadatas ids total faults i
          (State cs (Some h) cl out)
        = (Ok tt,
           State (<[h := old']> cs) (Some h) (cl ++ [call])
             (out ++ [success_line (i / batch_size + 1) total]))
    | None =>
        exists e,
          add_batch documents metadatas ids total faults i
            (State cs (Some h) cl out)
          = (Raise e, State cs (Some h) (cl ++ [call]) out)
    end.
Proof.
  intros Hold. eexists. rewrite (add_batch_eq _ _ _ _ _ _ _ _ _ _ _ Hold).
  unfold batch_outcome. cbv zeta.
  destruct (Client.valid_batch _ _ _); [| eexists; reflexivity].
  destruct (faults _); [eexists; reflexivity | reflexivity].
Qed.

Lemma add_batches_run (documents : list pystr) (metadatas : list metadata)
    (ids : list pystr) (total : nat) (faults : nat -> option exn)
    (starts : list nat) :
  forall (h : pystr) (old : list entry) (cs : gmap pystr (list entry))
         (cl : list call) (out : list pystr),
    cs !! h = Some old ->
    exists r cl' out',
      add_batches documents metadatas ids total faults starts
        (State cs (Some h) cl out)
      = (r,
         State (<[h := stored documents metadatas ids faults starts old]> cs)
           (Some h) (cl ++ cl') (out ++ out')).
Proof.
  induction starts as [| i rest IH]; intros h old cs cl out Hold.
  - exists (Ok tt), [], []. simpl. rewrite !app_nil_r.
    rewrite (insert_id cs h old Hold). reflexivity.
  - destruct (add_batch_run documents metadatas ids total faults i h old cs
                cl out Hold) as [call Hrun].
    cbn [add_batches stored]. unfold bind at 1, attempt at 1.
    destruct (batch_outcome documents metadatas ids faults i old)
      as [old' |].
    + rewrite Hrun.
      destruct (IH h old' (<[h := old']> cs) (cl ++ [call])
                  (out ++ [success_line (i / batch_size + 1) total])
                  (lookup_insert_eq _ _ _)) as (r & cl' & out' & Hrest).
      rewrite Hrest. rewrite insert_insert_eq.
      exists r, (call :: cl'),
        (success_line (i / batch_size + 1) total :: out').
      rewrite <- !app_assoc. reflexivity.
    + destruct Hrun as [e Hrun]. rewrite Hrun.
      rewrite (insert_id cs h old Hold).
      destruct (is_Exception e).
      * exists (Ok tt), [call],
          [failure_line (i / batch_size + 1) e]. reflexivity.
      * exists (Raise e), [call], []. rewrite app_nil_r. reflexivity.
Qed.

Lemma fresh_records_ids (old new : list entry) :
  NoDup (List.map entry_id old) -> NoDup (List.map entry_id new) ->
  NoDup (List.map entry_id (old ++ fresh_records old new)).
Proof.
  intros Hold Hnew. rewrite List.map_app. apply NoDup_app.
  split; [exact Hold |]. split.
  - intros x Hx Hin. apply list_elem_of_In, in_map_iff in Hin
      as (r & <- & Hr).
    unfold fresh_records in Hr. apply filter_In in Hr as [_ Hr].
    apply negb_true_iff, bool_decide_eq_false_1 in Hr. exact (Hr Hx).
  - unfold fresh_records. induction new as [| r new IH]; simpl;
      [constructor |].
    simpl in Hnew. apply NoDup_cons in Hnew as [Hr Hnew].
    destruct (negb _); [| exact (IH Hnew)].
    simpl. apply NoDup_cons. split; [| exact (IH Hnew)].
    intros Hin. apply Hr. apply list_elem_of_In, in_map_iff in Hin
      as (r' & Heq & Hr').
    apply filter_In in Hr' as [Hr' _].
    apply list_elem_of_In, in_map_iff. exists r'. split; assumption.
Qed.

Lemma stored_distinct (documents : list pystr) (metadatas : list metadata)
    (ids : list pystr) (faults : nat -> option exn) (starts : list nat) :
  forall old : list entry,
    NoDup (List.map entry_id old) ->
    NoDup (List.map entry_id
             (stored documents metadatas ids faults starts old)).
Proof.
  induction starts as [| i rest IH]; intros old Hold; simpl; [exact Hold |].
  unfold batch_outcome.
  destruct (Client.valid_batch _ _ _) eqn:Hvalid; [| exact Hold].
  destruct (faults _); [exact Hold |].
  apply IH. apply fresh_records_ids; [exact Hold |].
  unfold Client.valid_batch in Hvalid.
  rewrite !andb_true_iff in Hvalid.
  destruct Hvalid as [[[_ Hd] Hm] Hn].
  apply bool_decide_eq_true_1 in Hd, Hm, Hn.
  rewrite records_ids by assumption. exact Hn.
Qed.

Lemma stored_ext (documents : list pystr) (metadatas : list metadata)
    (ids : list pystr) (f g : nat -> option exn) (starts : list nat) :
  (forall j, g j = f j) ->
  forall old, stored documents metadatas ids g starts old
              = stored documents metadatas ids f starts old.
Proof.
  intros Hfg. induction starts as [| i rest IH]; intros old; simpl;
    [reflexivity |].
  unfold batch_outcome. rewrite Hfg.
  destruct (Client.valid_batch _ _ _); [| reflexivity].
  destruct (f _); [reflexivity | apply IH].
Qed.

Lemma finish_run (faults : build_faults) (h : pystr) (old : list entry)
    (cs : gmap pystr (list entry)) (cl : list call) (out : list pystr) :
  cs !! h = Some old ->
  finish faults (State cs (Some h) cl out)
  = match count_fault faults with
    | Some e => (Raise e, State cs (Some h) (cl ++ [CallCount h]) out)
    | None =>
        (Ok tt,
         State cs (Some h) (cl ++ [CallCount h])
           (out ++ [done_line (length old)]))
    end.
Proof.
  intros Hold. unfold finish, the_collection, Client.collection_count.
  unfold bind, ret, raise, get_state, issue, print.
  cbv beta iota. cbn [self_collection collections calls stdout].
  destruct (count_fault faults); [reflexivity |].
  cbv beta iota. cbn [self_collection collections calls stdout].
  rewrite Hold. reflexivity.
Qed.

Lemma delete_attempt_run (name : pystr) (fault : option exn)
    (cs : gmap pystr (list entry)) (sc : option pystr) (cl : list call)
    (out : list pystr) :
  delete_attempt name fault (State cs sc cl out)
  = (Ok tt,
     match fault, cs !! name with
     | None, Some _ =>
         State (delete name cs) sc (cl ++ [CallDelete name])
           (out ++ [deleted_line name])
     | _, _ =>
         State cs sc (cl ++ [CallDelete name]) (out ++ [absent_line name])
     end).
Proof.
  unfold delete_attempt, Client.delete_collection.
  unfold bind, ret, raise, attempt, get_state, issue, print, set_collections.
  cbv beta iota. cbn [self_collection collections calls stdout].
  destruct fault; [reflexivity |].
  cbv beta iota. cbn [self_collection collections calls stdout].
  destruct (cs !! name); reflexivity.
Qed.

Lemma create_collection_recreate (name : pystr) (documents : list pystr)
    (metadatas : list metadata) (ids : list pystr) (faults : build_faults)
    (st : state) :
  create_collection name documents metadatas ids true faults st
  = create_collection name documents metadatas ids false faults
      (snd (delete_attempt name (delete_fault faults) st)).
Proof.
  destruct st as [cs sc cl out]. rewrite delete_attempt_run.
  unfold create_collection at 1. unfold bind at 1.
  fold (delete_attempt name (delete_fault faults)).
  rewrite delete_attempt_run. reflexivity.
Qed.

(** [create_collection] without the deletion, where the name is free and
    the creation meets no fault. *)
Lemma create_collection_fresh (name : pystr) (documents : list pystr)
    (metadatas : list metadata) (ids : list pystr) (faults : build_faults)
    (cs : gmap pystr (list entry)) (sc : option pystr) (cl : list call)
    (out : list pystr) :
  create_fault faults = None ->
  cs !! name = None ->
  create_collection name documents metadatas ids false faults
    (State cs sc cl out)
  = bind (add_batches documents metadatas ids (total_of documents)
            (add_fault faults) (py_range 0 (length documents) batch_size))
      (fun _ => finish faults)
      (State (<[name := []]> cs) (Some name) (cl ++ [CallCreate name])
         (out ++ [created_line name; plan_line (total_of documents)])).
Proof.
  intros Hcreate Hfree.
  unfold create_collection, Client.create_collection. rewrite Hcreate.
  unfold bind at 1. unfold ret at 1. unfold bind at 1. unfold bind at 1.
  unfold issue at 1. unfold bind at 1. unfold get_state at 1.
  cbn [self_collection collections calls stdout]. rewrite Hfree.
  unfold bind at 1. unfold set_collections at 1. unfold ret at 1.
  cbn [self_collection collections calls stdout].
  unfold bind at 1. unfold set_self_collection at 1.
  cbn [self_collection collections calls stdout].
  unfold bind at 1. unfold print at 1.
  cbn [self_collection collections calls stdout].
  unfold bind at 1. unfold print at 1.
  cbn [self_collection collections calls stdout].
  rewrite <- app_assoc. reflexivity.
Qed.

Lemma total_of_gt (documents : list pystr) (f : nat) :
  f * batch_size < length documents -> f < total_of documents.
Proof.
  intros Hf. unfold total_of. apply Nat.div_le_lower_bound.
  - unfold batch_size. lia.
  - unfold batch_size in *. lia.
Qed.

Lemma total_of_covers (documents : list pystr) :
  length documents <= total_of documents * batch_size.
Proof.
  unfold total_of, batch_size.
  pose proof (Nat.div_mod_eq (length documents + 10 - 1) 10) as Hdiv.
  pose proof (Nat.mod_upper_bound (length documents + 10 - 1) 10) as Hmod.
  lia.
Qed.

Lemma py_range_starts (documents : list pystr) :
  py_range 0 (length documents) batch_size
  = starts_from 0 (total_of documents).
Proof.
  unfold py_range, starts_from, total_of. rewrite Nat.sub_0_r. reflexivity.
Qed.

Lemma starts_from_split (f n : nat) :
  f < n ->
  starts_from 0 n
  = starts_from 0 f ++ f * batch_size :: starts_from (S f) (n - S f).
Proof.
  intros Hf. unfold starts_from.
  replace n with (f + S (n - S f)) at 1 by lia.
  rewrite seq_app, List.map_app. reflexivity.
Qed.

Lemma add_calls_S (ids : list pystr) (h : pystr) (j n : nat) :
  add_calls ids h j (S n)
  = add_calls ids h j n
    ++ [CallAdd h (slice ids ((j + n) * batch_size) batch_size)].
Proof. unfold add_calls. rewrite seq_S, List.map_app. reflexivity. Qed.

(** The state a build leaves when its batch [f + 1] is the first to fail,
    with [e]. *)
Lemma build_first_failure (name : pystr) (documents : list pystr)
    (metadatas : list metadata) (ids : list pystr) (faults : build_faults)
    (f : nat) (e : exn) (cs : gmap pystr (list entry)) (sc : option pystr)
    (cl : list call) (out : list pystr) :
  length documents = length ids ->
  length metadatas = length ids ->
  NoDup ids ->
  delete_fault faults = None \/ cs !! name = None ->
  create_fault faults = None ->
  f * batch_size < length ids ->
  (forall q, q < f -> add_fault faults (q + 1) = None) ->
  add_fault faults (f + 1) = Some e ->
  create_collection name documents metadatas ids true faults
    (State cs sc cl out)
  = (if is_Exception e
     then match count_fault faults with Some e' => Raise e' | None => Ok tt end
     else Raise e,
     State
       (<[name := take (f * batch_size)
                    (all_records documents metadatas ids)]> cs)
       (Some name)
       (cl ++ [CallDelete name; CallCreate name]
           ++ add_calls ids name 0 (S f)
           ++ (if is_Exception e then [CallCount name] else []))
       (out
        ++ [match cs !! name with
            | Some _ => deleted_line name
            | None => absent_line name
            end; created_line name; plan_line (total_of documents)]
        ++ success_lines (total_of documents) 0 f
        ++ (if is_Exception e then
              failure_line (f + 1) e
              :: match count_fault faults with
                 | Some _ => []
                 | None => [done_line (f * batch_size)]
                 end
            else []))).
Proof.
  intros Hdocs Hmetas Hnodup Hdelete Hcreate Hf Hbefore Hfail.
  rewrite create_collection_recreate, delete_attempt_run.
  set (cs' := match cs !! name with Some _ => delete name cs | None => cs end).
  set (first := match cs !! name with
                | Some _ => deleted_line name
                | None => absent_line name
                end).
  assert (Hstate :
    snd (Ok tt,
         match delete_fault faults, cs !! name with
         | None, Some _ =>
             State (delete name cs) sc (cl ++ [CallDelete name])
               (out ++ [deleted_line name])
         | _, _ =>
             State cs sc (cl ++ [CallDelete name]) (out ++ [absent_line name])
         end)
    = State cs' sc (cl ++ [CallDelete name]) (out ++ [first])).
  { subst cs' first. destruct Hdelete as [-> | ->].
    - destruct (cs !! name); reflexivity.
    - destruct (delete_fault faults); reflexivity. }
  rewrite Hstate. clear Hstate.
  assert (Hfree : cs' !! name = None).
  { subst cs'. destruct (cs !! name) eqn:Hl;
      [apply lookup_delete_eq | exact Hl]. }
  assert (Hins : forall x, <[name := x]> cs' = <[name := x]> cs).
  { intros x. subst cs'. destruct (cs !! name);
      [apply insert_delete_eq | reflexivity]. }
  rewrite (create_collection_fresh name documents metadatas ids faults cs' sc
             _ _ Hcreate Hfree).
  unfold bind at 1. rewrite py_range_starts.
  rewrite (starts_from_split f (total_of documents))
    by (apply total_of_gt; lia).
  rewrite (add_batches_accepted documents metadatas ids Hdocs Hmetas Hnodup
             (total_of documents) (add_fault faults) f 0).
  2:{ intros q Hq. split; [| apply Hbefore; lia].
      unfold batch_size in *. lia. }
  2:{ rewrite lookup_insert_eq. reflexivity. }
  simpl (0 + f). rewrite insert_insert_eq.
  rewrite (add_batches_rejected documents metadatas ids Hdocs Hmetas Hnodup
             (total_of documents) (add_fault faults) f _ name e).
  2: exact Hf.
  2: exact Hfail.
  2:{ rewrite lookup_insert_eq. reflexivity. }
  rewrite Hins.
  rewrite (add_calls_S ids name 0 f). simpl (0 + f).
  destruct (is_Exception e).
  - rewrite (finish_run faults name
               (take (f * batch_size) (all_records documents metadatas ids))).
    2:{ rewrite lookup_insert_eq. reflexivity. }
    rewrite length_take_le
      by (rewrite all_records_length by assumption; lia).
    destruct (count_fault faults);
      repeat rewrite <- app_assoc; cbn [app]; reflexivity.
  - repeat rewrite <- app_assoc. cbn [app]. rewrite !app_nil_r. reflexivity.
Qed.

Lemma delete_attempt_free (name : pystr) (cs : gmap pystr (list entry))
    (sc : option pystr) (cl : list call) (out : list pystr) :
  exists cs' cl' out',
    snd (delete_attempt name None (State cs sc cl out))
    = State cs' sc cl' out'
    /\ cs' !! name = None.
Proof.
  rewrite delete_attempt_run. destruct (cs !! name) eqn:Hl; cbn [snd].
  - eexists _, _, _. split; [reflexivity | apply lookup_delete_eq].
  - eexists _, _, _. split; [reflexivity | exact Hl].
Qed.

(** What the collection holds after a build that deletes and creates
    without fault. *)
Lemma build_stored (name : pystr) (documents : list pystr)
    (metadatas : list metadata) (ids : list pystr) (faults : build_faults)
    (st : state) :
  delete_fault faults = None ->
  create_fault faults = None ->
  collections (snd (create_collection name documents metadatas ids true
                      faults st)) !! name
  = Some (stored documents metadatas ids (add_fault faults)
            (py_range 0 (length documents) batch_size) []).
Proof.
  intros Hdelete Hcreate. destruct st as [cs sc cl out].
  rewrite create_collection_recreate, Hdelete.
  destruct (delete_attempt_free name cs sc cl out)
    as (cs' & cl' & out' & -> & Hfree).
  rewrite (create_collection_fresh name documents metadatas ids faults cs' sc
             _ _ Hcreate Hfree).
  unfold bind at 1.
  match goal with |- context [add_batches _ _ _ ?t ?fl ?starts
                                (State ?c (Some ?h) ?l ?o)] =>
    destruct (add_batches_run documents metadatas ids t fl starts h [] c l o
                (lookup_insert_eq _ _ _)) as (r & cl2 & out2 & Hrun)
  end.
  rewrite Hrun. rewrite insert_insert_eq.
  destruct r as [[] | e]; cbn [snd collections].
  - rewrite (finish_run faults name _ _ _ _ (lookup_insert_eq _ _ _)).
    destruct (count_fault faults); cbn [snd collections];
      apply lookup_insert_eq.
  - apply lookup_insert_eq.
Qed.

(** With no fault and a well-formed data set, every record is stored. *)
Lemma stored_all (documents : list pystr) (metadatas : list metadata)
    (ids : list pystr) (faults : nat -> option exn) :
  length documents = length ids ->
  length metadatas = length ids ->
  NoDup ids ->
  (forall j, faults j = None) ->
  stored documents metadatas ids faults
    (py_range 0 (length documents) batch_size) []
  = all_records documents metadatas ids.
Proof.
  intros Hdocs Hmetas Hnodup Hnone.
  remember ([] : pystr) as h eqn:Hh. clear Hh.
  remember ({[ h := @nil entry ]} : gmap pystr (list entry)) as cs eqn:Hcs.
  assert (Hl : cs !! h = Some []) by (subst cs; apply lookup_singleton_eq).
  clear Hcs.
  destruct (add_batches_run documents metadatas ids (total_of documents)
              faults (py_range 0 (length documents) batch_size) h [] cs [] []
              Hl) as (r & cl' & out' & Hrun).
  rewrite py_range_starts in Hrun |- *.
  rewrite <- (app_nil_r (starts_from 0 (total_of documents))) in Hrun at 1.
  rewrite (add_batches_accepted documents metadatas ids Hdocs Hmetas Hnodup
             (total_of documents) faults (total_of documents) 0 [] h cs [] [])
    in Hrun.
  - cbn [add_batches] in Hrun. unfold ret in Hrun.
    apply (f_equal (fun p => collections (snd p) !! h)) in Hrun.
    cbn [snd collections] in Hrun.
    rewrite !lookup_insert_eq in Hrun. injection Hrun as Hrun.
    rewrite <- Hrun. simpl (0 + _). apply take_ge.
    rewrite all_records_length by assumption. rewrite <- Hdocs.
    apply total_of_covers.
  - intros q Hq. split; [| apply Hnone].
    rewrite <- Hdocs. unfold total_of, batch_size in *.
    pose proof (Nat.div_mod_eq (length documents + 10 - 1) 10).
    pose proof (Nat.mod_upper_bound (length documents + 10 - 1) 10).
    lia.
  - exact Hl.
Qed.

(** C1. Batch fail-fast: for a data set with as many documents and
    metadata dicts as ids, the ids distinct, built into a collection that
    the store can create, if the calls that add the batches 1 to [k - 1]
    succeed and the call that adds batch [k] fails, then the collection
    holds exactly the first [(k - 1) * 10] records, in row order; no id of
    batch [k] or of a later batch is in it; and the calls made to the store
    are the delete, the create, the adds of the batches 1 to [k] and, when
    the failure is an [Exception], the closing count: no batch after [k]
    is attempted. *)
Theorem batch_fail_fast (name : pystr) (documents : list pystr)
    (metadatas : list metadata) (ids : list pystr) (faults : build_faults)
    (k : nat) (e : exn) (st : state) :
  length documents = length ids ->
  length metadatas = length ids ->
  NoDup ids ->
  delete_fault faults = None \/ collections st !! name = None ->
  create_fault faults = None ->
  1 <= k ->
  (k - 1) * batch_size < length ids ->
  (forall j, 1 <= j < k -> add_fault faults j = None) ->
  add_fault faults k = Some e ->
  let st' :=
    snd (create_collection name documents metadatas ids true faults st) in
  let content :=
    take ((k - 1) * batch_size) (all_records documents metadatas ids) in
  batch_size = 10
  /\ collections st' !! name = Some content
  /\ length content = (k - 1) * batch_size
  /\ List.map entry_id content = take ((k - 1) * batch_size) ids
  /\ (forall (i : nat) (x : pystr),
        (k - 1) * batch_size <= i -> ids !! i = Some x ->
        x ∉ List.map entry_id content)
  /\ calls st'
     = calls st ++ [CallDelete name; CallCreate name]
       ++ add_calls ids name 0 k
       ++ (if is_Exception e then [CallCount name] else []).
Proof.
  intros Hdocs Hmetas Hnodup Hdelete Hcreate Hk Hbatch Hbefore Hfail st'
    content.
  destruct st as [cs sc cl out].
  assert (Hrun := build_first_failure name documents metadatas ids faults
                    (k - 1) e cs sc cl out Hdocs Hmetas Hnodup Hdelete Hcreate
                    Hbatch).
  replace (k - 1 + 1) with k in Hrun by lia.
  replace (S (k - 1)) with k in Hrun by lia.
  specialize (Hrun ltac:(intros q Hq; apply Hbefore; lia) Hfail).
  assert (Hids : List.map entry_id content = take ((k - 1) * batch_size) ids).
  { subst content. unfold all_records. rewrite <- List.firstn_map.
    rewrite records_ids by assumption. reflexivity. }
  subst st'. rewrite Hrun. cbn [snd collections calls].
  split; [reflexivity |]. split; [apply lookup_insert_eq |].
  split.
  { subst content. apply length_take_le.
    rewrite all_records_length by assumption. lia. }
  split; [exact Hids |]. split; [| reflexivity].
  intros i x Hi Hx Hin. rewrite Hids in Hin.
  apply elem_of_take in Hin as (i' & Hx' & Hi').
  assert (i = i') by (eapply NoDup_lookup; eassumption). lia.
Qed.

(** The ids that [load_and_process_data] gives are distinct. *)
Lemma uint_codes_inj (a b : Decimal.uint) :
  uint_codes a = uint_codes b -> a = b.
Proof.
  revert b. induction a; intros b H; destruct b; simpl in H;
    try discriminate H; try reflexivity;
    injection H as H; f_equal; apply IHa; exact H.
Qed.

Lemma str_of_nat_inj (i j : nat) : str_of_nat i = str_of_nat j -> i = j.
Proof.
  unfold str_of_nat, str_of_N. intros H. apply uint_codes_inj in H.
  apply (f_equal N.of_uint) in H. rewrite !DecimalN.Unsigned.of_to in H.
  apply Nat2N.inj. exact H.
Qed.

#[local] Instance program_id_inj : Inj (=) (=) program_id.
Proof.
  intros i j H. unfold program_id in H. apply app_inv_head in H.
  apply str_of_nat_inj. exact H.
Qed.

Lemma program_ids_distinct (j n : nat) :
  NoDup (List.map program_id (seq j n)).
Proof.
  change (NoDup (program_id <$> seq j n)).
  apply NoDup_fmap_2; [exact program_id_inj | apply NoDup_seq].
Qed.

Lemma process_rows_shape (rows : list row) :
  forall (index : nat) (documents : list pystr) (metadatas : list metadata)
         (ids : list pystr) (documents' : list pystr)
         (metadatas' : list metadata) (ids' : list pystr),
    process_rows rows index documents metadatas ids
    = Ok (documents', metadatas', ids') ->
    length documents' = length documents + length rows
    /\ length metadatas' = length metadatas + length rows
    /\ ids' = ids ++ List.map program_id (seq index (length rows)).
Proof.
  induction rows as [| r rows IH];
    intros index documents metadatas ids documents' metadatas' ids' H.
  - injection H as <- <- <-. cbn [length seq List.map].
    rewrite app_nil_r. split; [lia |]. split; [lia | reflexivity].
  - simpl in H. destruct (create_document_text r); [| discriminate H].
    destruct (make_metadata r); [| discriminate H]. simpl in H.
    apply IH in H as (Hd & Hm & ->).
    rewrite length_app in Hd. rewrite length_app in Hm.
    cbn [length] in *.
    rewrite <- app_assoc. split; [lia |]. split; [lia | reflexivity].
Qed.

(** What [load_and_process_data] returns is a well-formed data set. *)
Lemma process_rows_well_formed (rows : list row) (documents : list pystr)
    (metadatas : list metadata) (ids : list pystr) :
  process_rows rows 0 [] [] [] = Ok (documents, metadatas, ids) ->
  length documents = length ids
  /\ length metadatas = length ids
  /\ NoDup ids
  /\ length ids = length rows.
Proof.
  intros H. apply process_rows_shape in H as (Hd & Hm & ->). simpl in *.
  rewrite length_map, length_seq.
  split; [exact Hd |]. split; [exact Hm |].
  split; [apply program_ids_distinct | reflexivity].
Qed.

Lemma sample_synthesized (n : nat) :
  (exists data, process_rows (sample_rows n) 0 [] [] [] = Ok data) ->
  process_rows (sample_rows n) 0 [] [] []
  = Ok (sample_documents n, sample_metadatas n, sample_ids n).
Proof.
  intros [data H]. unfold sample_documents, sample_metadatas, sample_ids,
    synthesized. rewrite H. destruct data as [[d m] i]. reflexivity.
Qed.

(** Twenty-five rows, the second batch failing: the ten records of the
    first batch are stored. *)
Lemma batch_fail_fast_witness :
  process_rows (sample_rows 25) 0 [] [] []
  = Ok (sample_documents 25, sample_metadatas 25, sample_ids 25)
  /\ add_fault (fail_at 2 QUOTA) 1 = None
  /\ add_fault (fail_at 2 QUOTA) 2 = Some QUOTA
  /\ exists content,
       collections
         (snd (create_collection NAME (sample_documents 25)
                 (sample_metadatas 25) (sample_ids 25) true
                 (fail_at 2 QUOTA) closed_db)) !! NAME = Some content
       /\ length content = 10
       /\ List.map entry_id content = List.map program_id (seq 0 10).
Proof.
  assert (H : process_rows (sample_rows 25) 0 [] [] []
              = Ok (sample_documents 25, sample_metadatas 25, sample_ids 25)).
  { apply sample_synthesized. eexists. vm_compute. reflexivity. }
  destruct (process_rows_well_formed _ _ _ _ H) as (Hd & Hm & Hn & Hlen).
  split; [exact H |]. split; [reflexivity |]. split; [reflexivity |].
  destruct (batch_fail_fast NAME (sample_documents 25) (sample_metadatas 25)
              (sample_ids 25) (fail_at 2 QUOTA) 2 QUOTA closed_db Hd Hm Hn
              (or_introl eq_refl) eq_refl)
    as (_ & Hcontent & Hlength & Hids & _).
  - lia.
  - rewrite Hlen. vm_compute. lia.
  - intros j Hj. assert (j = 1) as -> by lia. reflexivity.
  - reflexivity.
  - eexists. split; [exact Hcontent |]. split; [exact Hlength |].
    rewrite Hids. vm_compute. reflexivity.
Defined.




(** C5. Rebuild replaces rather than merges: build the same data set
    twice with [recreate], whatever the store held before, a collection
    of that name or none; the second build leaves under the name the
    content the first build left, with no id twice.  When no batch fails
    and the data set is well formed, that content is the whole data set,
    one record for each id. *)
Theorem rebuild_replaces (name : pystr) (documents : list pystr)
    (metadatas : list metadata) (ids : list pystr)
    (first second : build_faults) (st : state) :
  delete_fault first = None -> create_fault first = None ->
  delete_fault second = None -> create_fault second = None ->
  (forall j, add_fault second j = add_fault first j) ->
  let st1 :=
    snd (create_collection name documents metadatas ids true first st) in
  let st2 :=
    snd (create_collection name documents metadatas ids true second st1) in
  exists content : list entry,
    collections st1 !! name = Some content
    /\ collections st2 !! name = Some content
    /\ NoDup (List.map entry_id content)
    /\ ((forall j, add_fault first j = None) ->
        length documents = length ids ->
        length metadatas = length ids ->
        NoDup ids ->
        content = all_records documents metadatas ids
        /\ length content = length ids).
Proof.
  intros Hd1 Hc1 Hd2 Hc2 Hsame st1 st2.
  exists (stored documents metadatas ids (add_fault first)
            (py_range 0 (length documents) batch_size) []).
  split; [apply build_stored; assumption |]. split.
  { subst st2. rewrite build_stored by assumption.
    rewrite (stored_ext _ _ _ (add_fault first) (add_fault second)) by exact Hsame.
    reflexivity. }
  split; [apply stored_distinct; constructor |].
  intros Hnone Hdocs Hmetas Hnodup.
  rewrite stored_all by assumption.
  split; [reflexivity | apply all_records_length; assumption].
Qed.

Lemma rebuild_replaces_witness :
  exists content : list entry,
    collections
      (snd (create_collection NAME (sample_documents 25)
              (sample_metadatas 25) (sample_ids 25) true no_faults closed_db))
      !! NAME = Some content
    /\ collections
         (snd (create_collection NAME (sample_documents 25)
                 (sample_metadatas 25) (sample_ids 25) true no_faults
                 (snd (create_collection NAME (sample_documents 25)
                         (sample_metadatas 25) (sample_ids 25) true no_faults
                         closed_db))))
         !! NAME = Some content
    /\ NoDup (List.map entry_id content)
    /\ length content = 25.
Proof.
  assert (H : process_rows (sample_rows 25) 0 [] [] []
              = Ok (sample_documents 25, sample_metadatas 25, sample_ids 25)).
  { apply sample_synthesized. eexists. vm_compute. reflexivity. }
  destruct (process_rows_well_formed _ _ _ _ H) as (Hd & Hm & Hn & Hlen).
  destruct (rebuild_replaces NAME (sample_documents 25) (sample_metadatas 25)
              (sample_ids 25) no_faults no_faults closed_db eq_refl eq_refl
              eq_refl eq_refl (fun _ => eq_refl))
    as (content & H1 & H2 & Hnodup & Hall).
  exists content. split; [exact H1 |]. split; [exact H2 |].
  split; [exact Hnodup |].
  destruct (Hall (fun _ => eq_refl) Hd Hm Hn) as [_ Hlength].
  rewrite Hlength. exact Hlen.
Defined.

Lemma finish_calls (faults : build_faults) (st : state) :
  exists r st', finish faults st = (r, st')
    /\ exists more, calls st' = calls st ++ more.
Proof.
  destruct st as [cs sc cl out].
  unfold finish, the_collection, Client.collection_count.
  unfold bind, ret, raise, get_state, issue, print.
  cbv beta iota. cbn [self_collection collections calls stdout].
  destruct sc as [h |].
  - cbv beta iota. cbn [self_collection collections calls stdout].
    destruct (count_fault faults).
    + eexists _, _. split; [reflexivity |]. eexists. reflexivity.
    + cbv beta iota. cbn [self_collection collections calls stdout].
      destruct (cs !! h).
      * eexists _, _. split; [reflexivity |]. eexists. reflexivity.
      * eexists _, _. split; [reflexivity |]. eexists. reflexivity.
  - eexists _, _. split; [reflexivity |]. exists []. cbn [calls].
    rewrite app_nil_r. reflexivity.
Qed.

Lemma build_calls (name : pystr) (documents : list pystr)
    (metadatas : list metadata) (ids : list pystr) (faults : build_faults)
    (st : state) :
  exists more,
    calls (snd (create_collection name documents metadatas ids false faults
                  st))
    = calls st ++ CallCreate name :: more.
Proof.
  destruct st as [cs sc cl out].
  destruct (create_fault faults) as [e |] eqn:Hcreate.
  { exists []. unfold create_collection, Client.create_collection.
    rewrite Hcreate. reflexivity. }
  destruct (cs !! name) as [old |] eqn:Hl.
  { exists []. unfold create_collection, Client.create_collection.
    rewrite Hcreate.
    unfold bind at 1. unfold ret at 1. unfold bind at 1. unfold bind at 1.
    unfold issue at 1. unfold bind at 1. unfold get_state at 1.
    cbn [self_collection collections calls stdout]. rewrite Hl.
    reflexivity. }
  rewrite (create_collection_fresh name documents metadatas ids faults cs sc
             cl out Hcreate Hl).
  unfold bind at 1.
  match goal with |- context [add_batches _ _ _ ?t ?fl ?starts
                                (State ?c (Some ?h) ?l ?o)] =>
    destruct (add_batches_run documents metadatas ids t fl starts h [] c l o
                (lookup_insert_eq _ _ _)) as (r & cl2 & out2 & Hrun)
  end.
  rewrite Hrun. destruct r as [[] | e].
  - match goal with |- context [finish faults ?s] =>
      destruct (finish_calls faults s) as (r & st' & Hfin & more & Hcalls)
    end.
    rewrite Hfin. cbn [snd]. rewrite Hcalls. cbn [calls].
    exists (cl2 ++ more). rewrite <- !app_assoc. reflexivity.
  - cbn [snd calls]. exists cl2. rewrite <- !app_assoc. reflexivity.
Qed.

(** C10. The delete step never fails the rebuild: whatever the delete
    does, succeed, find no collection or raise any exception, a build with
    [recreate] is the build without [recreate] run from the state that the
    delete attempt leaves.  That attempt issues the delete call, prints one
    line and changes neither the open collection nor, when the delete
    failed, the store; and the create call follows the delete call at
    once. *)
Theorem delete_failure_suppressed (name : pystr) (documents : list pystr)
    (metadatas : list metadata) (ids : list pystr) (faults : build_faults)
    (st : state) :
  exists st' : state,
    create_collection name documents metadatas ids true faults st
    = create_collection name documents metadatas ids false faults st'
    /\ calls st' = calls st ++ [CallDelete name]
    /\ self_collection st' = self_collection st
    /\ match delete_fault faults, collections st !! name with
       | None, Some _ =>
           collections st' = delete name (collections st)
           /\ stdout st' = stdout st ++ [deleted_line name]
       | _, _ =>
           collections st' = collections st
           /\ stdout st' = stdout st ++ [absent_line name]
       end
    /\ exists more,
         calls (snd (create_collection name documents metadatas ids true
                       faults st))
         = calls st ++ [CallDelete name; CallCreate name] ++ more.
Proof.
  exists (snd (delete_attempt name (delete_fault faults) st)).
  split; [apply create_collection_recreate |].
  rewrite create_collection_recreate.
  destruct (build_calls name documents metadatas ids faults
              (snd (delete_attempt name (delete_fault faults) st)))
    as [more Hmore].
  rewrite Hmore. clear Hmore.
  destruct st as [cs sc cl out]. rewrite delete_attempt_run.
  cbn [snd collections calls stdout self_collection].
  destruct (delete_fault faults) as [e |];
    [| destruct (cs !! name)];
    cbn [snd collections calls stdout self_collection];
    (split; [reflexivity |]); (split; [reflexivity |]);
    (split; [split; reflexivity |]);
    exists more; rewrite <- !app_assoc; reflexivity.
Qed.

Local Close Scope nat_scope.

(** ** Further properties *)

(** *** The count coercion on every cell *)






















(** *** The admission narrative *)





(** *** The document of a row *)






(** *** Loading the file *)









Local Open Scope nat_scope.

(** *** Builds that succeed, builds that cannot start *)

Lemma delete_attempt_state (name : pystr) (fault : option exn)
    (cs : gmap pystr (list entry)) (sc : option pystr) (cl : list call)
    (out : list pystr) :
  snd (delete_attempt name fault (State cs sc cl out))
  = State (match fault, cs !! name with
           | None, Some _ => delete name cs
           | _, _ => cs
           end) sc (cl ++ [CallDelete name])
      (out ++ [delete_line name fault cs]).
Proof.
  rewrite delete_attempt_run. unfold delete_line.
  destruct fault; [reflexivity |]. destruct (cs !! name); reflexivity.
Qed.

(** A build whose delete leaves no collection of the name, and whose
    create succeeds, up to the batch loop. *)
Lemma recreate_fresh (name : pystr) (documents : list pystr)
    (metadatas : list metadata) (ids : list pystr) (faults : build_faults)
    (cs : gmap pystr (list entry)) (sc : option pystr) (cl : list call)
    (out : list pystr) :
  delete_fault faults = None \/ cs !! name = None ->
  create_fault faults = None ->
  create_collection name documents metadatas ids true faults
    (State cs sc cl out)
  = bind (add_batches documents metadatas ids (total_of documents)
            (add_fault faults) (starts_from 0 (total_of documents)))
      (fun _ => finish faults)
      (State (<[name := []]> cs) (Some name)
         (cl ++ [CallDelete name; CallCreate name])
         (out ++ [delete_line name (delete_fault faults) cs;
                  created_line name; plan_line (total_of documents)])).
Proof.
  intros Hdelete Hcreate.
  rewrite create_collection_recreate, delete_attempt_state.
  set (cs' := match delete_fault faults, cs !! name with
              | None, Some _ => delete name cs
              | _, _ => cs
              end).
  assert (Hfree : cs' !! name = None).
  { subst cs'. destruct Hdelete as [-> | Hl].
    - destruct (cs !! name) eqn:Hl; [apply lookup_delete_eq | exact Hl].
    - rewrite Hl. destruct (delete_fault faults); exact Hl. }
  assert (Hins : <[name := @nil entry]> cs' = <[name := []]> cs).
  { subst cs'. destruct (delete_fault faults); [reflexivity |].
    destruct (cs !! name); [apply insert_delete_eq | reflexivity]. }
  rewrite (create_collection_fresh name documents metadatas ids faults cs' sc
             _ _ Hcreate Hfree).
  rewrite py_range_starts, Hins.
  repeat rewrite <- app_assoc. reflexivity.
Qed.

Lemma total_of_lt (documents : list pystr) (q : nat) :
  q < total_of documents -> q * batch_size < length documents.
Proof.
  unfold total_of, batch_size. intros Hq.
  pose proof (Nat.div_mod_eq (length documents + 10 - 1) 10) as Hdiv.
  pose proof (Nat.mod_upper_bound (length documents + 10 - 1) 10) as Hmod.
  lia.
Qed.

(** X7. A build that meets no fault: every record is stored, in row order,
    by one add call for each batch, and the closing line gives their
    number. *)
Theorem build_without_fault (name : pystr) (documents : list pystr)
    (metadatas : list metadata) (ids : list pystr) (faults : build_faults)
    (st : state) :
  length documents = length ids ->
  length metadatas = length ids ->
  NoDup ids ->
  delete_fault faults = None \/ collections st !! name = None ->
  create_fault faults = None ->
  (forall j, add_fault faults j = None) ->
  count_fault faults = None ->
  create_collection name documents metadatas ids true faults st
  = (Ok tt,
     State (<[name := all_records documents metadatas ids]> (collections st))
       (Some name)
       (calls st ++ [CallDelete name; CallCreate name]
          ++ add_calls ids name 0 (total_of documents) ++ [CallCount name])
       (stdout st
          ++ [delete_line name (delete_fault faults) (collections st);
              created_line name; plan_line (total_of documents)]
          ++ success_lines (total_of documents) 0 (total_of documents)
          ++ [done_line (length ids)])).
Proof.
  intros Hdocs Hmetas Hnodup Hdelete Hcreate Hadd Hcount.
  destruct st as [cs sc cl out].
  cbn [collections self_collection calls stdout] in *.
  rewrite (recreate_fresh name documents metadatas ids faults cs sc cl out
             Hdelete Hcreate).
  unfold bind at 1.
  rewrite <- (app_nil_r (starts_from 0 (total_of documents))).
  rewrite (add_batches_accepted documents metadatas ids Hdocs Hmetas Hnodup
             (total_of documents) (add_fault faults) (total_of documents) 0).
  2:{ intros q Hq. split; [| apply Hadd].
      rewrite <- Hdocs. apply total_of_lt. lia. }
  2:{ rewrite lookup_insert_eq. reflexivity. }
  cbn [add_batches]. unfold ret. rewrite insert_insert_eq.
  simpl (0 + _).
  rewrite take_ge
    by (rewrite all_records_length by assumption; rewrite <- Hdocs;
        apply total_of_covers).
  rewrite (finish_run faults name (all_records documents metadatas ids))
    by apply lookup_insert_eq.
  rewrite Hcount. rewrite all_records_length by assumption.
  repeat rewrite <- app_assoc. reflexivity.
Qed.

Lemma build_without_fault_witness :
  create_collection NAME (sample_documents 25) (sample_metadatas 25)
    (sample_ids 25) true no_faults closed_db
  = (Ok tt,
     State {[ NAME := all_records (sample_documents 25) (sample_metadatas 25)
                        (sample_ids 25) ]}
       (Some NAME)
       ([CallDelete NAME; CallCreate NAME]
          ++ add_calls (sample_ids 25) NAME 0 3 ++ [CallCount NAME])
       ([absent_line NAME; created_line NAME; plan_line 3]
          ++ success_lines 3 0 3 ++ [done_line 25])).
Proof.
  assert (H : process_rows (sample_rows 25) 0 [] [] []
              = Ok (sample_documents 25, sample_metadatas 25, sample_ids 25)).
  { apply sample_synthesized. eexists. vm_compute. reflexivity. }
  destruct (process_rows_well_formed _ _ _ _ H) as (Hd & Hm & Hn & Hlen).
  assert (Htotal : total_of (sample_documents 25) = 3).
  { unfold total_of. rewrite Hd, Hlen. reflexivity. }
  rewrite (build_without_fault NAME (sample_documents 25)
             (sample_metadatas 25) (sample_ids 25) no_faults closed_db
             Hd Hm Hn (or_introl eq_refl) eq_refl (fun _ => eq_refl) eq_refl).
  rewrite Htotal, Hlen. reflexivity.
Defined.

(** X8. When the store refuses to create the collection the exception reaches
    the caller: no batch is attempted, [self.collection] keeps the value it
    had, and a collection that the delete step removed stays removed. *)
Theorem create_failure_propagates (name : pystr) (documents : list pystr)
    (metadatas : list metadata) (ids : list pystr) (faults : build_faults)
    (e : exn) (st : state) :
  create_fault faults = Some e ->
  create_collection name documents metadatas ids true faults st
  = (Raise e,
     State (match delete_fault faults, collections st !! name with
            | None, Some _ => delete name (collections st)
            | _, _ => collections st
            end)
       (self_collection st)
       (calls st ++ [CallDelete name; CallCreate name])
       (stdout st
          ++ [delete_line name (delete_fault faults) (collections st)])).
Proof.
  intros Hcreate. destruct st as [cs sc cl out].
  rewrite create_collection_recreate, delete_attempt_state.
  cbn [collections self_collection calls stdout].
  unfold create_collection, Client.create_collection. rewrite Hcreate.
  unfold bind, ret, raise, issue.
  cbn [collections self_collection calls stdout].
  rewrite <- app_assoc. reflexivity.
Qed.

Lemma create_failure_propagates_witness :
  create_collection NAME [U "a"] [sample_metadata] [U "program_0"] true
    (BuildFaults None (Some QUOTA) (fun _ => None) None)
    (open_db NAME [Entry (U "program_0") (U "old") sample_metadata])
  = (Raise QUOTA,
     State (delete NAME {[ NAME := [Entry (U "program_0") (U "old")
                                      sample_metadata] ]})
       (Some NAME) [CallDelete NAME; CallCreate NAME] [deleted_line NAME]).
Proof.
  rewrite (create_failure_propagates NAME [U "a"] [sample_metadata]
             [U "program_0"]
             (BuildFaults None (Some QUOTA) (fun _ => None) None) QUOTA
             (open_db NAME [Entry (U "program_0") (U "old") sample_metadata])
             eq_refl).
  unfold delete_line, open_db.
  cbn [delete_fault collections self_collection calls stdout app].
  rewrite lookup_singleton_eq. reflexivity.
Defined.

(** The slices of the batch loop, one after the other, are the list. *)
Lemma slices_concat {A : Type} (xs : list A) (m : nat) :
  forall j : nat,
    length xs <= (j + m) * batch_size ->
    concat (List.map (fun i => slice xs i batch_size) (starts_from j m))
    = drop (j * batch_size) xs.
Proof.
  unfold starts_from.
  induction m as [| m IH]; intros j Hlen; cbn [seq List.map concat].
  - symmetry. apply drop_ge. lia.
  - rewrite (IH (S j)) by lia. unfold slice.
    replace (S j * batch_size) with (j * batch_size + batch_size) by lia.
    rewrite <- drop_drop. apply take_drop.
Qed.

(** X9. The batches of a build partition the data set: taken in order they
    give back the ids, none is empty, none holds more than ten ids, and
    all but the last hold ten. *)
Theorem batches_partition (ids : list pystr) :
  let starts := py_range 0 (length ids) batch_size in
  let batches := List.map (fun i => slice ids i batch_size) starts in
  concat batches = ids
  /\ length batches = (length ids + batch_size - 1) / batch_size
  /\ (forall (k : nat) (batch : list pystr),
        batches !! k = Some batch ->
        1 <= length batch <= batch_size
        /\ (S k < length batches -> length batch = batch_size)).
Proof.
  intros starts batches. subst starts batches.
  rewrite py_range_starts. fold (total_of ids).
  split; [| split].
  - rewrite (slices_concat ids (total_of ids) 0)
      by (simpl (0 + _); apply total_of_covers).
    reflexivity.
  - unfold starts_from. rewrite !length_map, length_seq. reflexivity.
  - intros k batch Hk.
    unfold starts_from in Hk |- *. rewrite !length_map, length_seq.
    rewrite !list_lookup_fmap in Hk.
    destruct (seq 0 (total_of ids) !! k) as [q |] eqn:Hq;
      [| discriminate Hk].
    apply lookup_seq in Hq as [-> Hlt]. cbn [fmap option_fmap option_map] in Hk.
    injection Hk as <-. simpl (0 + k).
    pose proof (total_of_lt ids k Hlt) as Hstart.
    unfold slice. rewrite length_take, length_drop.
    unfold batch_size in *. split; [lia |].
    intros Hnext. pose proof (total_of_lt ids (S k) Hnext) as Hnext'.
    unfold batch_size in *. lia.
Qed.

Local Close Scope nat_scope.

(** *** Displaying what a query returns *)

(** X10. A query that fails and a query that matches nothing are displayed
    alike, by the line that says nothing was found; the failed one shows
    its failure line first.  Neither raises. *)
Theorem failed_query_shows_nothing_found (query_text : pystr) (n_results : Z)
    (where_filter : option pyval) (query_description : pystr) (e : exn)
    (st : state) (handle : pystr) :
  self_collection st = Some handle ->
  is_Exception e = true ->
  query_and_print query_text n_results where_filter (Raise e)
    query_description st
  = (Ok tt,
     State (collections st) (Some handle)
       (calls st ++ [CallQuery handle query_text])
       (stdout st ++ [query_failed_line e;
                      nothing_found_line query_description]))
  /\ query_and_print query_text n_results where_filter (Ok NO_HITS)
       query_description st
     = (Ok tt,
        State (collections st) (Some handle)
          (calls st ++ [CallQuery handle query_text])
          (stdout st ++ [nothing_found_line query_description])).
Proof.
  intros Hopen Hexc. destruct st as [cs sc cl out].
  cbn [self_collection] in Hopen. subst sc.
  unfold query_and_print, query_programs, Client.collection_query.
  split.
  - unfold bind, ret, raise, attempt, print, issue, get_state.
    cbn [collections self_collection calls stdout]. rewrite Hexc.
    cbn [collections self_collection calls stdout].
    unfold print_query_results, nothing_found, lift, bind, ret, print.
    cbn [truthy negb collections self_collection calls stdout].
    rewrite <- app_assoc. reflexivity.
  - unfold bind, ret, raise, attempt, print, issue, get_state.
    cbn [collections self_collection calls stdout].
    reflexivity.
Qed.

Lemma failed_query_shows_nothing_found_witness :
  stdout (snd (query_and_print (U "顶级大学 计算机科学 人工智能") 5 None
                 (Raise BACKEND_DOWN) (U "顶级项目 (T0/T1)")
                 (open_db NAME [])))
  = [query_failed_line BACKEND_DOWN;
     nothing_found_line (U "顶级项目 (T0/T1)")].
Proof.
  destruct (failed_query_shows_nothing_found
              (U "顶级大学 计算机科学 人工智能") 5 None (U "顶级项目 (T0/T1)")
              BACKEND_DOWN (open_db NAME []) NAME eq_refl eq_refl)
    as [Hfailed _].
  rewrite Hfailed. reflexivity.
Defined.

Lemma print_results_ignore_documents :
  forall (documents documents' metadatas distances : list pyval) (i : nat),
    length documents = length documents' ->
    print_results i (zip3 documents metadatas distances)
    = print_results i (zip3 documents' metadatas distances).
Proof.
  induction documents as [| d documents IH];
    intros [| d' documents'] metadatas distances i Hlen;
    try discriminate Hlen; [reflexivity |].
  destruct metadatas as [| m metadatas]; [reflexivity |].
  destruct distances as [| x distances]; [reflexivity |].
  cbn [zip3 print_results]. f_equal.
  rewrite (IH documents' metadatas distances (S i))
    by (injection Hlen as Hlen; exact Hlen).
  reflexivity.
Qed.

(** X11. The text of the documents found is never displayed: only the number
    of documents bears on what is printed and returned. *)
Theorem documents_never_printed (documents documents' : list pystr)
    (metadatas : list metadata) (distances : list float)
    (query_description : pystr) (st : state) :
  length documents = length documents' ->
  print_query_results (query_result documents metadatas distances)
    query_description st
  = print_query_results (query_result documents' metadatas distances)
      query_description st.
Proof.
  intros Hlen.
  destruct (query_result_columns documents metadatas distances)
    as (Hget & Hdoc & Hmeta & Hdist).
  destruct (query_result_columns documents' metadatas distances)
    as (Hget' & Hdoc' & Hmeta' & Hdist').
  unfold print_query_results, nothing_found.
  rewrite Hget, Hget', Hdoc, Hdoc', Hmeta, Hmeta', Hdist, Hdist'.
  cbn [query_result truthy negb bind_result].
  assert (Hempty : truthy (VList (List.map VStr documents))
                   = truthy (VList (List.map VStr documents'))).
  { destruct documents, documents'; try discriminate Hlen; reflexivity. }
  cbn [truthy] in Hempty |- *. rewrite Hempty.
  destruct (match List.map VStr documents' with [] => false | _ => true end);
    cbn [negb lift]; [| reflexivity].
  cbv beta iota delta [bind ret lift py_iter print].
  rewrite (print_results_ignore_documents (List.map VStr documents)
             (List.map VStr documents') (List.map VDict metadatas)
             (List.map VFloat distances) 0)
    by (rewrite !length_map; exact Hlen).
  reflexivity.
Qed.

Lemma documents_never_printed_witness :
  print_query_results
    (query_result [U "MSc Computer Science"] [sample_metadata] [0.2%float])
    (U "英国CS项目") closed_db
  = print_query_results
      (query_result [U "another text"] [sample_metadata] [0.2%float])
      (U "英国CS项目") closed_db.
Proof.
  apply (documents_never_printed [U "MSc Computer Science"]
           [U "another text"] [sample_metadata] [0.2%float] (U "英国CS项目")
           closed_db).
  reflexivity.
Defined.

(** *** Connecting to the collection *)

(** Unfolding of the monad, one layer at a time. *)
Ltac step_m :=
  cbv beta iota delta [bind ret raise attempt print issue set_collections
                       set_self_collection get_state lift];
  cbn [collections self_collection calls stdout fst snd].


(** X13. Only a [ValueError] means that the collection is absent: any other
    failure of the store while connecting reaches the caller, and nothing
    is printed. *)
Theorem connect_other_failure_propagates (name : pystr) (e : exn)
    (count_fault : option exn) (listing : result (list pystr)) (st : state) :
  isinstance e ValueError = false ->
  get_existing_collection name (Some e) count_fault listing st = (Raise e, st).
Proof.
  intros He. destruct st as [cs sc cl out].
  unfold get_existing_collection, Reads.get_collection. step_m.
  rewrite He. reflexivity.
Qed.

Lemma connect_other_failure_propagates_witness :
  get_existing_collection NAME (Some BACKEND_DOWN) None (Ok []) closed_db
  = (Raise BACKEND_DOWN, closed_db).
Proof.
  apply (connect_other_failure_propagates NAME BACKEND_DOWN None (Ok [])
           closed_db).
  reflexivity.
Defined.

Lemma keeps_ret {A : Type} (a : A) : keeps_store (ret a).
Proof. intros st. split; reflexivity. Qed.

Lemma keeps_raise {A : Type} (e : exn) : keeps_store (@raise A e).
Proof. intros st. split; reflexivity. Qed.

Lemma keeps_lift {A : Type} (r : result A) : keeps_store (lift r).
Proof. destruct r; [apply keeps_ret | apply keeps_raise]. Qed.

Lemma keeps_print (line : pystr) : keeps_store (print line).
Proof. intros st. split; reflexivity. Qed.

Lemma keeps_issue (c : call) : keeps_store (issue c).
Proof. intros st. split; reflexivity. Qed.

Lemma keeps_get_state : keeps_store get_state.
Proof. intros st. split; reflexivity. Qed.

Lemma keeps_bind {A B : Type} (m : M A) (k : A -> M B) :
  keeps_store m -> (forall a, keeps_store (k a)) -> keeps_store (bind m k).
Proof.
  intros Hm Hk st. unfold bind. specialize (Hm st).
  destruct (m st) as [[a | e] st']; cbn [snd] in *.
  - destruct (Hk a st') as [H1 H2]. destruct Hm as [H3 H4].
    split; congruence.
  - exact Hm.
Qed.

Lemma keeps_attempt {A : Type} (m : M A) :
  keeps_store m -> keeps_store (attempt m).
Proof.
  intros Hm st. unfold attempt. specialize (Hm st).
  destruct (m st) as [r st']. exact Hm.
Qed.

Create HintDb keeps.

#[local] Hint Resolve keeps_ret keeps_raise keeps_lift keeps_print keeps_issue
  keeps_get_state : keeps.

Ltac keeps :=
  repeat first
    [ apply keeps_bind; [| intros ?]
    | apply keeps_attempt
    | solve [auto with keeps]
    | match goal with
      | |- keeps_store (match ?x with _ => _ end) => destruct x
      | |- keeps_store (if ?x then _ else _) => destruct x
      | |- keeps_store (let '(_, _) := ?x in _) => destruct x
      end ].

Lemma keeps_print_results (items : list (pyval * pyval * pyval)) :
  forall i : nat, keeps_store (print_results i items).
Proof.
  induction items as [| [[d m] x] items IH]; intros i; cbn [print_results].
  - apply keeps_ret.
  - apply keeps_bind; [| intros _; apply IH].
    unfold print_result. keeps.
Qed.

Lemma keeps_print_query_results (results : pyval) (description : pystr) :
  keeps_store (print_query_results results description).
Proof.
  unfold print_query_results. keeps. apply keeps_print_results.
Qed.

Lemma keeps_query_programs (text : pystr) (n : Z) (w : option pyval)
    (answer : result pyval) :
  keeps_store (query_programs text n w answer).
Proof.
  unfold query_programs, Client.collection_query. keeps.
Qed.

Lemma keeps_query_and_print (text : pystr) (n : Z) (w : option pyval)
    (answer : result pyval) (description : pystr) :
  keeps_store (query_and_print text n w answer description).
Proof.
  unfold query_and_print. apply keeps_bind;
    [apply keeps_query_programs | intros ?; apply keeps_print_query_results].
Qed.

Lemma keeps_sample_queries
    (answers : result pyval * result pyval * result pyval * result pyval) :
  keeps_store (sample_queries answers).
Proof.
  destruct answers as [[[a1 a2] a3] a4]. unfold sample_queries.
  repeat (apply keeps_bind; [apply keeps_query_and_print | intros _]).
  apply keeps_query_and_print.
Qed.

Lemma keeps_print_counts (items : counts) : keeps_store (print_counts items).
Proof.
  induction items as [| [k n] items IH]; cbn [print_counts].
  - apply keeps_ret.
  - apply keeps_bind; [apply keeps_print | intros _; exact IH].
Qed.

Lemma keeps_get_collection_stats (fault : option exn) :
  keeps_store (get_collection_stats fault).
Proof.
  unfold get_collection_stats, Reads.collection_get, print_distribution.
  pose proof keeps_print_counts. keeps.
Qed.

(** *** The runs of [main] *)

Lemma main_start (out : outside) (csv : option (list row))
    (faults : build_faults) (st : state) :
  init_fault out = None ->
  main out csv faults st
  = bind (get_existing_collection COLLECTION_NAME (connect_fault out)
            (connect_count_fault out) (listing out))
      (fun existing =>
         bind (if negb existing then rebuild csv faults else ret true)
           (fun ready => if ready then demonstrate out else ret tt))
      (State (collections st) None (calls st) (stdout st ++ start_lines out)).
Proof.
  intros Hinit. destruct st as [cs sc cl o].
  unfold main, init, initialize_db. rewrite Hinit.
  unfold bind at 1. unfold print at 1.
  unfold bind at 1. unfold print at 1.
  unfold bind at 1. unfold bind at 1. unfold set_self_collection at 1.
  unfold bind at 1. unfold attempt at 1.
  cbv beta iota delta [bind ret lift print].
  cbn [collections self_collection calls stdout].
  unfold start_lines. repeat rewrite <- app_assoc. reflexivity.
Qed.





Lemma connect_present (name : pystr) (listing : result (list pystr))
    (content : list entry) (st : state) :
  collections st !! name = Some content ->
  get_existing_collection name None None listing st
  = (Ok true,
     State (collections st) (Some name) (calls st ++ [CallCount name])
       (stdout st ++ [connected_line name (length content)])).
Proof.
  intros Hl. destruct st as [cs sc cl o]. cbn [collections] in Hl.
  unfold get_existing_collection, Reads.get_collection, the_collection,
    Client.collection_count.
  step_m. rewrite Hl. step_m. rewrite Hl. reflexivity.
Qed.








Lemma keeps_demonstrate (out : outside) : keeps_store (demonstrate out).
Proof.
  unfold demonstrate.
  apply keeps_bind; [apply keeps_get_collection_stats | intros _].
  apply keeps_bind; [apply keeps_print | intros _].
  apply keeps_bind; [apply keeps_print | intros _].
  apply keeps_bind; [apply keeps_sample_queries | intros _].
  keeps.
Qed.


(** X16. A collection that exists is used as it is: [main] does not read the
    file and changes nothing in the store, so the collection is not
    brought up to date with a file that has changed. *)
Theorem main_reuses_existing (out : outside) (csv : option (list row))
    (faults : build_faults) (content : list entry) (st : state) :
  init_fault out = None ->
  connect_fault out = None ->
  connect_count_fault out = None ->
  collections st !! COLLECTION_NAME = Some content ->
  (forall (csv' : option (list row)) (faults' : build_faults),
     main out csv' faults' st = main out csv faults st)
  /\ collections (snd (main out csv faults st)) = collections st
  /\ self_collection (snd (main out csv faults st)) = Some COLLECTION_NAME.
Proof.
  intros Hinit Hconnect Hcount Hl.
  assert (Hrun : forall csv' faults',
    main out csv' faults' st
    = demonstrate out
        (State (collections st) (Some COLLECTION_NAME)
           (calls st ++ [CallCount COLLECTION_NAME])
           ((stdout st ++ start_lines out)
              ++ [connected_line COLLECTION_NAME (length content)]))).
  { intros csv' faults'. rewrite (main_start out csv' faults' st Hinit).
    unfold bind at 1. rewrite Hconnect, Hcount.
    rewrite (connect_present COLLECTION_NAME (listing out) content)
      by exact Hl.
    reflexivity. }
  split; [intros csv' faults'; rewrite !Hrun; reflexivity |].
  rewrite Hrun.
  match goal with |- context [demonstrate out ?s] =>
    destruct (keeps_demonstrate out s) as [H1 H2]
  end.
  split; [exact H1 | exact H2].
Qed.

Lemma main_reuses_existing_witness :
  (forall (csv' : option (list row)) (faults' : build_faults),
     main QUIET csv' faults' (open_db COLLECTION_NAME [])
     = main QUIET None no_faults (open_db COLLECTION_NAME []))
  /\ collections (snd (main QUIET None no_faults (open_db COLLECTION_NAME [])))
     = {[ COLLECTION_NAME := [] ]}.
Proof.
  destruct (main_reuses_existing QUIET None no_faults []
              (open_db COLLECTION_NAME []) eq_refl eq_refl eq_refl
              (lookup_singleton_eq _ _))
    as (Hsame & Hstore & _).
  split; [exact Hsame | exact Hstore].
Defined.




Lemma init_fails (db_path : pystr) (e : exn) (name : pystr) (st : state) :
  init db_path (Some e) name st
  = (Raise e,
     State (collections st) None (calls st)
       (stdout st
          ++ if is_Exception e
             then [U "❌ 数据库初始化失败: " ++ exn_msg e]
             else [])).
Proof.
  destruct st as [cs sc cl o]. unfold init, initialize_db. step_m.
  destruct (is_Exception e); step_m; rewrite ?app_nil_r; reflexivity.
Qed.

(** X18. When the client or the embedding function cannot be set up, [main]
    ends with the exception: it is printed, raised again, and nothing in
    [main] catches it. *)
Theorem main_stops_when_client_fails (out : outside) (e : exn)
    (csv : option (list row)) (faults : build_faults) (st : state) :
  init_fault out = Some e ->
  main out csv faults st
  = (Raise e,
     State (collections st) None (calls st)
       (stdout st
          ++ [ U "🚀 CS Programs ChromaDB Query Tool (默认嵌入模型)";
               List.concat (repeat (U "=") 60) ]
          ++ if is_Exception e
             then [U "❌ 数据库初始化失败: " ++ exn_msg e]
             else [])).
Proof.
  intros Hinit. destruct st as [cs sc cl o].
  unfold main. rewrite Hinit.
  unfold bind at 1. unfold print at 1.
  unfold bind at 1. unfold print at 1.
  unfold bind at 1. rewrite init_fails.
  cbn [collections self_collection calls stdout].
  repeat rewrite <- app_assoc. reflexivity.
Qed.

Lemma main_stops_when_client_fails_witness :
  main (Outside (Some BACKEND_DOWN) [] None None (Ok []) None
          (Ok NO_HITS, Ok NO_HITS, Ok NO_HITS, Ok NO_HITS))
    None no_faults closed_db
  = (Raise BACKEND_DOWN,
     State ∅ None []
       [ U "🚀 CS Programs ChromaDB Query Tool (默认嵌入模型)";
         List.concat (repeat (U "=") 60);
         U "❌ 数据库初始化失败: embedding backend unavailable" ]).
Proof.
  rewrite (main_stops_when_client_fails
             (Outside (Some BACKEND_DOWN) [] None None (Ok []) None
                (Ok NO_HITS, Ok NO_HITS, Ok NO_HITS, Ok NO_HITS))
             BACKEND_DOWN None no_faults closed_db eq_refl).
  vm_compute. reflexivity.
Defined.

Local Open Scope nat_scope.



Local Close Scope nat_scope.

(** *** The statistics *)

(** **** The order of strings *)
Lemma str_lt_irrefl (a : pystr) : str_lt a a = false.
Proof.
  induction a as [| x a IH]; [reflexivity |]. cbn [str_lt].
  rewrite N.ltb_irrefl, N.eqb_refl, IH. reflexivity.
Qed.

Lemma str_lt_trans (a b c : pystr) :
  str_lt a b = true -> str_lt b c = true -> str_lt a c = true.
Proof.
  revert b c. induction a as [| x a IH]; intros [| y b] [| z c] Hab Hbc;
    try discriminate; try reflexivity.
  cbn [str_lt] in *.
  apply orb_true_iff in Hab. apply orb_true_iff in Hbc.
  apply orb_true_iff.
  destruct Hab as [Hab | Hab]; destruct Hbc as [Hbc | Hbc].
  - left. apply N.ltb_lt in Hab, Hbc. apply N.ltb_lt. lia.
  - apply andb_true_iff in Hbc as [Hyz _]. apply N.eqb_eq in Hyz. subst z.
    left. exact Hab.
  - apply andb_true_iff in Hab as [Hxy _]. apply N.eqb_eq in Hxy. subst y.
    left. exact Hbc.
  - apply andb_true_iff in Hab as [Hxy Hab].
    apply andb_true_iff in Hbc as [Hyz Hbc].
    apply N.eqb_eq in Hxy, Hyz. subst y z. right.
    rewrite N.eqb_refl. cbn [andb]. eapply IH; eassumption.
Qed.

Lemma str_lt_total (a b : pystr) :
  a <> b -> str_lt a b = false -> str_lt b a = true.
Proof.
  revert b. induction a as [| x a IH]; intros [| y b] Hne Hab;
    try reflexivity; try discriminate; [congruence |].
  cbn [str_lt] in *. apply orb_false_iff in Hab as [Hxy Hab].
  apply N.ltb_ge in Hxy. apply orb_true_iff.
  destruct (N.eq_dec x y) as [-> | Hneq].
  - right. rewrite N.eqb_refl in *. cbn [andb] in *.
    apply IH; [congruence | exact Hab].
  - left. apply N.ltb_lt. lia.
Qed.

(** **** The model on text keys *)
Lemma bump_text_items (d : list (pystr * nat)) (k : pystr) :
  bump (text_items d) (VStr k) = text_items (bump_text d k).
Proof.
  induction d as [| [k' n] d IH]; [reflexivity |].
  cbn [text_items List.map bump bump_text fst snd py_eq].
  destruct (bool_decide (k' = k)); [reflexivity |].
  cbn [List.map fst snd]. f_equal. exact IH.
Qed.

Lemma count_values_texts (keys : list pystr) :
  forall d : list (pystr * nat),
    count_values (List.map VStr keys) (text_items d)
    = Ok (text_items (fold_left bump_text keys d)).
Proof.
  induction keys as [| k keys IH]; intros d; [reflexivity |].
  cbn [List.map count_values hashable fold_left].
  rewrite bump_text_items. apply IH.
Qed.

Lemma insert_text_items (x : pystr * nat) (s : list (pystr * nat)) :
  insert_item (VStr (fst x), snd x) (text_items s)
  = Ok (text_items (insert_text x s)).
Proof.
  induction s as [| y s IH]; [reflexivity |].
  cbn [text_items List.map insert_item insert_text].
  unfold item_lt, text_lt. cbn [fst snd py_eq py_lt bind_result].
  destruct (bool_decide (fst x = fst y)); cbn [bind_result].
  - destruct (snd x <? snd y)%nat; [reflexivity |].
    fold (text_items s). rewrite IH. reflexivity.
  - destruct (str_lt (fst x) (fst y)); [reflexivity |].
    fold (text_items s). rewrite IH. reflexivity.
Qed.

Lemma sorted_items_texts (d : list (pystr * nat)) :
  forall s : list (pystr * nat),
    sorted_items (text_items d) (text_items s)
    = Ok (text_items (fold_left (fun acc x => insert_text x acc) d s)).
Proof.
  induction d as [| x d IH]; intros s; [reflexivity |].
  cbn [text_items List.map sorted_items fold_left].
  rewrite insert_text_items. cbn [bind_result]. apply IH.
Qed.

Lemma print_counts_texts (items : list (pystr * nat)) (st : state) :
  print_counts (text_items items) st
  = (Ok tt,
     State (collections st) (self_collection st) (calls st)
       (stdout st ++ List.map tally_line items)).
Proof.
  revert st. induction items as [| [k n] items IH]; intros st.
  - destruct st. cbn [text_items List.map print_counts]. unfold ret.
    rewrite app_nil_r. reflexivity.
  - cbn [text_items List.map print_counts fst snd].
    unfold bind at 1. unfold print at 1.
    fold (text_items items). rewrite IH.
    cbn [collections self_collection calls stdout List.map].
    rewrite <- app_assoc. reflexivity.
Qed.

Lemma count_in_bump (d : list (pystr * nat)) (k0 k : pystr) :
  count_in (bump_text d k0) k
  = (count_in d k + (if bool_decide (k0 = k) then 1 else 0))%nat.
Proof.
  induction d as [| [k' n] d IH]; cbn [bump_text count_in].
  - lia.
  - destruct (bool_decide_reflect (k' = k0)) as [-> | Hne];
      cbn [count_in].
    + destruct (bool_decide (k0 = k)); lia.
    + rewrite IH. lia.
Qed.

Lemma keys_bump (d : list (pystr * nat)) (k0 : pystr) :
  forall k, k ∈ List.map fst (bump_text d k0)
            <-> k = k0 \/ k ∈ List.map fst d.
Proof.
  induction d as [| [k' n] d IH]; intros k; cbn [bump_text List.map fst].
  - rewrite list_elem_of_singleton. rewrite elem_of_nil. tauto.
  - destruct (bool_decide_reflect (k' = k0)) as [-> | Hne];
      cbn [List.map fst]; rewrite !elem_of_cons.
    + tauto.
    + rewrite IH. tauto.
Qed.

Lemma NoDup_bump (d : list (pystr * nat)) (k0 : pystr) :
  NoDup (List.map fst d) -> NoDup (List.map fst (bump_text d k0)).
Proof.
  induction d as [| [k' n] d IH]; intros Hd; cbn [bump_text List.map fst].
  - apply NoDup_singleton.
  - cbn [List.map fst] in Hd. apply NoDup_cons in Hd as [Hk Hd].
    destruct (bool_decide_reflect (k' = k0)) as [-> | Hne];
      cbn [List.map fst]; apply NoDup_cons.
    + split; assumption.
    + split; [| apply IH; exact Hd].
      rewrite keys_bump. intros [-> | Hin]; [congruence | contradiction].
Qed.

Lemma positive_bump (d : list (pystr * nat)) (k0 : pystr) :
  Forall (fun item => (0 < snd item)%nat) d ->
  Forall (fun item => (0 < snd item)%nat) (bump_text d k0).
Proof.
  induction 1 as [| [k' n] d Hn Hd IH]; cbn [bump_text].
  - constructor; [cbn; lia | constructor].
  - destruct (bool_decide (k' = k0)); constructor; cbn [snd] in *;
      try lia; assumption.
Qed.

Lemma sum_bump (d : list (pystr * nat)) (k0 : pystr) :
  list_sum (List.map snd (bump_text d k0)) = S (list_sum (List.map snd d)).
Proof.
  induction d as [| [k' n] d IH]; cbn [bump_text List.map snd].
  - reflexivity.
  - unfold list_sum in *.
    destruct (bool_decide (k' = k0)); cbn [List.map snd fold_right] in *; lia.
Qed.

(** What the counting loop leaves. *)
Lemma counted (keys : list pystr) :
  forall d : list (pystr * nat),
    NoDup (List.map fst d) ->
    Forall (fun item => (0 < snd item)%nat) d ->
    let d' := fold_left bump_text keys d in
    NoDup (List.map fst d')
    /\ Forall (fun item => (0 < snd item)%nat) d'
    /\ (forall k, count_in d' k = (count_in d k + occurrences k keys)%nat)
    /\ list_sum (List.map snd d')
       = (list_sum (List.map snd d) + length keys)%nat.
Proof.
  induction keys as [| k0 keys IH]; intros d Hd Hpos; cbn [fold_left].
  - split; [exact Hd |]. split; [exact Hpos |]. split.
    + intros k. unfold occurrences. cbn [List.filter length]. lia.
    + cbn [length]. lia.
  - destruct (IH (bump_text d k0) (NoDup_bump d k0 Hd)
                (positive_bump d k0 Hpos)) as (H1 & H2 & H3 & H4).
    split; [exact H1 |]. split; [exact H2 |]. split.
    + intros k. rewrite H3, count_in_bump. unfold occurrences.
      cbn [List.filter]. destruct (bool_decide (k0 = k)); cbn [length]; lia.
    + rewrite H4, sum_bump. cbn [length]. lia.
Qed.

Lemma count_in_absent (d : list (pystr * nat)) (k : pystr) :
  k ∉ List.map fst d -> count_in d k = 0%nat.
Proof.
  induction d as [| [k' n] d IH]; [reflexivity |].
  cbn [List.map fst count_in]. rewrite elem_of_cons. intros Hk.
  rewrite bool_decide_eq_false_2 by (intros ->; apply Hk; left; reflexivity).
  rewrite IH by (intros H; apply Hk; right; exact H). reflexivity.
Qed.

(** In a dict the entry of a key holds the count of the key. *)
Lemma entry_count (d : list (pystr * nat)) :
  NoDup (List.map fst d) ->
  Forall (fun item => (0 < snd item)%nat) d ->
  forall (k : pystr) (n : nat),
    (k, n) ∈ d <-> n = count_in d k /\ (0 < n)%nat.
Proof.
  induction d as [| [k' n'] d IH]; intros Hd Hpos k n.
  - cbn [count_in]. rewrite elem_of_nil. lia.
  - cbn [List.map fst] in Hd. apply NoDup_cons in Hd as [Hk' Hd].
    apply Forall_cons in Hpos as [Hn' Hpos]. cbn [snd] in Hn'.
    rewrite elem_of_cons. cbn [count_in].
    destruct (bool_decide_reflect (k' = k)) as [-> | Hne].
    + rewrite (count_in_absent d k Hk'). split.
      * intros [H | H].
        -- injection H as ->. lia.
        -- exfalso. apply Hk'. apply list_elem_of_fmap.
           exists (k, n). split; [reflexivity | exact H].
      * intros [-> _]. left. f_equal. lia.
    + rewrite (IH Hd Hpos k n). split.
      * intros [H | H]; [congruence | cbn; exact H].
      * intros H. right. exact H.
Qed.

(** **** Sorting *)
Lemma insert_text_perm (x : pystr * nat) (s : list (pystr * nat)) :
  insert_text x s ≡ₚ x :: s.
Proof.
  induction s as [| y s IH]; [reflexivity |]. cbn [insert_text].
  destruct (text_lt x y); [reflexivity |].
  rewrite IH. apply Permutation_swap.
Qed.

Lemma insert_text_sorted (x : pystr * nat) (s : list (pystr * nat)) :
  StronglySorted key_lt s ->
  fst x ∉ List.map fst s ->
  StronglySorted key_lt (insert_text x s).
Proof.
  induction 1 as [| y s Hs IH Hy]; intros Hx; cbn [insert_text].
  - repeat constructor.
  - cbn [List.map] in Hx. apply not_elem_of_cons in Hx as [Hxy Hx].
    unfold text_lt. rewrite bool_decide_eq_false_2 by exact Hxy.
    destruct (str_lt (fst x) (fst y)) eqn:Hlt.
    + constructor; [constructor; assumption |].
      constructor; [exact Hlt |].
      eapply Forall_impl; [exact Hy |]. intros z Hz.
      unfold key_lt in *. eapply str_lt_trans; eassumption.
    + constructor; [apply IH; exact Hx |].
      apply Forall_forall. intros z Hz.
      rewrite (insert_text_perm x s) in Hz.
      apply elem_of_cons in Hz as [-> | Hz].
      * apply str_lt_total; [congruence | exact Hlt].
      * rewrite Forall_forall in Hy. apply Hy. exact Hz.
Qed.

Lemma sort_text_spec (d : list (pystr * nat)) :
  forall s : list (pystr * nat),
    StronglySorted key_lt s ->
    NoDup (List.map fst (d ++ s)) ->
    let sorted := fold_left (fun acc x => insert_text x acc) d s in
    StronglySorted key_lt sorted /\ sorted ≡ₚ d ++ s.
Proof.
  induction d as [| x d IH]; intros s Hs Hnd; cbn [fold_left].
  - split; [exact Hs | reflexivity].
  - cbn [app List.map] in Hnd. apply NoDup_cons in Hnd as [Hx Hnd].
    rewrite List.map_app in Hx, Hnd.
    destruct (IH (insert_text x s)) as [H1 H2].
    + apply insert_text_sorted; [exact Hs |].
      intros Hin. apply Hx. apply elem_of_app. right. exact Hin.
    + rewrite List.map_app.
      rewrite (Permutation_map fst (insert_text_perm x s)).
      cbn [List.map]. apply NoDup_app in Hnd as (Hd & Hds & Hs').
      apply NoDup_app. split; [exact Hd |]. split.
      * intros k Hk. rewrite elem_of_cons. intros [-> | Hin].
        -- apply Hx. apply elem_of_app. left. exact Hk.
        -- exact (Hds k Hk Hin).
      * apply NoDup_cons. split; [| exact Hs'].
        intros Hin. apply Hx. apply elem_of_app. right. exact Hin.
    + split; [exact H1 |]. cbn [app]. rewrite H2.
      rewrite (insert_text_perm x s). symmetry. apply Permutation_middle.
Qed.

Lemma list_sum_perm (l l' : list nat) : l ≡ₚ l' -> list_sum l = list_sum l'.
Proof.
  induction 1; unfold list_sum in *; cbn [fold_right] in *; lia.
Qed.

Lemma occurrences_perm (k : pystr) (keys keys' : list pystr) :
  keys ≡ₚ keys' -> occurrences k keys = occurrences k keys'.
Proof.
  unfold occurrences.
  induction 1 as [| x l l' _ IH | x y l | l l' l'' _ IH1 _ IH2];
    cbn [List.filter].
  - reflexivity.
  - destruct (bool_decide (x = k)); cbn [length]; lia.
  - destruct (bool_decide (x = k)), (bool_decide (y = k)); reflexivity.
  - lia.
Qed.

Lemma tally_tallies (keys : list pystr) : tallies (tally keys) keys.
Proof.
  unfold tally.
  destruct (counted keys [] (NoDup_nil_2 (A:=pystr)) (Forall_nil_2 _))
    as (Hnd & Hpos & Hcount & Hsum).
  cbn [count_in List.map list_sum fold_right] in Hcount, Hsum.
  destruct (sort_text_spec (fold_left bump_text keys []) []
              (SSorted_nil _)) as [Hsorted Hperm].
  { rewrite app_nil_r. exact Hnd. }
  rewrite app_nil_r in Hperm.
  split; [exact Hsorted |]. split.
  - intros k n. rewrite Hperm. rewrite entry_count by assumption.
    rewrite Hcount. reflexivity.
  - rewrite (list_sum_perm _ _ (Permutation_map snd Hperm)). exact Hsum.
Qed.

Lemma sorted_NoDup (items : list (pystr * nat)) :
  StronglySorted key_lt items -> NoDup items.
Proof.
  induction 1 as [| x l Hl IH Hx]; [apply NoDup_nil_2 |].
  apply NoDup_cons. split; [| exact IH].
  intros Hin. rewrite Forall_forall in Hx. specialize (Hx x Hin).
  unfold key_lt in Hx. rewrite str_lt_irrefl in Hx. discriminate Hx.
Qed.

(** Two keys lists with the same members, each as often, have the same
    tally. *)
Lemma tallies_unique (items items' : list (pystr * nat))
    (keys keys' : list pystr) :
  tallies items keys -> tallies items' keys' -> keys ≡ₚ keys' ->
  items = items'.
Proof.
  intros (Hs & Hin & _) (Hs' & Hin' & _) Hperm.
  apply (StronglySorted_unique_strong key_lt); try assumption.
  - intros a b _ _ Hab Hba. exfalso. unfold key_lt in *.
    pose proof (str_lt_trans _ _ _ Hab Hba) as H.
    rewrite str_lt_irrefl in H. discriminate H.
  - apply NoDup_Permutation; [apply sorted_NoDup; exact Hs
                             | apply sorted_NoDup; exact Hs' |].
    intros [k n]. rewrite Hin, Hin'.
    rewrite (occurrences_perm k keys keys' Hperm). reflexivity.
Qed.

(** **** The run of [get_collection_stats] *)
Lemma column_texts (key : pystr) (metadatas : list metadata) :
  Forall (fun m => is_Some (text_at key m)) metadatas ->
  column key metadatas = Ok (List.map VStr (texts_at key metadatas)).
Proof.
  induction 1 as [| m metadatas [s Hs] _ IH]; [reflexivity |].
  cbn [column texts_at omap list_omap]. fold (texts_at key metadatas).
  rewrite Hs. unfold text_at in Hs. unfold py_item.
  destruct (dict_get m key) as [[] |]; try discriminate Hs.
  injection Hs as ->. cbn [bind_result]. rewrite IH. reflexivity.
Qed.

Lemma texts_at_length (key : pystr) (metadatas : list metadata) :
  Forall (fun m => is_Some (text_at key m)) metadatas ->
  length (texts_at key metadatas) = length metadatas.
Proof.
  induction 1 as [| m metadatas [s Hs] _ IH]; [reflexivity |].
  cbn [texts_at omap list_omap]. rewrite Hs. cbn [length]. f_equal. exact IH.
Qed.

Lemma count_truthy_flags (metadatas : list metadata) :
  Forall (fun m => is_Some (dict_get m (U "thesis_required"))) metadatas ->
  count_truthy (U "thesis_required") metadatas
  = Ok (length (List.filter thesis_flag metadatas)).
Proof.
  induction 1 as [| m metadatas [v Hv] _ IH]; [reflexivity |].
  cbn [count_truthy List.filter]. unfold py_item, thesis_flag.
  rewrite Hv. cbn [bind_result]. rewrite IH. cbn [bind_result].
  destruct (truthy v); reflexivity.
Qed.

Lemma print_distribution_run (key title : pystr) (metadatas : list metadata)
    (st : state) :
  Forall (fun m => is_Some (text_at key m)) metadatas ->
  print_distribution key title metadatas st
  = (Ok tt,
     State (collections st) (self_collection st) (calls st)
       (stdout st ++ (NL ++ title)
          :: List.map tally_line (tally (texts_at key metadatas)))).
Proof.
  intros Hm. unfold print_distribution.
  rewrite (column_texts key metadatas Hm).
  unfold bind at 1, lift at 1, ret at 1. cbv beta iota.
  change (@nil (pyval * nat)) with (text_items []) at 1.
  rewrite count_values_texts.
  unfold bind at 1, lift at 1, ret at 1. cbv beta iota.
  unfold bind at 1, print at 1. cbv beta iota.
  change (@nil (pyval * nat)) with (text_items []) at 1.
  rewrite sorted_items_texts.
  unfold bind at 1, lift at 1, ret at 1. cbv beta iota.
  rewrite print_counts_texts.
  cbn [collections self_collection calls stdout].
  rewrite <- app_assoc. reflexivity.
Qed.

Lemma stats_run (handle : pystr) (content : list entry) (st : state) :
  self_collection st = Some handle ->
  collections st !! handle = Some content ->
  Forall catalogued (List.map entry_metadata content) ->
  get_collection_stats None st
  = (Ok tt,
     State (collections st) (Some handle) (calls st)
       (stdout st
          ++ stats_lines (length content)
               (tally (texts_at (U "region") (List.map entry_metadata content)))
               (tally (texts_at (U "tier") (List.map entry_metadata content)))
               (length (List.filter thesis_flag
                          (List.map entry_metadata content))))).
Proof.
  intros Hopen Hl Hcat. destruct st as [cs sc cl o].
  cbn [self_collection collections] in Hopen, Hl. subst sc.
  assert (Hregion : Forall (fun m => is_Some (text_at (U "region") m))
                      (List.map entry_metadata content)).
  { eapply Forall_impl; [exact Hcat |]. intros m (H & _ & _). exact H. }
  assert (Htier : Forall (fun m => is_Some (text_at (U "tier") m))
                    (List.map entry_metadata content)).
  { eapply Forall_impl; [exact Hcat |]. intros m (_ & H & _). exact H. }
  assert (Hthesis : Forall (fun m => is_Some (dict_get m (U "thesis_required")))
                      (List.map entry_metadata content)).
  { eapply Forall_impl; [exact Hcat |]. intros m (_ & _ & H). exact H. }
  unfold get_collection_stats, Reads.collection_get.
  unfold bind at 1. unfold get_state at 1. cbn [self_collection].
  unfold bind at 1. unfold bind at 1. unfold get_state at 1.
  cbn [collections]. rewrite Hl. unfold ret at 1.
  unfold bind at 1. unfold print at 1.
  unfold bind at 1. unfold print at 1.
  unfold bind at 1. unfold print at 1.
  unfold bind at 1. rewrite (print_distribution_run _ _ _ _ Hregion).
  unfold bind at 1. rewrite (print_distribution_run _ _ _ _ Htier).
  rewrite (count_truthy_flags _ Hthesis).
  unfold bind, lift, ret, print.
  cbn [collections self_collection calls stdout].
  rewrite length_map. unfold stats_lines.
  repeat rewrite <- app_assoc. cbn [app]. reflexivity.
Qed.

(** X19. The statistics of a collection whose records are catalogued: the
    total, then for the regions and for the tiers the keys that occur,
    each once and in increasing order, with the number of records that
    have the key, and the number of records whose thesis flag is set.
    The counts of the regions add up to the total, and so do those of the
    tiers. *)
Theorem stats_tally_records (handle : pystr) (content : list entry)
    (st : state) :
  self_collection st = Some handle ->
  collections st !! handle = Some content ->
  Forall catalogued (List.map entry_metadata content) ->
  exists regions tiers : list (pystr * nat),
    get_collection_stats None st
    = (Ok tt,
       State (collections st) (Some handle) (calls st)
         (stdout st
            ++ stats_lines (length content) regions tiers
                 (length (List.filter thesis_flag
                            (List.map entry_metadata content)))))
    /\ tallies regions (texts_at (U "region") (List.map entry_metadata content))
    /\ tallies tiers (texts_at (U "tier") (List.map entry_metadata content))
    /\ list_sum (List.map snd regions) = length content
    /\ list_sum (List.map snd tiers) = length content.
Proof.
  intros Hopen Hl Hcat.
  exists (tally (texts_at (U "region") (List.map entry_metadata content))),
         (tally (texts_at (U "tier") (List.map entry_metadata content))).
  split; [apply stats_run; assumption |].
  pose proof (tally_tallies
                (texts_at (U "region") (List.map entry_metadata content)))
    as Hr.
  pose proof (tally_tallies
                (texts_at (U "tier") (List.map entry_metadata content)))
    as Ht.
  split; [exact Hr |]. split; [exact Ht |].
  destruct Hr as (_ & _ & ->). destruct Ht as (_ & _ & ->).
  rewrite !texts_at_length; [rewrite length_map; split; reflexivity | |].
  - eapply Forall_impl; [exact Hcat |]. intros m (_ & H & _). exact H.
  - eapply Forall_impl; [exact Hcat |]. intros m (H & _ & _). exact H.
Qed.

Lemma sample_content_catalogued :
  Forall catalogued (List.map entry_metadata sample_content).
Proof.
  repeat constructor; eexists; vm_compute; reflexivity.
Qed.

Lemma stats_tally_records_witness :
  exists regions tiers : list (pystr * nat),
    get_collection_stats None (open_db NAME sample_content)
    = (Ok tt,
       State {[ NAME := sample_content ]} (Some NAME) []
         (stats_lines 2 regions tiers 2))
    /\ list_sum (List.map snd regions) = 2%nat
    /\ list_sum (List.map snd tiers) = 2%nat.
Proof.
  destruct (stats_tally_records NAME sample_content
              (open_db NAME sample_content) eq_refl
              (lookup_singleton_eq _ _) sample_content_catalogued)
    as (regions & tiers & Hrun & _ & _ & Hregions & Htiers).
  exists regions, tiers. split; [exact Hrun |].
  split; [exact Hregions | exact Htiers].
Defined.

Lemma filter_length_perm {A : Type} (f : A -> bool) (l l' : list A) :
  l ≡ₚ l' -> length (List.filter f l) = length (List.filter f l').
Proof.
  induction 1 as [| x l l' _ IH | x y l | l l' l'' _ IH1 _ IH2];
    cbn [List.filter].
  - reflexivity.
  - destruct (f x); cbn [length]; lia.
  - destruct (f x), (f y); reflexivity.
  - lia.
Qed.

(** X20. The statistics do not depend on the order in which the store holds
    the records. *)
Theorem stats_order_independent (handle : pystr) (content content' : list entry)
    (cs cs' : gmap pystr (list entry)) (cl : list call) (out : list pystr) :
  cs !! handle = Some content ->
  cs' !! handle = Some content' ->
  content ≡ₚ content' ->
  Forall catalogued (List.map entry_metadata content) ->
  fst (get_collection_stats None (State cs (Some handle) cl out))
  = fst (get_collection_stats None (State cs' (Some handle) cl out))
  /\ stdout (snd (get_collection_stats None (State cs (Some handle) cl out)))
     = stdout (snd (get_collection_stats None
                      (State cs' (Some handle) cl out))).
Proof.
  intros Hl Hl' Hperm Hcat.
  assert (Hmetas : List.map entry_metadata content
                   ≡ₚ List.map entry_metadata content')
    by (apply Permutation_map; exact Hperm).
  assert (Hcat' : Forall catalogued (List.map entry_metadata content'))
    by (rewrite <- Hmetas; exact Hcat).
  rewrite (stats_run handle content (State cs (Some handle) cl out) eq_refl
             Hl Hcat).
  rewrite (stats_run handle content' (State cs' (Some handle) cl out) eq_refl
             Hl' Hcat').
  cbn [fst snd stdout]. split; [reflexivity |].
  rewrite (Permutation_length Hperm).
  rewrite (filter_length_perm thesis_flag _ _ Hmetas).
  assert (Htally : forall key,
            tally (texts_at key (List.map entry_metadata content))
            = tally (texts_at key (List.map entry_metadata content'))).
  { intros key. eapply tallies_unique; try apply tally_tallies.
    unfold texts_at. rewrite Hmetas. reflexivity. }
  rewrite !Htally. reflexivity.
Qed.

Lemma stats_order_independent_witness :
  stdout (snd (get_collection_stats None (open_db NAME sample_content)))
  = stdout (snd (get_collection_stats None
                   (open_db NAME (rev sample_content)))).
Proof.
  apply (stats_order_independent NAME sample_content (rev sample_content)
           {[ NAME := sample_content ]} {[ NAME := rev sample_content ]}
           [] []).
  - apply lookup_singleton_eq.
  - apply lookup_singleton_eq.
  - apply Permutation_rev.
  - exact sample_content_catalogued.
Defined.

(** What [make_metadata] writes is catalogued. *)
Lemma make_metadata_catalogued (r : row) (m : metadata) :
  make_metadata r = Ok m -> catalogued m.
Proof.
  unfold make_metadata. destruct (count_of (admission_data_count r));
    [| discriminate]. cbn [bind_result]. intros H. injection H as <-.
  repeat match goal with
         | |- context [cell_str ?c] => generalize (cell_str c); intro
         | |- context [flag_of ?c] => generalize (flag_of c); intro
         end.
  repeat split; eexists; vm_compute; reflexivity.
Qed.

(** X21. The errors of the statistics: with no collection open a line is
    printed and nothing is raised; and a record without a region makes
    [KeyError], raised once the total has been printed and before any
    count is. *)
Theorem stats_failure_modes (handle : pystr) (content : list entry)
    (fault : option exn) (st : state) :
  self_collection st = Some handle ->
  collections st !! handle = Some content ->
  Exists (fun m => dict_get m (U "region") = None)
    (List.map entry_metadata content) ->
  (forall (cs : gmap pystr (list entry)) (cl : list call) (out : list pystr),
     get_collection_stats fault (State cs None cl out)
     = (Ok tt, State cs None cl (out ++ [U "❌ 集合未初始化"])))
  /\ get_collection_stats None st
     = (Raise (Exn KeyError (str_repr (U "region"))),
        State (collections st) (Some handle) (calls st)
          (stdout st
             ++ [ NL ++ U "📊 集合统计信息"; List.concat (repeat (U "=") 30);
                  U "总项目数: " ++ str_of_nat (length content) ])).
Proof.
  intros Hopen Hl Hmissing. split; [intros cs0 cl0 o0; reflexivity |].
  destruct st as [cs sc cl o].
  cbn [self_collection collections calls stdout] in *. subst sc.
  assert (Hcolumn : column (U "region") (List.map entry_metadata content)
                    = Raise (Exn KeyError (str_repr (U "region")))).
  { induction Hmissing as [m l Hm | m l _ IH].
    - cbn [column]. unfold py_item. rewrite Hm. reflexivity.
    - cbn [column]. unfold py_item.
      destruct (dict_get m (U "region")); [| reflexivity].
      cbn [bind_result]. rewrite IH. reflexivity. }
  unfold get_collection_stats, Reads.collection_get, print_distribution.
  unfold bind at 1, get_state at 1. cbv beta iota. cbn [self_collection].
  unfold bind at 1. unfold bind at 1, get_state at 1. cbv beta iota.
  cbn [collections]. rewrite Hl. unfold ret at 1. cbv beta iota.
  rewrite Hcolumn.
  cbv beta iota delta [bind print lift raise].
  cbn [collections self_collection calls stdout].
  rewrite length_map. repeat rewrite <- app_assoc. reflexivity.
Qed.

Lemma stats_failure_modes_witness :
  get_collection_stats None closed_db
  = (Ok tt, State ∅ None [] [U "❌ 集合未初始化"])
  /\ get_collection_stats None
       (open_db NAME
          [Entry (U "program_0") (U "text") [(U "tier", VStr (U "T0"))]])
     = (Raise (Exn KeyError (U "'region'")),
        State {[ NAME := [Entry (U "program_0") (U "text")
                            [(U "tier", VStr (U "T0"))]] ]}
          (Some NAME) []
          [ NL ++ U "📊 集合统计信息"; List.concat (repeat (U "=") 30);
            U "总项目数: 1" ]).
Proof.
  destruct (stats_failure_modes NAME
              [Entry (U "program_0") (U "text") [(U "tier", VStr (U "T0"))]]
              None
              (open_db NAME [Entry (U "program_0") (U "text")
                               [(U "tier", VStr (U "T0"))]])
              eq_refl (lookup_singleton_eq _ _)
              ltac:(constructor; reflexivity))
    as [Hclosed Hmissing].
  split; [apply Hclosed | exact Hmissing].
Defined.
